(** * A shallow embedding of the MCP request/response runtime

    The development follows the Go packages of the repository:
    [Core] (core/models.go and the status types), [Runtime] (the pieces of
    the Go runtime and of the network the components talk to: clock,
    cancellation contexts, goroutines, dialing, listening), [Client]
    (client/client.go) and [Server] (server/server.go, server/handler.go).

    Conventions.
    - A Go [int] is a [Z]; where the code increments one, the 64-bit
      wrap-around is written out ([wrap_int]).
    - An instant ([time.Time]) is a [Z]: nanoseconds since the Unix epoch.
      A [time.Duration] is a [Z] of nanoseconds.
    - A Go [map[string]T] is a [gmap string T].
    - [error] values are an inductive type, one constructor per place the
      code builds an error, with [Error_msg] giving the Go message.
    - Logging ([log.Printf]) is not modelled. *)

From stdpp Require Import gmap strings list.
From Stdlib Require Import ZArith Lia Ascii.

Local Open Scope string_scope.
Local Open Scope Z_scope.
Local Open Scope list_scope.

(* ===================================================================== *)
(** ** Go integers and decimal printing *)
(* ===================================================================== *)

Definition int_min : Z := - 2 ^ 63.
Definition int_max : Z := 2 ^ 63 - 1.

(** Values a Go [int] (64 bits) can hold. *)
Definition int_range (x : Z) : Prop := int_min <= x <= int_max.

(** Two's complement wrap-around of 64-bit signed arithmetic. *)
Definition wrap_int (x : Z) : Z := (x + 2 ^ 63) mod 2 ^ 64 - 2 ^ 63.

Definition digit_char (d : Z) : ascii :=
  ascii_of_nat (48 + Z.to_nat d).

Fixpoint utoa_fuel (fuel : nat) (x : Z) (acc : string) : string :=
  match fuel with
  | O => acc
  | S fuel' =>
      let acc' := String (digit_char (x mod 10)) acc in
      if x / 10 =? 0 then acc' else utoa_fuel fuel' (x / 10) acc'
  end.

(** Decimal digits of a non-negative integer. *)
Definition utoa (x : Z) : string :=
  utoa_fuel (S (Z.to_nat (Z.log2 x))) x "".

Fixpoint zeros (n : nat) : string :=
  match n with
  | O => ""
  | S n' => String "0" (zeros n')
  end.

(** [appendInt] of package time: sign, then the digits padded with zeros on
    the left up to [width]. *)
Definition appendInt (x : Z) (width : nat) : string :=
  let u := utoa (Z.abs x) in
  (if x <? 0 then "-" else "") +:+ zeros (width - String.length u)%nat +:+ u.

(** [%d] of package fmt. *)
Definition itoa (x : Z) : string := appendInt x 0.

(* ===================================================================== *)
(** ** Package core *)
(* ===================================================================== *)

Module Core.

(** [type Status int] with its five constants. *)
Inductive Status : Set :=
  | StatusStopped
  | StatusStarting
  | StatusRunning
  | StatusStopping
  | StatusFailed.

#[global] Instance Status_eq_dec : EqDecision Status.
Proof. solve_decision. Defined.

(** [func (s Status) String() string] *)
Definition Status_String (s : Status) : string :=
  match s with
  | StatusStopped => "Stopped"
  | StatusStarting => "Starting"
  | StatusRunning => "Running"
  | StatusStopping => "Stopping"
  | StatusFailed => "Failed"
  end.

(** The errors the packages build.  [NetError] stands for an error coming
    from package net or from the transport; the others are named after the
    place that creates them. *)
Inductive error : Set :=
  | NetError (msg : string)
  | StateError (op who : string) (st : Status)
  | ConnectionError (what addr : string) (cause : error)
  | ReconnectExhausted
  | AlreadyRegistered (method : string)
  | NotConnected
  | RPCError (cause : error)
  | HandlerError (msg : string).

(** [err.Error()] *)
Fixpoint Error_msg (e : error) : string :=
  match e with
  | NetError msg => msg
  | StateError op who st =>
      "cannot " +:+ op +:+ " " +:+ who +:+ " in " +:+ Status_String st +:+ " state"
  | ConnectionError what addr cause =>
      "failed to " +:+ what +:+ " " +:+ addr +:+ ": " +:+ Error_msg cause
  | ReconnectExhausted => "max reconnection attempts reached"
  | AlreadyRegistered method =>
      "handler for method " +:+ method +:+ " already registered"
  | NotConnected => "not connected to server"
  | RPCError cause => "RPC error: " +:+ Error_msg cause
  | HandlerError msg => msg
  end.

(** [type StatusChangeEvent struct] *)
Record StatusChangeEvent : Set := {
  OldStatus : Status;
  NewStatus : Status;
  Timestamp : Z;
  Error : option error
}.

(** A value stored behind [interface{}] in the data and result maps. *)
Inductive Value : Set :=
  | VString (s : string)
  | VInt (n : Z)
  | VBool (b : bool)
  | VNull.

(** [type Parameter struct] ([Parameter] is a reserved word here). *)
Record Param : Type := {
  Name : string;
  Value_ : Value;
  Type_ : string
}.

(** [type ModelRequest struct] *)
Record ModelRequest : Type := {
  ID : string;
  ModelData : gmap string Value;
  Parameters : list Param
}.

(** [type ModelResponse struct] *)
Record ModelResponse : Type := {
  RespID : string;
  Success : bool;
  ErrorMessage : string;
  Results : gmap string Value;
  RespTimestamp : Z
}.

(** *** time.Format for the layout "20060102150405"

    Package time is Go's standard library.  An instant is split into the
    day number and the second of the day in the zone of the instant; the
    day number is converted to a proleptic Gregorian date. *)

(** A [*time.Location]: the offset east of UTC, in seconds, in force at a
    given Unix second. *)
Definition Location : Type := Z -> Z.

Definition UTC : Location := fun _ => 0.

Definition nanos_per_second : Z := 1000000000.

(** [t.Unix()] *)
Definition Unix (t : Z) : Z := t / nanos_per_second.

(** Year, month and day of a day number counted from 1970-01-01. *)
Definition civil_from_days (days : Z) : Z * Z * Z :=
  let z := days + 719468 in
  let era := z / 146097 in
  let doe := z mod 146097 in
  let yoe := (doe - doe / 1460 + doe / 36524 - doe / 146096) / 365 in
  let doy := doe - (365 * yoe + yoe / 4 - yoe / 100) in
  let mp := (5 * doy + 2) / 153 in
  let d := doy - (153 * mp + 2) / 5 + 1 in
  let m := if mp <? 10 then mp + 3 else mp - 9 in
  let y := yoe + era * 400 + (if m <=? 2 then 1 else 0) in
  (y, m, d).

(** The layout "20060102150405" applied to a wall-clock second count:
    year on four digits, then month, day, hour, minute and second on two
    digits each. *)
Definition format_wall_seconds (abs : Z) : string :=
  let '(y, m, d) := civil_from_days (abs / 86400) in
  let sod := abs mod 86400 in
  appendInt y 4 +:+ appendInt m 2 +:+ appendInt d 2
    +:+ appendInt (sod / 3600) 2 +:+ appendInt (sod mod 3600 / 60) 2
    +:+ appendInt (sod mod 60) 2.

(** [t.Format("20060102150405")] for an instant [t] carrying location
    [loc]. *)
Definition Format_20060102150405 (loc : Location) (t : Z) : string :=
  format_wall_seconds (Unix t + loc (Unix t)).

(** [func generateID() string], with the value of [time.Now()] made an
    argument. *)
Definition generateID (loc : Location) (now : Z) : string :=
  "mcp-" +:+ Format_20060102150405 loc now.

(** [func NewModelRequest() *ModelRequest] *)
Definition NewModelRequest (loc : Location) (now : Z) : ModelRequest :=
  {| ID := generateID loc now;
     ModelData := ∅;
     Parameters := [] |}.

(** [func NewModelResponse(req *ModelRequest) *ModelResponse] *)
Definition NewModelResponse (req : ModelRequest) (now : Z) : ModelResponse :=
  {| RespID := ID req;
     Success := true;
     ErrorMessage := "";
     Results := ∅;
     RespTimestamp := now |}.


(** [resp.Results[k] = v] *)
Definition set_result (k : string) (v : Value) (resp : ModelResponse)
  : ModelResponse :=
  {| RespID := RespID resp;
     Success := Success resp;
     ErrorMessage := ErrorMessage resp;
     Results := <[k := v]> (Results resp);
     RespTimestamp := RespTimestamp resp |}.

End Core.

Import Core.

(* ===================================================================== *)
(** ** The runtime the components run on *)
(* ===================================================================== *)

Module Runtime.

(** What a call that may block or crash does. *)
Inductive Outcome (A : Type) : Type :=
  | Returns (a : A)
  | Panics (msg : string)
  | Hangs.
Arguments Returns {A} a.
Arguments Panics {A} msg.
Arguments Hangs {A}.

(** A registered [func(core.StatusChangeEvent)], known by its identity; what
    it does with an event is to receive it. *)
Definition Callback : Set := nat.

(** [jsonrpc2.ID] *)
Inductive RpcID : Set :=
  | IDNum (n : Z)
  | IDStr (s : string).

(** Error codes of package jsonrpc2. *)
Definition CodeParseError : Z := -32700.
Definition CodeInvalidRequest : Z := -32600.
Definition CodeMethodNotFound : Z := -32601.
Definition CodeInvalidParams : Z := -32602.
Definition CodeInternalError : Z := -32603.

(** [jsonrpc2.Error] *)
Record RpcError : Set := {
  Code : Z;
  Message : string
}.

(** A reply written on a connection: [conn.Reply] sends a result,
    [conn.ReplyWithError] sends a protocol error.  The result is the
    handler's [*core.ModelResponse], which may be nil. *)
Inductive Reply : Type :=
  | ReplyResult (id : RpcID) (result : option ModelResponse)
  | ReplyError (id : RpcID) (err : RpcError).


(** The payload of a call, [*json.RawMessage], by what [json.Unmarshal]
    into a [core.ModelRequest] makes of it (the byte encoding is the
    transport's business). *)
Inductive RawMessage : Type :=
  | Decodes (req : ModelRequest)
  | Malformed (why : string).

(** [json.Unmarshal(raw, &modelReq)] *)
Definition Unmarshal (raw : RawMessage) : ModelRequest + string :=
  match raw with
  | Decodes req => inl req
  | Malformed why => inr why
  end.

(** [jsonrpc2.Request]; [Params] is a pointer and may be nil. *)
Record Request : Type := {
  Method : string;
  Params : option RawMessage;
  ReqID : RpcID
}.

(** [*jsonrpc2.Conn]: the context given to [jsonrpc2.NewConn], whether the
    connection is closed (by either end), and the replies written on it. *)
Record Conn : Type := {
  conn_ctx : nat;
  conn_closed : bool;
  conn_sent : list Reply
}.

Definition close_conn (c : Conn) : Conn :=
  {| conn_ctx := conn_ctx c; conn_closed := true; conn_sent := conn_sent c |}.

(** An open connection with one more reply written on it. *)
Definition push (r : Reply) (c : Conn) : Conn :=
  {| conn_ctx := conn_ctx c; conn_closed := false;
     conn_sent := conn_sent c ++ [r] |}.

(** [conn.Reply] and [conn.ReplyWithError] write on an open connection and
    fail with [jsonrpc2.ErrClosed] on a closed one. *)
Definition send (r : Reply) (c : Conn) : option error * Conn :=
  if conn_closed c then (Some (NetError "jsonrpc2: connection is closed"), c)
  else (None, push r c).

(** The world outside the component's own fields.
    - [now]: the clock.
    - [ctxs]: the cancellation contexts made by [context.WithCancel], by
      identity; each with the instant at which its cancel function is
      called, if it is.  An instant later than [now] stands for a cancel
      issued by another goroutine while this one is blocked.
    - [notifications]: the goroutines started by [go callback(event)] that
      have not run yet; [delivered]: the callback invocations made so far,
      oldest first.
    - [dial_result], [listen_result]: what the n-th [Dial] and the n-th
      [net.Listen] of the run answer ([None] is success); [dials] and
      [listens] count the calls made.
    - [conns]: the jsonrpc2 connections, by identity.
    - [monitors]: the client's [monitorConnection] goroutines blocked on
      [DisconnectNotify], by connection.
    - [listeners]: the listeners, by identity, [true] while open.
    - [acceptors]: the server's [acceptConnections] goroutines, by listener.
    - [serving]: the server's [handleConnection] goroutines, by
      connection. *)
Record World : Type := {
  now : Z;
  ctxs : list (option Z);
  notifications : list (Callback * StatusChangeEvent);
  delivered : list (Callback * StatusChangeEvent);
  dial_result : nat -> option string;
  dials : nat;
  listen_result : nat -> option string;
  listens : nat;
  conns : list Conn;
  monitors : list nat;
  listeners : list bool;
  acceptors : list nat;
  serving : list nat
}.

Definition set_now (v : Z) (w : World) : World :=
  {| now := v; ctxs := ctxs w; notifications := notifications w;
     delivered := delivered w; dial_result := dial_result w;
     dials := dials w; listen_result := listen_result w;
     listens := listens w; conns := conns w; monitors := monitors w;
     listeners := listeners w; acceptors := acceptors w;
     serving := serving w |}.

Definition set_ctxs (v : list (option Z)) (w : World) : World :=
  {| now := now w; ctxs := v; notifications := notifications w;
     delivered := delivered w; dial_result := dial_result w;
     dials := dials w; listen_result := listen_result w;
     listens := listens w; conns := conns w; monitors := monitors w;
     listeners := listeners w; acceptors := acceptors w;
     serving := serving w |}.

Definition set_notifications (v : list (Callback * StatusChangeEvent))
  (w : World) : World :=
  {| now := now w; ctxs := ctxs w; notifications := v;
     delivered := delivered w; dial_result := dial_result w;
     dials := dials w; listen_result := listen_result w;
     listens := listens w; conns := conns w; monitors := monitors w;
     listeners := listeners w; acceptors := acceptors w;
     serving := serving w |}.

Definition set_delivered (v : list (Callback * StatusChangeEvent))
  (w : World) : World :=
  {| now := now w; ctxs := ctxs w; notifications := notifications w;
     delivered := v; dial_result := dial_result w;
     dials := dials w; listen_result := listen_result w;
     listens := listens w; conns := conns w; monitors := monitors w;
     listeners := listeners w; acceptors := acceptors w;
     serving := serving w |}.

Definition set_dials (v : nat) (w : World) : World :=
  {| now := now w; ctxs := ctxs w; notifications := notifications w;
     delivered := delivered w; dial_result := dial_result w;
     dials := v; listen_result := listen_result w;
     listens := listens w; conns := conns w; monitors := monitors w;
     listeners := listeners w; acceptors := acceptors w;
     serving := serving w |}.

Definition set_listens (v : nat) (w : World) : World :=
  {| now := now w; ctxs := ctxs w; notifications := notifications w;
     delivered := delivered w; dial_result := dial_result w;
     dials := dials w; listen_result := listen_result w;
     listens := v; conns := conns w; monitors := monitors w;
     listeners := listeners w; acceptors := acceptors w;
     serving := serving w |}.

Definition set_conns (v : list Conn) (w : World) : World :=
  {| now := now w; ctxs := ctxs w; notifications := notifications w;
     delivered := delivered w; dial_result := dial_result w;
     dials := dials w; listen_result := listen_result w;
     listens := listens w; conns := v; monitors := monitors w;
     listeners := listeners w; acceptors := acceptors w;
     serving := serving w |}.

Definition set_monitors (v : list nat) (w : World) : World :=
  {| now := now w; ctxs := ctxs w; notifications := notifications w;
     delivered := delivered w; dial_result := dial_result w;
     dials := dials w; listen_result := listen_result w;
     listens := listens w; conns := conns w; monitors := v;
     listeners := listeners w; acceptors := acceptors w;
     serving := serving w |}.

Definition set_listeners (v : list bool) (w : World) : World :=
  {| now := now w; ctxs := ctxs w; notifications := notifications w;
     delivered := delivered w; dial_result := dial_result w;
     dials := dials w; listen_result := listen_result w;
     listens := listens w; conns := conns w; monitors := monitors w;
     listeners := v; acceptors := acceptors w;
     serving := serving w |}.

Definition set_acceptors (v : list nat) (w : World) : World :=
  {| now := now w; ctxs := ctxs w; notifications := notifications w;
     delivered := delivered w; dial_result := dial_result w;
     dials := dials w; listen_result := listen_result w;
     listens := listens w; conns := conns w; monitors := monitors w;
     listeners := listeners w; acceptors := v;
     serving := serving w |}.

Definition set_serving (v : list nat) (w : World) : World :=
  {| now := now w; ctxs := ctxs w; notifications := notifications w;
     delivered := delivered w; dial_result := dial_result w;
     dials := dials w; listen_result := listen_result w;
     listens := listens w; conns := conns w; monitors := monitors w;
     listeners := listeners w; acceptors := acceptors w;
     serving := v |}.

(** A world in which nothing has happened yet. *)
Definition genesis (start : Z) (dial listen : nat -> option string) : World :=
  {| now := start; ctxs := []; notifications := []; delivered := [];
     dial_result := dial; dials := 0%nat;
     listen_result := listen; listens := 0%nat;
     conns := []; monitors := []; listeners := []; acceptors := [];
     serving := [] |}.

(** [time.Sleep(d)]: returns once [d] has elapsed, at once when [d] is not
    positive. Nothing wakes it early. *)
Definition Sleep (d : Z) (w : World) : World :=
  set_now (now w + Z.max 0 d) w.

(** [context.WithCancel(context.Background())]: a new context, not
    cancelled. *)
Definition WithCancel (w : World) : nat * World :=
  (length (ctxs w), set_ctxs (ctxs w ++ [None]) w).

(** Whether [<-ctx.Done()] is ready. *)
Definition ctx_done (w : World) (ctx : nat) : bool :=
  match ctxs w !! ctx with
  | Some (Some t) => bool_decide (t <= now w)
  | _ => false
  end.

(** Calling the cancel function of [ctx]; later calls do nothing. *)
Definition cancel (ctx : nat) (w : World) : World :=
  if ctx_done w ctx then w
  else set_ctxs (<[ctx := Some (now w)]> (ctxs w)) w.

(** [go callback(event)]: the goroutine is started, not run. *)
Definition go_callback (cb : Callback) (event : StatusChangeEvent)
  (w : World) : World :=
  set_notifications (notifications w ++ [(cb, event)]) w.

(** The scheduler runs the i-th waiting notification goroutine: its
    callback receives the event.  Go fixes no order among goroutines. *)
Definition deliver (i : nat) (w : World) : World :=
  match notifications w !! i with
  | Some task =>
      set_delivered (delivered w ++ [task])
        (set_notifications (delete i (notifications w)) w)
  | None => w
  end.

(** A schedule: which waiting notification runs next, step by step. *)
Definition run_schedule (schedule : list nat) (w : World) : World :=
  fold_left (fun w i => deliver i w) schedule w.

(** The events callback [cb] has received, in order of receipt. *)
Definition received_by (cb : Callback) (w : World) : list StatusChangeEvent :=
  map snd (filter (fun task => fst task = cb) (delivered w)).

(** The events waiting to be delivered to callback [cb], in the order their
    goroutines were started. *)
Definition pending_for (cb : Callback) (w : World) : list StatusChangeEvent :=
  map snd (filter (fun task => fst task = cb) (notifications w)).

(** Closing connection [k], by either end. *)
Definition close_conn_at (k : nat) (w : World) : World :=
  match conns w !! k with
  | Some c => set_conns (<[k := close_conn c]> (conns w)) w
  | None => w
  end.

Definition conn_is_closed (w : World) (k : nat) : bool :=
  match conns w !! k with
  | Some c => conn_closed c
  | None => true
  end.

Definition listener_is_open (w : World) (l : nat) : bool :=
  match listeners w !! l with
  | Some b => b
  | None => false
  end.

End Runtime.

Import Runtime.

(* ===================================================================== *)
(** ** Package client *)
(* ===================================================================== *)

Module Client.

(** [type Options struct] *)
Record Options : Set := {
  ServerHost : string;
  ServerPort : Z;
  ConnectionTimeout : Z;
  AutoReconnect : bool;
  MaxReconnectAttempts : Z;
  ReconnectDelay : Z;
  EnableTLS : bool
}.

(** [time.Second] *)
Definition Second : Z := 1000000000.

(** [func DefaultOptions() Options] *)
Definition DefaultOptions : Options :=
  {| ServerHost := "localhost";
     ServerPort := 5000;
     ConnectionTimeout := 30 * Second;
     AutoReconnect := true;
     MaxReconnectAttempts := 3;
     ReconnectDelay := Second;
     EnableTLS := false |}.

(** [type Option func(o *Options)] *)
Definition Option : Set := Options -> Options.

Definition WithServerHost (host : string) : Option := fun o =>
  {| ServerHost := host; ServerPort := ServerPort o;
     ConnectionTimeout := ConnectionTimeout o;
     AutoReconnect := AutoReconnect o;
     MaxReconnectAttempts := MaxReconnectAttempts o;
     ReconnectDelay := ReconnectDelay o; EnableTLS := EnableTLS o |}.

Definition WithServerPort (port : Z) : Option := fun o =>
  {| ServerHost := ServerHost o; ServerPort := port;
     ConnectionTimeout := ConnectionTimeout o;
     AutoReconnect := AutoReconnect o;
     MaxReconnectAttempts := MaxReconnectAttempts o;
     ReconnectDelay := ReconnectDelay o; EnableTLS := EnableTLS o |}.

Definition WithConnectionTimeout (timeout : Z) : Option := fun o =>
  {| ServerHost := ServerHost o; ServerPort := ServerPort o;
     ConnectionTimeout := timeout;
     AutoReconnect := AutoReconnect o;
     MaxReconnectAttempts := MaxReconnectAttempts o;
     ReconnectDelay := ReconnectDelay o; EnableTLS := EnableTLS o |}.

Definition WithAutoReconnect (enable : bool) : Option := fun o =>
  {| ServerHost := ServerHost o; ServerPort := ServerPort o;
     ConnectionTimeout := ConnectionTimeout o;
     AutoReconnect := enable;
     MaxReconnectAttempts := MaxReconnectAttempts o;
     ReconnectDelay := ReconnectDelay o; EnableTLS := EnableTLS o |}.

Definition WithMaxReconnectAttempts (max : Z) : Option := fun o =>
  {| ServerHost := ServerHost o; ServerPort := ServerPort o;
     ConnectionTimeout := ConnectionTimeout o;
     AutoReconnect := AutoReconnect o;
     MaxReconnectAttempts := max;
     ReconnectDelay := ReconnectDelay o; EnableTLS := EnableTLS o |}.

Definition WithReconnectDelay (delay : Z) : Option := fun o =>
  {| ServerHost := ServerHost o; ServerPort := ServerPort o;
     ConnectionTimeout := ConnectionTimeout o;
     AutoReconnect := AutoReconnect o;
     MaxReconnectAttempts := MaxReconnectAttempts o;
     ReconnectDelay := delay; EnableTLS := EnableTLS o |}.

Definition WithTLS : Option := fun o =>
  {| ServerHost := ServerHost o; ServerPort := ServerPort o;
     ConnectionTimeout := ConnectionTimeout o;
     AutoReconnect := AutoReconnect o;
     MaxReconnectAttempts := MaxReconnectAttempts o;
     ReconnectDelay := ReconnectDelay o; EnableTLS := true |}.

(** [type Client struct].  [conn] holds the identity of the connection or
    is nil; [ctx] is the identity of the context, whose cancel function is
    the field [cancel] of the source; [wg] is the counter of the wait
    group.  The two mutexes guard steps that are atomic here. *)
Record Client : Set := {
  opts : Options;
  status : Status;
  conn : option nat;
  callbacks : list Callback;
  reconnectAttempt : Z;
  isConnected : bool;
  ctx : nat;
  wg : nat
}.

Definition set_status (v : Status) (c : Client) : Client :=
  {| opts := opts c; status := v; conn := conn c; callbacks := callbacks c;
     reconnectAttempt := reconnectAttempt c; isConnected := isConnected c;
     ctx := ctx c; wg := wg c |}.

Definition set_conn (v : option nat) (c : Client) : Client :=
  {| opts := opts c; status := status c; conn := v;
     callbacks := callbacks c; reconnectAttempt := reconnectAttempt c;
     isConnected := isConnected c; ctx := ctx c; wg := wg c |}.

Definition set_callbacks (v : list Callback) (c : Client) : Client :=
  {| opts := opts c; status := status c; conn := conn c; callbacks := v;
     reconnectAttempt := reconnectAttempt c; isConnected := isConnected c;
     ctx := ctx c; wg := wg c |}.

Definition set_reconnectAttempt (v : Z) (c : Client) : Client :=
  {| opts := opts c; status := status c; conn := conn c;
     callbacks := callbacks c; reconnectAttempt := v;
     isConnected := isConnected c; ctx := ctx c; wg := wg c |}.

Definition set_isConnected (v : bool) (c : Client) : Client :=
  {| opts := opts c; status := status c; conn := conn c;
     callbacks := callbacks c; reconnectAttempt := reconnectAttempt c;
     isConnected := v; ctx := ctx c; wg := wg c |}.

Definition set_wg (v : nat) (c : Client) : Client :=
  {| opts := opts c; status := status c; conn := conn c;
     callbacks := callbacks c; reconnectAttempt := reconnectAttempt c;
     isConnected := isConnected c; ctx := ctx c; wg := v |}.

(** [func New(options ...Option) *Client] *)
Definition New (options : list Option) (w : World) : Client * World :=
  let opts := fold_left (fun o opt => opt o) options DefaultOptions in
  let '(ctx, w1) := WithCancel w in
  ({| opts := opts; status := StatusStopped; conn := None; callbacks := [];
      reconnectAttempt := 0; isConnected := false; ctx := ctx;
      wg := 0%nat |}, w1).

(** [func (c *Client) updateStatusLocked(newStatus core.Status, err error)] *)
Definition updateStatusLocked (newStatus : Status) (err : option error)
  (c : Client) (w : World) : Client * World :=
  let oldStatus := status c in
  let c1 := set_status newStatus c in
  let event := {| OldStatus := oldStatus; NewStatus := newStatus;
                  Timestamp := now w; Error := err |} in
  (c1, fold_left (fun w cb => go_callback cb event w) (callbacks c1) w).

(** [func (c *Client) updateStatus(newStatus core.Status, err error)] *)
Definition updateStatus (newStatus : Status) (err : option error)
  (c : Client) (w : World) : Client * World :=
  updateStatusLocked newStatus err c w.

(** [func (c *Client) connect() error].  The monitor goroutine it starts
    reads [c.conn] and blocks on the disconnect signal of that connection. *)
Definition connect (c : Client) (w : World) : option error * Client * World :=
  let addr := ServerHost (opts c) +:+ ":" +:+ itoa (ServerPort (opts c)) in
  let answer := dial_result w (dials w) in
  let w1 := set_dials (S (dials w)) w in
  match answer with
  | Some err =>
      (Some (ConnectionError "connect to" addr (NetError err)), c, w1)
  | None =>
      let k := length (conns w1) in
      let w2 := set_conns (conns w1 ++ [{| conn_ctx := ctx c;
                                          conn_closed := false;
                                          conn_sent := [] |}]) w1 in
      let c1 := set_isConnected true (set_conn (Some k) c) in
      let c2 := set_wg (S (wg c1)) c1 in
      let w3 := set_monitors (monitors w2 ++ [k]) w2 in
      (None, c2, w3)
  end.

(** The loop of [attemptReconnect], with a bound on the number of turns;
    [None] when the bound is hit with the loop condition still true. *)
Fixpoint attemptReconnect_loop (fuel : nat) (c : Client) (w : World)
  : option (Client * World) :=
  if bool_decide (reconnectAttempt c < MaxReconnectAttempts (opts c)) then
    match fuel with
    | O => None
    | S fuel' =>
        let c1 := set_reconnectAttempt (wrap_int (reconnectAttempt c + 1)) c in
        let w1 := Sleep (ReconnectDelay (opts c1)) w in
        if ctx_done w1 (ctx c1) then Some (c1, w1)
        else
          match connect c1 w1 with
          | (Some _, c2, w2) => attemptReconnect_loop fuel' c2 w2
          | (None, c2, w2) => Some (set_reconnectAttempt 0 c2, w2)
          end
    end
  else
    Some (updateStatus StatusFailed (Some ReconnectExhausted) c w).

(** [func (c *Client) attemptReconnect()].  The counter grows by one per
    turn, so the distance to the maximum bounds the turns. *)
Definition attemptReconnect (c : Client) (w : World)
  : option (Client * World) :=
  attemptReconnect_loop
    (Z.to_nat (MaxReconnectAttempts (opts c) - reconnectAttempt c)) c w.

(** [func (c *Client) monitorConnection()] from the point where the
    disconnect signal has arrived, up to the deferred [c.wg.Done()]. *)
Definition monitorConnection (c : Client) (w : World)
  : option (Client * World) :=
  let c1 := set_isConnected false c in
  let after :=
    if AutoReconnect (opts c1) && bool_decide (status c1 = StatusRunning)
    then attemptReconnect c1 w
    else Some (c1, w) in
  match after with
  | Some (c2, w2) => Some (set_wg (pred (wg c2)) c2, w2)
  | None => None
  end.

Fixpoint run_monitors (n : nat) (c : Client) (w : World)
  : option (Client * World) :=
  match n with
  | O => Some (c, w)
  | S n' =>
      match monitorConnection c w with
      | Some (c1, w1) => run_monitors n' c1 w1
      | None => None
      end
  end.

(** The monitor goroutines whose connection is closed wake up and run to
    their end, one after the other, before anything else happens: the
    schedule in which no other goroutine touches the client while a
    monitor is awake.  [monitors w] lists the monitors that are blocked on
    their disconnect signal; a monitor that is awake is in no list.  The
    schedules in which a call falls inside a monitor's reconnection are
    built from the pieces of module [Interleave]. *)
Definition wake_monitors (c : Client) (w : World) : option (Client * World) :=
  let awake := filter (fun k => conn_is_closed w k = true) (monitors w) in
  let asleep := filter (fun k => conn_is_closed w k = false) (monitors w) in
  run_monitors (length awake) c (set_monitors asleep w).

(** The transport reports the loss of connection [k], and the monitor of
    [k] handles it to its end (reconnection included) without any call
    being made meanwhile. *)
Definition disconnect (k : nat) (c : Client) (w : World)
  : option (Client * World) :=
  wake_monitors c (close_conn_at k w).

(** [func (c *Client) Start() error] *)
Definition Start (c : Client) (w : World) : option error * Client * World :=
  if decide (status c <> StatusStopped) then
    (Some (StateError "start" "client" (status c)), c, w)
  else
    let '(c1, w1) := updateStatusLocked StatusStarting None c w in
    match connect c1 w1 with
    | (Some err, c2, w2) =>
        let '(c3, w3) := updateStatus StatusFailed (Some err) c2 w2 in
        (Some err, c3, w3)
    | (None, c2, w2) =>
        let '(c3, w3) := updateStatus StatusRunning None c2 w2 in
        (None, c3, w3)
    end.

(** [func (c *Client) Stop() error].  [c.wg.Wait()] returns once every
    monitor goroutine has ended; it never returns if one of them stays
    blocked. *)
Definition Stop (c : Client) (w : World)
  : Outcome (option error * Client * World) :=
  if decide (status c <> StatusRunning) then
    Returns (Some (StateError "stop" "client" (status c)), c, w)
  else
    let '(c1, w1) := updateStatusLocked StatusStopping None c w in
    let w2 := cancel (ctx c1) w1 in
    let '(c2, w3) :=
      match conn c1 with
      | Some k => (set_conn None c1, close_conn_at k w2)
      | None => (c1, w2)
      end in
    let c3 := set_isConnected false c2 in
    match wake_monitors c3 w3 with
    | Some (c4, w4) =>
        if decide (wg c4 = 0%nat) then
          let '(c5, w5) := updateStatus StatusStopped None c4 w4 in
          Returns (None, c5, w5)
        else Hangs
    | None => Hangs
    end.

(** [func (c *Client) Status() core.Status] *)
Definition Status_ (c : Client) : Status := status c.

(** [func (c *Client) IsConnected() bool] *)
Definition IsConnected (c : Client) : bool := isConnected c.

(** [func (c *Client) OnStatusChange(callback func(core.StatusChangeEvent))] *)
Definition OnStatusChange (callback : Callback) (c : Client) : Client :=
  set_callbacks (callbacks c ++ [callback]) c.

(** [func (c *Client) ProcessModel(ctx, req)], returning the response and the error.
    [answer] is what [conn.Call] yields on an open connection: the decoded
    reply, or the error of the transport, of the peer or of [ctx]. *)
Definition ProcessModel (answer : ModelResponse + error)
  (req : ModelRequest) (c : Client) (w : World)
  : (option ModelResponse * option error) * Client * World :=
  match conn c with
  | None => ((None, Some NotConnected), c, w)
  | Some k =>
      let called :=
        if conn_is_closed w k
        then inr (NetError "jsonrpc2: connection is closed")
        else answer in
      match called with
      | inr err => ((None, Some (RPCError err)), c, w)
      | inl resp => ((Some resp, None), c, w)
      end
  end.

End Client.

(* ===================================================================== *)
(** ** Package server *)
(* ===================================================================== *)

Module Server.

(** [type Options struct] *)
Record Options : Set := {
  Host : string;
  Port : Z;
  MaxConcurrentClients : Z;
  ConnectionTimeout : Z;
  EnableTLS : bool;
  CertificatePath : string;
  CertificateKeyPath : string
}.

(** [func DefaultOptions() Options] *)
Definition DefaultOptions : Options :=
  {| Host := "127.0.0.1";
     Port := 5000;
     MaxConcurrentClients := 10;
     ConnectionTimeout := 30 * 1000000000;
     EnableTLS := false;
     CertificatePath := "";
     CertificateKeyPath := "" |}.

(** [type Option func(o *Options)] *)
Definition Option : Set := Options -> Options.

Definition WithHost (host : string) : Option := fun o =>
  {| Host := host; Port := Port o;
     MaxConcurrentClients := MaxConcurrentClients o;
     ConnectionTimeout := ConnectionTimeout o; EnableTLS := EnableTLS o;
     CertificatePath := CertificatePath o;
     CertificateKeyPath := CertificateKeyPath o |}.

Definition WithPort (port : Z) : Option := fun o =>
  {| Host := Host o; Port := port;
     MaxConcurrentClients := MaxConcurrentClients o;
     ConnectionTimeout := ConnectionTimeout o; EnableTLS := EnableTLS o;
     CertificatePath := CertificatePath o;
     CertificateKeyPath := CertificateKeyPath o |}.

Definition WithMaxConcurrentClients (max : Z) : Option := fun o =>
  {| Host := Host o; Port := Port o;
     MaxConcurrentClients := max;
     ConnectionTimeout := ConnectionTimeout o; EnableTLS := EnableTLS o;
     CertificatePath := CertificatePath o;
     CertificateKeyPath := CertificateKeyPath o |}.

Definition WithConnectionTimeout (timeout : Z) : Option := fun o =>
  {| Host := Host o; Port := Port o;
     MaxConcurrentClients := MaxConcurrentClients o;
     ConnectionTimeout := timeout; EnableTLS := EnableTLS o;
     CertificatePath := CertificatePath o;
     CertificateKeyPath := CertificateKeyPath o |}.

Definition WithTLS (certPath keyPath : string) : Option := fun o =>
  {| Host := Host o; Port := Port o;
     MaxConcurrentClients := MaxConcurrentClients o;
     ConnectionTimeout := ConnectionTimeout o; EnableTLS := true;
     CertificatePath := certPath;
     CertificateKeyPath := keyPath |}.

Definition WithCertificatePath (path : string) : Option := fun o =>
  {| Host := Host o; Port := Port o;
     MaxConcurrentClients := MaxConcurrentClients o;
     ConnectionTimeout := ConnectionTimeout o; EnableTLS := EnableTLS o;
     CertificatePath := path;
     CertificateKeyPath := CertificateKeyPath o |}.

Definition WithCertificateKeyPath (path : string) : Option := fun o =>
  {| Host := Host o; Port := Port o;
     MaxConcurrentClients := MaxConcurrentClients o;
     ConnectionTimeout := ConnectionTimeout o; EnableTLS := EnableTLS o;
     CertificatePath := CertificatePath o;
     CertificateKeyPath := path |}.

(** The method [ProcessModel(ctx, req)] of a [ModelHandler]: from whether
    [ctx] is done, the request and the clock to the response (possibly nil)
    and the error (possibly nil). *)
Definition ProcessModelFunc : Type :=
  bool -> ModelRequest -> Z -> option ModelResponse * option error.

(** A value implementing [Handler]; [ProcessModel] is present when the
    value also implements [ModelHandler]. *)
Record Handler : Type := {
  Methods : list string;
  ProcessModel : option ProcessModelFunc
}.

(** [func (h *DefaultModelHandler) ProcessModel(ctx, req)] *)
Definition DefaultModelHandler_ProcessModel : ProcessModelFunc :=
  fun _ req now =>
    let resp := NewModelResponse req now in
    let resp := set_result "status" (VString "processed") resp in
    let resp :=
      set_result "message" (VString "Model processed successfully") resp in
    (Some resp, None).

(** [func NewDefaultModelHandler() *DefaultModelHandler] with its
    [Methods()]. *)
Definition NewDefaultModelHandler : Handler :=
  {| Methods := ["mcp.processModel"];
     ProcessModel := Some DefaultModelHandler_ProcessModel |}.

(** [type Server struct].  [listeners] holds the identities of the
    listeners; [ctx] and [wg] as for the client. *)
Record Server : Type := {
  opts : Options;
  status : Status;
  listeners : list nat;
  handlers : gmap string Handler;
  callbacks : list Callback;
  ctx : nat;
  wg : nat
}.

Definition set_status (v : Status) (s : Server) : Server :=
  {| opts := opts s; status := v; listeners := listeners s;
     handlers := handlers s; callbacks := callbacks s; ctx := ctx s;
     wg := wg s |}.

Definition set_listeners (v : list nat) (s : Server) : Server :=
  {| opts := opts s; status := status s; listeners := v;
     handlers := handlers s; callbacks := callbacks s; ctx := ctx s;
     wg := wg s |}.

Definition set_handlers (v : gmap string Handler) (s : Server) : Server :=
  {| opts := opts s; status := status s; listeners := listeners s;
     handlers := v; callbacks := callbacks s; ctx := ctx s;
     wg := wg s |}.

Definition set_callbacks (v : list Callback) (s : Server) : Server :=
  {| opts := opts s; status := status s; listeners := listeners s;
     handlers := handlers s; callbacks := v; ctx := ctx s;
     wg := wg s |}.

Definition set_wg (v : nat) (s : Server) : Server :=
  {| opts := opts s; status := status s; listeners := listeners s;
     handlers := handlers s; callbacks := callbacks s; ctx := ctx s;
     wg := v |}.

(** [func New(options ...Option) *Server] *)
Definition New (options : list Option) (w : World) : Server * World :=
  let opts := fold_left (fun o opt => opt o) options DefaultOptions in
  let '(ctx, w1) := WithCancel w in
  ({| opts := opts; status := StatusStopped; listeners := [];
      handlers := ∅; callbacks := []; ctx := ctx; wg := 0%nat |}, w1).

(** The loop of [RegisterHandler] over the declared methods. *)
Fixpoint register_methods (handler : Handler) (methods : list string)
  (hs : gmap string Handler) : option error * gmap string Handler :=
  match methods with
  | [] => (None, hs)
  | method :: rest =>
      match hs !! method with
      | Some _ => (Some (AlreadyRegistered method), hs)
      | None => register_methods handler rest (<[method := handler]> hs)
      end
  end.

(** [func (s *Server) RegisterHandler(handler Handler) error] *)
Definition RegisterHandler (handler : Handler) (s : Server)
  : option error * Server :=
  let '(err, hs) := register_methods handler (Methods handler) (handlers s) in
  (err, set_handlers hs s).

(** [func (s *Server) updateStatusLocked(newStatus core.Status, err error)] *)
Definition updateStatusLocked (newStatus : Status) (err : option error)
  (s : Server) (w : World) : Server * World :=
  let oldStatus := status s in
  let s1 := set_status newStatus s in
  let event := {| OldStatus := oldStatus; NewStatus := newStatus;
                  Timestamp := now w; Error := err |} in
  (s1, fold_left (fun w cb => go_callback cb event w) (callbacks s1) w).

(** [func (s *Server) updateStatus(newStatus core.Status, err error)] *)
Definition updateStatus (newStatus : Status) (err : option error)
  (s : Server) (w : World) : Server * World :=
  updateStatusLocked newStatus err s w.

(** [func (s *Server) Start() error] *)
Definition Start (s : Server) (w : World) : option error * Server * World :=
  if decide (status s <> StatusStopped) then
    (Some (StateError "start" "server" (status s)), s, w)
  else
    let '(s1, w1) := updateStatusLocked StatusStarting None s w in
    let addr := Host (opts s1) +:+ ":" +:+ itoa (Port (opts s1)) in
    let answer := listen_result w1 (listens w1) in
    let w2 := set_listens (S (listens w1)) w1 in
    match answer with
    | Some msg =>
        let err := NetError msg in
        let '(s2, w3) := updateStatus StatusFailed (Some err) s1 w2 in
        (Some (ConnectionError "listen on" addr err), s2, w3)
    | None =>
        let l := length (Runtime.listeners w2) in
        let w3 := Runtime.set_listeners (Runtime.listeners w2 ++ [true]) w2 in
        let s2 := set_listeners (listeners s1 ++ [l]) s1 in
        let s3 := set_wg (S (wg s2)) s2 in
        let w4 := set_acceptors (acceptors w3 ++ [l]) w3 in
        let '(s4, w5) := updateStatus StatusRunning None s3 w4 in
        (None, s4, w5)
    end.

(** One turn of [acceptConnections] in which [Accept] on listener [l]
    yields a connection, followed by the start of [handleConnection], which
    builds the jsonrpc2 connection under [s.ctx] and blocks on its
    disconnect signal. *)
Definition accept (l : nat) (s : Server) (w : World) : Server * World :=
  if listener_is_open w l && bool_decide (l ∈ acceptors w) then
    let k := length (conns w) in
    let w1 := set_conns (conns w ++ [{| conn_ctx := ctx s;
                                       conn_closed := false;
                                       conn_sent := [] |}]) w in
    (set_wg (S (wg s)) s, set_serving (serving w1 ++ [k]) w1)
  else (s, w).

(** An accept loop ends when [Accept] fails (its listener is closed) and
    the context is done; with the context not done it logs and goes on. *)
Definition acceptor_ends (w : World) (ctx : nat) (l : nat) : bool :=
  negb (listener_is_open w l) && ctx_done w ctx.

(** The goroutines of the wait group that can run to their end do so. *)
Definition reap (s : Server) (w : World) : Server * World :=
  let ended_a := filter (fun l => acceptor_ends w (ctx s) l = true)
                   (acceptors w) in
  let going_a := filter (fun l => acceptor_ends w (ctx s) l = false)
                   (acceptors w) in
  let ended_h := filter (fun k => conn_is_closed w k = true) (serving w) in
  let going_h := filter (fun k => conn_is_closed w k = false) (serving w) in
  (set_wg (wg s - length ended_a - length ended_h) s,
   set_serving going_h (set_acceptors going_a w)).

(** The transport reports the loss of connection [k]. *)
Definition disconnect (k : nat) (s : Server) (w : World) : Server * World :=
  reap s (close_conn_at k w).

(** [listener.Close()] for every listener of the server. *)
Definition close_listeners (ls : list nat) (w : World) : World :=
  fold_left
    (fun w l => Runtime.set_listeners (<[l := false]> (Runtime.listeners w)) w)
    ls w.

(** [func (s *Server) Stop() error].  [s.wg.Wait()] returns once the accept
    loop and every connection goroutine have ended. *)
Definition Stop (s : Server) (w : World)
  : Outcome (option error * Server * World) :=
  if decide (status s <> StatusRunning) then
    Returns (Some (StateError "stop" "server" (status s)), s, w)
  else
    let '(s1, w1) := updateStatusLocked StatusStopping None s w in
    let w2 := cancel (ctx s1) w1 in
    let w3 := close_listeners (listeners s1) w2 in
    let '(s2, w4) := reap s1 w3 in
    if decide (wg s2 = 0%nat) then
      let '(s3, w5) := updateStatus StatusStopped None s2 w4 in
      Returns (None, s3, w5)
    else Hangs.

(** [func (s *Server) Status() core.Status] *)
Definition Status_ (s : Server) : Status := status s.

(** [func (s *Server) OnStatusChange(callback func(core.StatusChangeEvent))] *)
Definition OnStatusChange (callback : Callback) (s : Server) : Server :=
  set_callbacks (callbacks s ++ [callback]) s.

(** [conn.ReplyWithError(ctx, id, &jsonrpc2.Error{...})]; a failure to send
    is logged and dropped. *)
Definition ReplyWithError (id : RpcID) (code : Z) (message : string)
  (conn : Conn) : Conn :=
  snd (send (ReplyError id {| Code := code; Message := message |}) conn).

(** [func (h *rpcHandler) handleProcessModel(ctx, conn, req, handler)] *)
Definition handleProcessModel (w : World) (conn : Conn) (req : Request)
  (handler : Handler) : Outcome Conn :=
  match ProcessModel handler with
  | None =>
      Returns (ReplyWithError (ReqID req) CodeInternalError
                 "handler is not a ModelHandler" conn)
  | Some process =>
      match Params req with
      | None =>
          Panics "runtime error: invalid memory address or nil pointer dereference"
      | Some raw =>
          match Unmarshal raw with
          | inr why =>
              Returns (ReplyWithError (ReqID req) CodeInvalidParams
                         ("invalid params: " +:+ why) conn)
          | inl modelReq =>
              match process (ctx_done w (conn_ctx conn)) modelReq (now w) with
              | (_, Some err) =>
                  Returns (ReplyWithError (ReqID req) CodeInternalError
                             ("processing error: " +:+ Error_msg err) conn)
              | (resp, None) =>
                  Returns (snd (send (ReplyResult (ReqID req) resp) conn))
              end
          end
      end
  end.

(** [func (h *rpcHandler) Handle(ctx, conn, req)] *)
Definition Handle (s : Server) (w : World) (conn : Conn) (req : Request)
  : Outcome Conn :=
  match handlers s !! Method req with
  | None =>
      Returns (ReplyWithError (ReqID req) CodeMethodNotFound
                 ("method not found: " +:+ Method req) conn)
  | Some handler =>
      if decide (Method req = "mcp.processModel") then
        handleProcessModel w conn req handler
      else
        Returns (ReplyWithError (ReqID req) CodeInvalidRequest
                   ("unknown method: " +:+ Method req) conn)
  end.

End Server.

(* ===================================================================== *)
(** ** Runs used as examples *)
(* ===================================================================== *)

Module Scenario.

(** Networks: one where every dial and listen succeeds, one where none
    does, one where the server is reachable for the first dial only, one
    where it comes back at the third dial. *)
Definition reachable : nat -> option string := fun _ => None.

Definition unreachable : nat -> option string :=
  fun _ => Some "connection refused".

Definition lost_after_first : nat -> option string :=
  fun n => match n with
           | O => None
           | S _ => Some "connection refused"
           end.

Definition back_at_third : nat -> option string :=
  fun n => match n with
           | 1%nat => Some "connection refused"
           | _ => None
           end.

(** The server is reachable for the first two dials only. *)
Definition lost_after_second : nat -> option string :=
  fun n => match n with
           | O | 1%nat => None
           | _ => Some "connection refused"
           end.

Definition ms : Z := 1000000.

(** A client with the options of test property 8 (three attempts, 10 ms)
    and one observer, started in a world with network [dial]. *)
Definition client_options : list Client.Option :=
  [Client.WithMaxReconnectAttempts 3; Client.WithReconnectDelay (10 * ms)].

Definition observer : Callback := 7%nat.

Definition new_client (dial : nat -> option string) : Client.Client * World :=
  let '(c, w) := Client.New client_options (genesis 0 dial reachable) in
  (Client.OnStatusChange observer c, w).

Definition started_client (dial : nat -> option string)
  : option error * Client.Client * World :=
  Client.Start (fst (new_client dial)) (snd (new_client dial)).

Definition running_client (dial : nat -> option string)
  : Client.Client * World :=
  (snd (fst (started_client dial)), snd (started_client dial)).

(** The client after [Start] and [Stop], and after a second [Start]. *)
Definition stopped_client : Client.Client * World :=
  match Client.Stop (fst (running_client reachable))
          (snd (running_client reachable)) with
  | Returns (_, c, w) => (c, w)
  | _ => running_client reachable
  end.

Definition restarted_client : option error * Client.Client * World :=
  Client.Start (fst stopped_client) (snd stopped_client).

(** The client of [lost_after_second] after [Start], [Stop] and [Start]
    again: Running and connected, the server then being gone for good. *)
Definition restarted_then_lost : Client.Client * World :=
  let '(c, w) := running_client lost_after_second in
  match Client.Stop c w with
  | Returns (_, c1, w1) =>
      let '(_, c2, w2) := Client.Start c1 w1 in (c2, w2)
  | _ => (c, w)
  end.

(** A handler for two methods, the second of which the default handler
    serves too. *)
Definition two_method_handler : Server.Handler :=
  {| Server.Methods := ["mcp.describeModel"; "mcp.processModel"];
     Server.ProcessModel := None |}.

(** A server with the default handler registered and one observer. *)
Definition new_server : Server.Server * World :=
  let '(s, w) := Server.New [] (genesis 0 reachable reachable) in
  (Server.OnStatusChange observer
     (snd (Server.RegisterHandler Server.NewDefaultModelHandler s)), w).

Definition started_server : option error * Server.Server * World :=
  Server.Start (fst new_server) (snd new_server).

Definition running_server : Server.Server * World :=
  (snd (fst started_server), snd started_server).

Definition stopped_server : Server.Server * World :=
  match Server.Stop (fst running_server) (snd running_server) with
  | Returns (_, s, w) => (s, w)
  | _ => running_server
  end.

Definition restarted_server : option error * Server.Server * World :=
  Server.Start (fst stopped_server) (snd stopped_server).

(** An open connection accepted by the running server, and two calls. *)
Definition open_conn : Conn :=
  {| conn_ctx := Server.ctx (fst running_server);
     conn_closed := false; conn_sent := [] |}.

Definition sample_request : ModelRequest :=
  {| ID := "abc"; ModelData := {["name" := VString "Test Model"]};
     Parameters := [] |}.


Definition process_call : Request :=
  {| Method := "mcp.processModel"; Params := Some (Decodes sample_request);
     ReqID := IDNum 2 |}.

(** The running client of [lost_after_first] at the start of a reconnect
    delay during which another goroutine cancels the context, 1 ms in. *)
Definition cancelled_while_waiting : Client.Client * World :=
  let '(c, w) := running_client lost_after_first in
  (c, set_ctxs (<[Client.ctx c := Some (now w + 1 * ms)]> (ctxs w)) w).

End Scenario.

(* ===================================================================== *)
(** ** Package tools *)
(* ===================================================================== *)

Module Tools.

(** [type ValidationError struct] *)
Record ValidationError : Set := {
  Field : string;
  Message : string
}.

(** [type ValidationResult struct] *)
Record ValidationResult : Set := {
  Valid : bool;
  Errors : list ValidationError
}.

(** [func NewValidationResult() *ValidationResult] *)
Definition NewValidationResult : ValidationResult :=
  {| Valid := true; Errors := [] |}.

(** [func (vr *ValidationResult) AddError(field, message string)] *)
Definition AddError (field message : string) (vr : ValidationResult)
  : ValidationResult :=
  {| Valid := false;
     Errors := Errors vr ++ [{| Field := field; Message := message |}] |}.

(** [fmt.Sprintf(" %s: %s;", err.Field, err.Message)] *)
Definition format_error (err : ValidationError) : string :=
  " " +:+ Field err +:+ ": " +:+ Message err +:+ ";".

(** [func (vr *ValidationResult) Error() error]; the error is given by its
    message, [None] is nil. *)
Definition Error (vr : ValidationResult) : option string :=
  if Valid vr then None
  else
    Some (fold_left (fun errorMsg err => errorMsg +:+ format_error err)
            (Errors vr) "validation failed:").

(** [func (v *Validator) Validate(obj interface{}) *ValidationResult];
    [None] is the nil interface value. *)
Definition Validate {A : Type} (obj : option A) : ValidationResult :=
  let result := NewValidationResult in
  match obj with
  | None => AddError "object" "cannot be nil" result
  | Some _ => result
  end.

End Tools.

(* ===================================================================== *)
(** ** Sequences of calls and events *)
(* ===================================================================== *)

Module Trace.

(** The transitions [Start] and [Stop] make. *)
Definition lifecycle_edge (old new : Status) : bool :=
  match old, new with
  | StatusStopped, StatusStarting => true
  | StatusStarting, StatusRunning => true
  | StatusStarting, StatusFailed => true
  | StatusRunning, StatusStopping => true
  | StatusStopping, StatusStopped => true
  | _, _ => false
  end.

(** The client has one more: giving up on reconnection. *)
Definition client_edge (old new : Status) : bool :=
  lifecycle_edge old new
  || match old, new with
     | StatusRunning, StatusFailed => true
     | _, _ => false
     end.

Definition event_on (edge : Status -> Status -> bool)
  (task : Callback * StatusChangeEvent) : Prop :=
  edge (OldStatus (snd task)) (NewStatus (snd task)) = true.

(** What happens to a client: a call of one of its methods, the loss of a
    connection reported by the transport, or the scheduler running a
    notification goroutine.  The calls are made one after the other, and
    [CLost] is the loss together with its whole handling by the monitor:
    a sequence of these steps is a run in which no call is made while a
    monitor is awake. *)
Inductive ClientOp : Type :=
  | CStart
  | CStop
  | CObserve (cb : Callback)
  | CCall (answer : ModelResponse + error) (req : ModelRequest)
  | CLost (k : nat)
  | CDeliver (i : nat).

(** One step; [None] when the call does not return. *)
Definition client_step (op : ClientOp) (c : Client.Client) (w : World)
  : option (Client.Client * World) :=
  match op with
  | CStart => let '(_, c', w') := Client.Start c w in Some (c', w')
  | CStop =>
      match Client.Stop c w with
      | Returns (_, c', w') => Some (c', w')
      | _ => None
      end
  | CObserve cb => Some (Client.OnStatusChange cb c, w)
  | CCall answer req =>
      let '(_, c', w') := Client.ProcessModel answer req c w in Some (c', w')
  | CLost k => Client.disconnect k c w
  | CDeliver i => Some (c, deliver i w)
  end.

Fixpoint client_run (ops : list ClientOp) (c : Client.Client) (w : World)
  : option (Client.Client * World) :=
  match ops with
  | [] => Some (c, w)
  | op :: rest =>
      match client_step op c w with
      | Some (c', w') => client_run rest c' w'
      | None => None
      end
  end.

(** A client between two steps: the wait group counts the monitor
    goroutines; there is none and the client is not connected, or there is
    one, on the client's connection, which is open, and the client is
    Running and connected; the attempt counter is between zero and the
    maximum; the context exists; every event started so far follows an edge
    of the client's state machine. *)
Definition client_settled (c : Client.Client) (w : World) : Prop :=
  Client.wg c = length (monitors w) /\
  ((monitors w = [] /\ Client.isConnected c = false) \/
   (exists k, monitors w = [k] /\ Client.conn c = Some k /\
              conn_is_closed w k = false /\
              Client.status c = StatusRunning /\
              Client.isConnected c = true)) /\
  0 <= Client.reconnectAttempt c
    <= Z.max 0 (Client.MaxReconnectAttempts (Client.opts c)) /\
  Client.MaxReconnectAttempts (Client.opts c) <= int_max /\
  (Client.ctx c < length (ctxs w))%nat /\
  Forall (event_on client_edge) (notifications w ++ delivered w).

(** What happens to a server. *)
Inductive ServerOp : Type :=
  | SStart
  | SStop
  | SRegister (handler : Server.Handler)
  | SObserve (cb : Callback)
  | SAccept (l : nat)
  | SLost (k : nat)
  | SDeliver (i : nat).

Definition server_step (op : ServerOp) (s : Server.Server) (w : World)
  : option (Server.Server * World) :=
  match op with
  | SStart => let '(_, s', w') := Server.Start s w in Some (s', w')
  | SStop =>
      match Server.Stop s w with
      | Returns (_, s', w') => Some (s', w')
      | _ => None
      end
  | SRegister handler => Some (snd (Server.RegisterHandler handler s), w)
  | SObserve cb => Some (Server.OnStatusChange cb s, w)
  | SAccept l => Some (Server.accept l s w)
  | SLost k => Some (Server.disconnect k s w)
  | SDeliver i => Some (s, deliver i w)
  end.

Fixpoint server_run (ops : list ServerOp) (s : Server.Server) (w : World)
  : option (Server.Server * World) :=
  match ops with
  | [] => Some (s, w)
  | op :: rest =>
      match server_step op s w with
      | Some (s', w') => server_run rest s' w'
      | None => None
      end
  end.

(** A server between two steps: the wait group counts the accept loops and
    the connection goroutines; every accept loop is on a listener of the
    server; the connections served are open; the context exists; every
    event started so far follows an edge of the state machine. *)
Definition server_settled (s : Server.Server) (w : World) : Prop :=
  Server.wg s = (length (acceptors w) + length (serving w))%nat /\
  (forall l, l ∈ acceptors w -> l ∈ Server.listeners s) /\
  (forall k, k ∈ serving w -> conn_is_closed w k = false) /\
  (Server.ctx s < length (ctxs w))%nat /\
  Forall (event_on lifecycle_edge) (notifications w ++ delivered w).

(** The same component with other options. *)
Definition client_with_opts (o : Client.Options) (c : Client.Client)
  : Client.Client :=
  {| Client.opts := o; Client.status := Client.status c;
     Client.conn := Client.conn c; Client.callbacks := Client.callbacks c;
     Client.reconnectAttempt := Client.reconnectAttempt c;
     Client.isConnected := Client.isConnected c;
     Client.ctx := Client.ctx c; Client.wg := Client.wg c |}.

Definition server_with_opts (o : Server.Options) (s : Server.Server)
  : Server.Server :=
  {| Server.opts := o; Server.status := Server.status s;
     Server.listeners := Server.listeners s;
     Server.handlers := Server.handlers s;
     Server.callbacks := Server.callbacks s;
     Server.ctx := Server.ctx s; Server.wg := Server.wg s |}.

(** The same client with another value of the option EnableTLS. *)
Definition client_tls (b : bool) (c : Client.Client) : Client.Client :=
  client_with_opts
    {| Client.ServerHost := Client.ServerHost (Client.opts c);
       Client.ServerPort := Client.ServerPort (Client.opts c);
       Client.ConnectionTimeout := Client.ConnectionTimeout (Client.opts c);
       Client.AutoReconnect := Client.AutoReconnect (Client.opts c);
       Client.MaxReconnectAttempts := Client.MaxReconnectAttempts (Client.opts c);
       Client.ReconnectDelay := Client.ReconnectDelay (Client.opts c);
       Client.EnableTLS := b |} c.

(** The same server with other values of the options that are not its
    address. *)
Definition server_beside_address (max timeout : Z) (tls : bool)
  (cert key : string) (s : Server.Server) : Server.Server :=
  server_with_opts
    {| Server.Host := Server.Host (Server.opts s);
       Server.Port := Server.Port (Server.opts s);
       Server.MaxConcurrentClients := max;
       Server.ConnectionTimeout := timeout;
       Server.EnableTLS := tls;
       Server.CertificatePath := cert;
       Server.CertificateKeyPath := key |} s.

(** A session of the example client: an observer, a start, a call, the loss
    of the connection, a stop, and calls that are refused. *)
Definition client_session : list ClientOp :=
  [CObserve Scenario.observer; CStart;
   CCall (inr (NetError "context deadline exceeded")) Scenario.sample_request;
   CLost 0; CDeliver 1; CStop; CStop; CStart; CLost 1].

(** A session of the example server: two clients come, both leave, the
    server stops and starts again. *)
Definition server_session : list ServerOp :=
  [SObserve Scenario.observer; SRegister Server.NewDefaultModelHandler;
   SStart; SAccept 0; SAccept 0; SLost 0; SDeliver 0; SLost 1; SStop;
   SStart; SAccept 1].

End Trace.

(* ===================================================================== *)
(** ** The client's goroutines, piece by piece *)
(* ===================================================================== *)

(** The monitor goroutine and [Stop] block: the monitor in [time.Sleep] and
    in the dial, [Stop] in [c.wg.Wait()].  The pieces between these points
    are given here one by one, so that a call can be placed inside a
    reconnection. *)
Module Interleave.

(** [Stop] up to [c.wg.Wait()] (client.go, lines 174 to 192): the guard,
    the status Stopping, the cancellation, the connection closed and
    dropped. *)
Definition Stop_enter (c : Client.Client) (w : World)
  : option error * Client.Client * World :=
  if decide (Client.status c <> StatusRunning) then
    (Some (StateError "stop" "client" (Client.status c)), c, w)
  else
    let '(c1, w1) := Client.updateStatusLocked StatusStopping None c w in
    let w2 := cancel (Client.ctx c1) w1 in
    let '(c2, w3) :=
      match Client.conn c1 with
      | Some k => (Client.set_conn None c1, close_conn_at k w2)
      | None => (c1, w2)
      end in
    (None, Client.set_isConnected false c2, w3).

(** [Stop] from [c.wg.Wait()] on (lines 195 to 200).  [Hangs] says that
    the wait has not returned: it blocks for as long as the counter of the
    wait group is not zero. *)
Definition Stop_leave (c : Client.Client) (w : World)
  : Outcome (option error * Client.Client * World) :=
  if decide (Client.wg c = 0%nat) then
    let '(c1, w1) := Client.updateStatus StatusStopped None c w in
    Returns (None, c1, w1)
  else Hangs.

(** The monitor of a closed connection leaves the list of the blocked
    ones. *)
Definition unblock (w : World) : World :=
  set_monitors (filter (fun k => conn_is_closed w k = false) (monitors w)) w.

(** [monitorConnection] from the disconnect signal to the test of line
    136: the flag is cleared; the result says whether [attemptReconnect]
    is called. *)
Definition monitor_wakes (c : Client.Client) : Client.Client * bool :=
  let c1 := Client.set_isConnected false c in
  (c1,
   Client.AutoReconnect (Client.opts c1)
   && bool_decide (Client.status c1 = StatusRunning)).

(** Where a turn of the loop of [attemptReconnect] stands after the delay
    and the look at the context. *)
Inductive Turn : Type :=
  | Exhausted
  | Cancelled (c : Client.Client) (w : World)
  | Dialing (c : Client.Client) (w : World).

(** A turn of the loop up to the dial (lines 142 to 157): the loop
    condition, the counter, the delay, the look at the context. *)
Definition turn_begins (c : Client.Client) (w : World) : Turn :=
  if bool_decide (Client.reconnectAttempt c
                  < Client.MaxReconnectAttempts (Client.opts c)) then
    let c1 := Client.set_reconnectAttempt
                (wrap_int (Client.reconnectAttempt c + 1)) c in
    let w1 := Sleep (Client.ReconnectDelay (Client.opts c1)) w in
    if ctx_done w1 (Client.ctx c1) then Cancelled c1 w1 else Dialing c1 w1
  else Exhausted.

(** The end of the turn (lines 159 to 165): [connect] returns; on an
    error the loop goes on ([inl]), otherwise the counter is reset and
    [attemptReconnect] returns ([inr]). *)
Definition turn_ends (c : Client.Client) (w : World)
  : (Client.Client * World) + (Client.Client * World) :=
  match Client.connect c w with
  | (Some _, c1, w1) => inl (c1, w1)
  | (None, c1, w1) => inr (Client.set_reconnectAttempt 0 c1, w1)
  end.

(** After the loop (lines 168 and 169). *)
Definition gives_up (c : Client.Client) (w : World) : Client.Client * World :=
  Client.updateStatus StatusFailed (Some ReconnectExhausted) c w.

(** The deferred [c.wg.Done()] of line 116. *)
Definition monitor_done (c : Client.Client) : Client.Client :=
  Client.set_wg (pred (Client.wg c)) c.

(** A schedule.  The peer closes connection [k]; its monitor wakes, enters
    the loop and takes a turn up to the dial; while the dial is in flight
    [Stop] is called and runs up to [c.wg.Wait()]; then the dial returns
    and the monitor runs to its end: at once if the dial is accepted,
    through the next turn of the loop if it is refused.  The result is
    what [Stop] is waiting on; [None] if the schedule cannot be run from
    the given state. *)
Definition stop_while_dialing (k : nat) (c : Client.Client) (w : World)
  : option (Client.Client * World) :=
  let w1 := unblock (close_conn_at k w) in
  let '(c1, enters) := monitor_wakes c in
  if enters then
    match turn_begins c1 w1 with
    | Dialing c2 w2 =>
        match Stop_enter c2 w2 with
        | (None, c3, w3) =>
            match turn_ends c3 w3 with
            | inr (c4, w4) => Some (monitor_done c4, w4)
            | inl (c4, w4) =>
                match turn_begins c4 w4 with
                | Exhausted =>
                    let '(c5, w5) := gives_up c4 w4 in
                    Some (monitor_done c5, w5)
                | Cancelled c5 w5 => Some (monitor_done c5, w5)
                | Dialing _ _ => None
                end
            end
        | _ => None
        end
    | _ => None
    end
  else None.

(** The schedule goes on: the peer closes the connection the client is
    left with, the monitor of that connection wakes and runs to its end,
    and [Stop] comes back from its wait. *)
Definition stop_then_peer_closes (k : nat) (c : Client.Client) (w : World)
  : option (Outcome (option error * Client.Client * World)) :=
  match stop_while_dialing k c w with
  | Some (c1, w1) =>
      match Client.conn c1 with
      | Some k' =>
          let w2 := unblock (close_conn_at k' w1) in
          let '(c2, enters) := monitor_wakes c1 in
          if enters then None else Some (Stop_leave (monitor_done c2) w2)
      | None => None
      end
  | None => None
  end.

End Interleave.

(* ===================================================================== *)
(** ** Facts about package core *)
(* ===================================================================== *)

Example format_known_instant :
  generateID UTC (1747369197 * 1000000000 + 442000000) = "mcp-20250516041957".
Proof. vm_compute. reflexivity. Qed.

Example format_leap_day :
  generateID UTC (951782400 * 1000000000) = "mcp-20000229000000".
Proof. vm_compute. reflexivity. Qed.

Example format_before_epoch :
  generateID UTC (-86401 * 1000000000) = "mcp-19691230235959".
Proof. vm_compute. reflexivity. Qed.

Example format_zone_offset :
  generateID (fun _ => -4 * 3600) (1747369197 * 1000000000)
  = "mcp-20250516001957".
Proof. vm_compute. reflexivity. Qed.



(** The identifier depends on the instant only through its Unix second. *)
Lemma generateID_second loc t :
  generateID loc t = "mcp-" +:+ format_wall_seconds (Unix t + loc (Unix t)).
Proof. reflexivity. Qed.

(** The month is between 1 and 12, the day between 1 and 31. *)
Lemma civil_fields days :
  let '(y, m, d) := civil_from_days days in
  1 <= m <= 12 /\ 1 <= d <= 31.
Proof.
  unfold civil_from_days.
  set (z := days + 719468). set (doe := z mod 146097).
  assert (Hdoe : 0 <= doe <= 146096) by (unfold doe; Z.div_mod_to_equations; lia).
  clearbody doe.
  set (yoe := (doe - doe / 1460 + doe / 36524 - doe / 146096) / 365).
  set (doy := doe - (365 * yoe + yoe / 4 - yoe / 100)).
  assert (Hb : 0 <= yoe <= 399 /\ 0 <= doy <= 365)
    by (unfold doy, yoe; split; Z.div_mod_to_equations; lia).
  clearbody doy. clearbody yoe.
  set (mp := (5 * doy + 2) / 153).
  assert (Hmp : 0 <= mp <= 11) by (unfold mp; Z.div_mod_to_equations; lia).
  destruct (mp <? 10) eqn:E.
  - apply Z.ltb_lt in E. split; [lia|]. unfold mp. Z.div_mod_to_equations. lia.
  - apply Z.ltb_ge in E. split; [lia|]. unfold mp. Z.div_mod_to_equations. lia.
Qed.

(** Different days have different dates. *)
Lemma civil_from_days_inj d1 d2 :
  civil_from_days d1 = civil_from_days d2 -> d1 = d2.
Proof.
  unfold civil_from_days.
  set (z1 := d1 + 719468). set (z2 := d2 + 719468).
  set (doe1 := z1 mod 146097). set (doe2 := z2 mod 146097).
  assert (Hdoe1 : 0 <= doe1 <= 146096) by (unfold doe1; Z.div_mod_to_equations; lia).
  assert (Hdoe2 : 0 <= doe2 <= 146096) by (unfold doe2; Z.div_mod_to_equations; lia).
  assert (Hz1 : z1 = 146097 * (z1 / 146097) + doe1) by (unfold doe1; Z.div_mod_to_equations; lia).
  assert (Hz2 : z2 = 146097 * (z2 / 146097) + doe2) by (unfold doe2; Z.div_mod_to_equations; lia).
  set (era1 := z1 / 146097) in *. set (era2 := z2 / 146097) in *.
  clearbody doe1 doe2 era1 era2.
  set (yoe1 := (doe1 - doe1 / 1460 + doe1 / 36524 - doe1 / 146096) / 365).
  set (yoe2 := (doe2 - doe2 / 1460 + doe2 / 36524 - doe2 / 146096) / 365).
  set (doy1 := doe1 - (365 * yoe1 + yoe1 / 4 - yoe1 / 100)).
  set (doy2 := doe2 - (365 * yoe2 + yoe2 / 4 - yoe2 / 100)).
  assert (Hb1 : 0 <= yoe1 <= 399 /\ 0 <= doy1 <= 365)
    by (unfold doy1, yoe1; split; Z.div_mod_to_equations; lia).
  assert (Hb2 : 0 <= yoe2 <= 399 /\ 0 <= doy2 <= 365)
    by (unfold doy2, yoe2; split; Z.div_mod_to_equations; lia).
  assert (Hd1 : doe1 = doy1 + (365 * yoe1 + yoe1 / 4 - yoe1 / 100)) by (unfold doy1; lia).
  assert (Hd2 : doe2 = doy2 + (365 * yoe2 + yoe2 / 4 - yoe2 / 100)) by (unfold doy2; lia).
  clearbody doy1 doy2. clearbody yoe1 yoe2.
  set (mp1 := (5 * doy1 + 2) / 153). set (mp2 := (5 * doy2 + 2) / 153).
  assert (Hmp1 : 0 <= mp1 <= 11) by (unfold mp1; Z.div_mod_to_equations; lia).
  assert (Hmp2 : 0 <= mp2 <= 11) by (unfold mp2; Z.div_mod_to_equations; lia).
  intros H. injection H as Hy Hm Hd.
  assert (Emp : mp1 = mp2).
  { destruct (mp1 <? 10) eqn:E1; destruct (mp2 <? 10) eqn:E2;
      try apply Z.ltb_lt in E1; try apply Z.ltb_lt in E2;
      try apply Z.ltb_ge in E1; try apply Z.ltb_ge in E2; lia. }
  rewrite Emp in Hy, Hd.
  assert (Edoy : doy1 = doy2) by lia.
  assert (Ey : yoe1 + era1 * 400 = yoe2 + era2 * 400).
  { destruct (_ <=? 2) in Hy; lia. }
  assert (Eera : era1 = era2) by lia.
  assert (Eyoe : yoe1 = yoe2) by lia.
  subst. unfold z1, z2 in *. lia.
Qed.

(** From 0000-01-01 to 9999-12-31 the year has four digits. *)
Lemma civil_year_range days :
  -719528 <= days <= 2932896 ->
  0 <= fst (fst (civil_from_days days)) <= 9999.
Proof.
  intros Hd. unfold civil_from_days.
  set (z := days + 719468). set (doe := z mod 146097).
  assert (Hdoe : 0 <= doe <= 146096) by (unfold doe; Z.div_mod_to_equations; lia).
  assert (Hz : z = 146097 * (z / 146097) + doe) by (unfold doe; Z.div_mod_to_equations; lia).
  set (era := z / 146097) in *.
  assert (Hz' : -60 <= z <= 3652364) by (unfold z; lia).
  clearbody doe era.
  set (yoe := (doe - doe / 1460 + doe / 36524 - doe / 146096) / 365).
  set (doy := doe - (365 * yoe + yoe / 4 - yoe / 100)).
  assert (Hb : 0 <= yoe <= 399 /\ 0 <= doy <= 365)
    by (unfold doy, yoe; split; Z.div_mod_to_equations; lia).
  assert (Hyoe : yoe = (doe - doe / 1460 + doe / 36524 - doe / 146096) / 365)
    by reflexivity.
  assert (Hdoy : doy = doe - (365 * yoe + yoe / 4 - yoe / 100)) by reflexivity.
  clearbody doy. clearbody yoe.
  set (mp := (5 * doy + 2) / 153).
  assert (Hmp : mp = (5 * doy + 2) / 153) by reflexivity. clearbody mp.
  cbn [fst].
  destruct (mp <? 10) eqn:E1;
    [apply Z.ltb_lt in E1|apply Z.ltb_ge in E1];
    destruct (_ <=? 2) eqn:E2;
    try apply Z.leb_le in E2; try apply Z.leb_gt in E2;
    Z.div_mod_to_equations; lia.
Qed.

Lemma digit_char_inj a b :
  0 <= a <= 9 -> 0 <= b <= 9 -> digit_char a = digit_char b -> a = b.
Proof.
  intros Ha Hb H. unfold digit_char in H.
  apply (f_equal nat_of_ascii) in H.
  rewrite !nat_ascii_embedding in H by lia. lia.
Qed.


(** Decimal printing of numbers of up to four digits. *)
Lemma utoa_small x :
  0 <= x < 10000 ->
  utoa x
  = if x <? 10 then String (digit_char x) ""
    else if x <? 100 then
      String (digit_char (x / 10)) (String (digit_char (x mod 10)) "")
    else if x <? 1000 then
      String (digit_char (x / 100))
        (String (digit_char (x / 10 mod 10)) (String (digit_char (x mod 10)) ""))
    else
      String (digit_char (x / 1000))
        (String (digit_char (x / 100 mod 10))
           (String (digit_char (x / 10 mod 10))
              (String (digit_char (x mod 10)) ""))).
Proof.
  intros Hx. unfold utoa.
  destruct (Z.ltb_spec x 10) as [H1|H1].
  { cbn [utoa_fuel]. rewrite (Z.div_small x 10), (Z.mod_small x 10) by lia.
    reflexivity. }
  assert (Hl1 : 3 <= Z.log2 x) by (apply (Z.log2_le_mono 10 x); lia).
  destruct (Z.to_nat (Z.log2 x)) as [|[|[|f]]] eqn:Ef; try lia.
  cbn [utoa_fuel].
  destruct (Z.eqb_spec (x / 10) 0) as [E|_];
    [exfalso; Z.div_mod_to_equations; lia|].
  destruct (Z.ltb_spec x 100) as [H2|H2].
  { destruct (Z.eqb_spec (x / 10 / 10) 0) as [_|E];
      [|exfalso; Z.div_mod_to_equations; lia].
    rewrite (Z.mod_small (x / 10) 10) by (Z.div_mod_to_equations; lia).
    reflexivity. }
  destruct (Z.eqb_spec (x / 10 / 10) 0) as [E|_];
    [exfalso; Z.div_mod_to_equations; lia|].
  replace (x / 10 / 10) with (x / 100) by (Z.div_mod_to_equations; lia).
  destruct (Z.ltb_spec x 1000) as [H3|H3].
  { destruct (Z.eqb_spec (x / 100 / 10) 0) as [_|E];
      [|exfalso; Z.div_mod_to_equations; lia].
    rewrite (Z.mod_small (x / 100) 10) by (Z.div_mod_to_equations; lia).
    reflexivity. }
  destruct (Z.eqb_spec (x / 100 / 10) 0) as [E|_];
    [exfalso; Z.div_mod_to_equations; lia|].
  replace (x / 100 / 10) with (x / 1000) by (Z.div_mod_to_equations; lia).
  assert (Hl2 : 9 <= Z.log2 x) by (apply (Z.log2_le_mono 1000 x); lia).
  destruct f as [|f]; [lia|]. cbn [utoa_fuel].
  destruct (Z.eqb_spec (x / 1000 / 10) 0) as [_|E];
    [|exfalso; Z.div_mod_to_equations; lia].
  rewrite (Z.mod_small (x / 1000) 10) by (Z.div_mod_to_equations; lia).
  reflexivity.
Qed.

Lemma appendInt_2 x :
  0 <= x < 100 ->
  appendInt x 2 = String (digit_char (x / 10)) (String (digit_char (x mod 10)) "").
Proof.
  intros Hx. unfold appendInt.
  rewrite Z.abs_eq, utoa_small by lia.
  destruct (Z.ltb_spec x 0) as [?|_]; [lia|].
  destruct (Z.ltb_spec x 10) as [H1|H1].
  - rewrite (Z.div_small x 10), (Z.mod_small x 10) by lia. reflexivity.
  - destruct (Z.ltb_spec x 100) as [_|?]; [|lia]. reflexivity.
Qed.

Lemma appendInt_4 x :
  0 <= x < 10000 ->
  appendInt x 4
  = String (digit_char (x / 1000))
      (String (digit_char (x / 100 mod 10))
         (String (digit_char (x / 10 mod 10))
            (String (digit_char (x mod 10)) ""))).
Proof.
  intros Hx. unfold appendInt.
  rewrite Z.abs_eq, utoa_small by lia.
  destruct (Z.ltb_spec x 0) as [?|_]; [lia|].
  destruct (Z.ltb_spec x 10) as [H1|H1].
  { rewrite (Z.div_small x 1000), (Z.div_small x 100), (Z.div_small x 10),
      (Z.mod_small x 10) by lia. reflexivity. }
  destruct (Z.ltb_spec x 100) as [H2|H2].
  { rewrite (Z.div_small x 1000), (Z.div_small x 100) by lia.
    rewrite (Z.mod_small (x / 10) 10) by (Z.div_mod_to_equations; lia).
    reflexivity. }
  destruct (Z.ltb_spec x 1000) as [H3|H3].
  { rewrite (Z.div_small x 1000) by lia.
    rewrite (Z.mod_small (x / 100) 10) by (Z.div_mod_to_equations; lia).
    reflexivity. }
  reflexivity.
Qed.

(** The layout is one to one on the seconds of the years 0 to 9999. *)
Lemma format_wall_seconds_inj a1 a2 :
  -62167219200 <= a1 <= 253402300799 ->
  -62167219200 <= a2 <= 253402300799 ->
  format_wall_seconds a1 = format_wall_seconds a2 -> a1 = a2.
Proof.
  intros H1 H2. unfold format_wall_seconds.
  assert (Hd1 : -719528 <= a1 / 86400 <= 2932896) by (Z.div_mod_to_equations; lia).
  assert (Hd2 : -719528 <= a2 / 86400 <= 2932896) by (Z.div_mod_to_equations; lia).
  pose proof (civil_year_range _ Hd1) as Hy1.
  pose proof (civil_year_range _ Hd2) as Hy2.
  pose proof (civil_fields (a1 / 86400)) as Hf1.
  pose proof (civil_fields (a2 / 86400)) as Hf2.
  pose proof (civil_from_days_inj (a1 / 86400) (a2 / 86400)) as Hinj.
  destruct (civil_from_days (a1 / 86400)) as [[y1 m1] d1].
  destruct (civil_from_days (a2 / 86400)) as [[y2 m2] d2].
  cbn [fst] in Hy1, Hy2.
  assert (Hs1 : 0 <= a1 mod 86400 < 86400) by (Z.div_mod_to_equations; lia).
  assert (Hs2 : 0 <= a2 mod 86400 < 86400) by (Z.div_mod_to_equations; lia).
  assert (Ha1 : a1 = 86400 * (a1 / 86400) + a1 mod 86400)
    by (Z.div_mod_to_equations; lia).
  assert (Ha2 : a2 = 86400 * (a2 / 86400) + a2 mod 86400)
    by (Z.div_mod_to_equations; lia).
  set (s1 := a1 mod 86400) in *. set (s2 := a2 mod 86400) in *.
  clearbody s1 s2.
  rewrite !appendInt_4 by lia.
  rewrite !appendInt_2 by (try lia; Z.div_mod_to_equations; lia).
  cbv [String.append]. intros H.
  injection H as Y3 Y2 Y1 Y0 M1 M0 D1 D0 h1 h0 n1 n0 c1 c0.
  apply digit_char_inj in Y3, Y2, Y1, Y0, M1, M0, D1, D0, h1, h0, n1, n0, c1, c0;
    try (Z.div_mod_to_equations; lia).
  assert (Ey : y1 = y2) by (Z.div_mod_to_equations; lia).
  assert (Em : m1 = m2) by (Z.div_mod_to_equations; lia).
  assert (Ed : d1 = d2) by (Z.div_mod_to_equations; lia).
  assert (Es : s1 = s2) by (Z.div_mod_to_equations; lia).
  assert (Edays : a1 / 86400 = a2 / 86400) by (apply Hinj; congruence).
  lia.
Qed.

(** In the years 0 to 9999 the layout gives fourteen characters. *)
Lemma format_wall_seconds_length a :
  -62167219200 <= a <= 253402300799 ->
  String.length (format_wall_seconds a) = 14%nat.
Proof.
  intros H. unfold format_wall_seconds.
  assert (Hd : -719528 <= a / 86400 <= 2932896) by (Z.div_mod_to_equations; lia).
  pose proof (civil_year_range _ Hd) as Hy.
  pose proof (civil_fields (a / 86400)) as Hf.
  destruct (civil_from_days (a / 86400)) as [[y m] d]. cbn [fst] in Hy.
  assert (Hs : 0 <= a mod 86400 < 86400) by (Z.div_mod_to_equations; lia).
  set (sod := a mod 86400) in *. clearbody sod.
  rewrite appendInt_4 by lia.
  rewrite !appendInt_2 by (try lia; Z.div_mod_to_equations; lia).
  reflexivity.
Qed.

(** C10: the identifier made by [NewModelRequest] is "mcp-" followed by the
    creation time in the layout "20060102150405", and by nothing else.
    The layout has a resolution of one second: two requests created within
    the same second get the same identifier.  It keeps the whole second:
    in the years 0 to 9999 the identifier has eighteen characters, and two
    requests have the same identifier exactly when their wall-clock seconds
    are the same. *)
Theorem C10_same_second_same_id :
  forall (loc : Location) (t1 t2 : Z),
    let wall := fun t => Unix t + loc (Unix t) in
    ID (NewModelRequest loc t1) = "mcp-" +:+ Format_20060102150405 loc t1 /\
    (Unix t1 = Unix t2 ->
     ID (NewModelRequest loc t1) = ID (NewModelRequest loc t2)) /\
    (-62167219200 <= wall t1 <= 253402300799 ->
     -62167219200 <= wall t2 <= 253402300799 ->
     String.length (ID (NewModelRequest loc t1)) = 18%nat /\
     (ID (NewModelRequest loc t1) = ID (NewModelRequest loc t2)
      <-> wall t1 = wall t2)).
Proof.
  intros loc t1 t2 wall. split; [reflexivity|]. split.
  - intros Hsec. cbn [NewModelRequest ID].
    rewrite !generateID_second, Hsec. reflexivity.
  - intros H1 H2. cbn [NewModelRequest ID]. rewrite !generateID_second.
    fold (wall t1) (wall t2). split.
    + change (S (S (S (S (String.length (format_wall_seconds (wall t1))))))
              = 18%nat).
      rewrite format_wall_seconds_length by exact H1. reflexivity.
    + split.
      * intros E.
        change (String "m" (String "c" (String "p" (String "-"
                  (format_wall_seconds (wall t1)))))
                = String "m" (String "c" (String "p" (String "-"
                    (format_wall_seconds (wall t2)))))) in E.
        injection E as E.
        apply format_wall_seconds_inj; assumption.
      * intros E. rewrite E. reflexivity.
Qed.

(** Two different instants, 442 ms apart, of the same second, and the
    first instant of the next second. *)
Lemma C10_same_second_same_id_witness :
  1747369197000000000 <> 1747369197442000000 /\
  ID (NewModelRequest UTC 1747369197000000000) = "mcp-20250516041957" /\
  ID (NewModelRequest UTC 1747369197000000000)
  = ID (NewModelRequest UTC 1747369197442000000) /\
  ID (NewModelRequest UTC 1747369198000000000) = "mcp-20250516041958" /\
  ID (NewModelRequest UTC 1747369197000000000)
  <> ID (NewModelRequest UTC 1747369198000000000).
Proof.
  split; [lia|]. split; [vm_compute; reflexivity|]. split.
  - apply (proj1 (proj2 (C10_same_second_same_id UTC
                            1747369197000000000 1747369197442000000))).
    vm_compute. reflexivity.
  - split; [vm_compute; reflexivity|]. intros E.
    apply (proj2 (proj2 (proj2 (C10_same_second_same_id UTC
                   1747369197000000000 1747369198000000000))
                   ltac:(vm_compute; split; discriminate)
                   ltac:(vm_compute; split; discriminate))) in E.
    vm_compute in E. discriminate.
Defined.

(* ===================================================================== *)
(** ** The status notifier *)
(* ===================================================================== *)

(** Starting one goroutine per callback appends one task per callback. *)
Lemma go_callbacks_spec (event : StatusChangeEvent) cbs w :
  fold_left (fun w cb => go_callback cb event w) cbs w
  = set_notifications (notifications w ++ map (fun cb => (cb, event)) cbs) w.
Proof.
  revert w. induction cbs as [|cb cbs IH]; intros w; simpl.
  - rewrite app_nil_r. destruct w; reflexivity.
  - rewrite IH. unfold go_callback, set_notifications; simpl.
    rewrite <- app_assoc. reflexivity.
Qed.

Lemma Client_updateStatusLocked_spec st err c w :
  Client.updateStatusLocked st err c w
  = (Client.set_status st c,
     set_notifications
       (notifications w
          ++ map (fun cb => (cb, {| OldStatus := Client.status c;
                                    NewStatus := st;
                                    Timestamp := now w;
                                    Error := err |}))
               (Client.callbacks c)) w).
Proof. unfold Client.updateStatusLocked. rewrite go_callbacks_spec. reflexivity. Qed.

Lemma Server_updateStatusLocked_spec st err s w :
  Server.updateStatusLocked st err s w
  = (Server.set_status st s,
     set_notifications
       (notifications w
          ++ map (fun cb => (cb, {| OldStatus := Server.status s;
                                    NewStatus := st;
                                    Timestamp := now w;
                                    Error := err |}))
               (Server.callbacks s)) w).
Proof. unfold Server.updateStatusLocked. rewrite go_callbacks_spec. reflexivity. Qed.

Lemma Client_updateStatus_status st err c w :
  Client.status (fst (Client.updateStatus st err c w)) = st.
Proof. reflexivity. Qed.

Lemma Server_updateStatus_status st err s w :
  Server.status (fst (Server.updateStatus st err s w)) = st.
Proof. reflexivity. Qed.

(* ===================================================================== *)
(** ** The lifecycle guards *)
(* ===================================================================== *)

Lemma Client_Start_refused c w :
  Client.status c <> StatusStopped ->
  Client.Start c w
  = (Some (StateError "start" "client" (Client.status c)), c, w).
Proof. intros H. unfold Client.Start. destruct (decide _); [reflexivity|contradiction]. Qed.

Lemma Client_Stop_refused c w :
  Client.status c <> StatusRunning ->
  Client.Stop c w
  = Returns (Some (StateError "stop" "client" (Client.status c)), c, w).
Proof. intros H. unfold Client.Stop. destruct (decide _); [reflexivity|contradiction]. Qed.

Lemma Server_Start_refused s w :
  Server.status s <> StatusStopped ->
  Server.Start s w
  = (Some (StateError "start" "server" (Server.status s)), s, w).
Proof. intros H. unfold Server.Start. destruct (decide _); [reflexivity|contradiction]. Qed.

Lemma Server_Stop_refused s w :
  Server.status s <> StatusRunning ->
  Server.Stop s w
  = Returns (Some (StateError "stop" "server" (Server.status s)), s, w).
Proof. intros H. unfold Server.Stop. destruct (decide _); [reflexivity|contradiction]. Qed.

(** A stop that succeeds ends in Stopped. *)
Lemma Client_Stop_ok_status c w c' w' :
  Client.Stop c w = Returns (None, c', w') ->
  Client.status c' = StatusStopped.
Proof.
  unfold Client.Stop. destruct (decide _); [discriminate|].
  destruct (Client.updateStatusLocked _ _ c w) as [c1 w1].
  destruct (match Client.conn c1 with
            | Some k => _ | None => _ end) as [c2 w3].
  destruct (Client.wake_monitors _ _) as [[c4 w4]|]; [|discriminate].
  destruct (decide _); [|discriminate].
  destruct (Client.updateStatus _ _ c4 w4) as [c5 w5] eqn:E.
  intros [= <- <-].
  change c5 with (fst (c5, w5)). rewrite <- E. reflexivity.
Qed.

Lemma Server_Stop_ok_status s w s' w' :
  Server.Stop s w = Returns (None, s', w') ->
  Server.status s' = StatusStopped.
Proof.
  unfold Server.Stop. destruct (decide _); [discriminate|].
  destruct (Server.updateStatusLocked _ _ s w) as [s1 w1].
  destruct (Server.reap _ _) as [s2 w4].
  destruct (decide _); [|discriminate].
  destruct (Server.updateStatus _ _ s2 w4) as [s3 w5] eqn:E.
  intros [= <- <-].
  change s3 with (fst (s3, w5)). rewrite <- E. reflexivity.
Qed.

(** C1: for the client and for the server, [Start] in a state other than
    Stopped and [Stop] in a state other than Running return a state error
    and leave the component and the world as they were (same status, no
    notification started); a [Stop] that follows a successful [Stop] is
    such a refused call. *)
Theorem C1_invalid_transition_rejected :
  (forall c w,
      Client.status c <> StatusStopped ->
      Client.Start c w
      = (Some (StateError "start" "client" (Client.status c)), c, w)) /\
  (forall c w,
      Client.status c <> StatusRunning ->
      Client.Stop c w
      = Returns (Some (StateError "stop" "client" (Client.status c)), c, w)) /\
  (forall c w c' w',
      Client.Stop c w = Returns (None, c', w') ->
      Client.Stop c' w'
      = Returns (Some (StateError "stop" "client" StatusStopped), c', w')) /\
  (forall s w,
      Server.status s <> StatusStopped ->
      Server.Start s w
      = (Some (StateError "start" "server" (Server.status s)), s, w)) /\
  (forall s w,
      Server.status s <> StatusRunning ->
      Server.Stop s w
      = Returns (Some (StateError "stop" "server" (Server.status s)), s, w)) /\
  (forall s w s' w',
      Server.Stop s w = Returns (None, s', w') ->
      Server.Stop s' w'
      = Returns (Some (StateError "stop" "server" StatusStopped), s', w')).
Proof.
  split; [exact Client_Start_refused|].
  split; [exact Client_Stop_refused|].
  split.
  { intros c w c' w' H. apply Client_Stop_ok_status in H.
    rewrite <- H at 1. apply Client_Stop_refused. rewrite H. discriminate. }
  split; [exact Server_Start_refused|].
  split; [exact Server_Stop_refused|].
  intros s w s' w' H. apply Server_Stop_ok_status in H.
  rewrite <- H at 1. apply Server_Stop_refused. rewrite H. discriminate.
Qed.

Lemma C1_invalid_transition_rejected_witness :
  let running := Scenario.running_client Scenario.reachable in
  let fresh := Scenario.new_client Scenario.reachable in
  let stopped := Scenario.stopped_client in
  (Client.status (fst running) = StatusRunning /\
   Client.Start (fst running) (snd running)
   = (Some (StateError "start" "client" (Client.status (fst running))),
      fst running, snd running)) /\
  (Client.status (fst fresh) = StatusStopped /\
   Client.Stop (fst fresh) (snd fresh)
   = Returns (Some (StateError "stop" "client" (Client.status (fst fresh))),
              fst fresh, snd fresh)) /\
  (Client.Stop (fst running) (snd running)
   = Returns (None, fst stopped, snd stopped) /\
   Client.Stop (fst stopped) (snd stopped)
   = Returns (Some (StateError "stop" "client" StatusStopped),
              fst stopped, snd stopped)) /\
  (Server.status (fst Scenario.running_server) = StatusRunning /\
   Server.Start (fst Scenario.running_server) (snd Scenario.running_server)
   = (Some (StateError "start" "server"
              (Server.status (fst Scenario.running_server))),
      fst Scenario.running_server, snd Scenario.running_server)) /\
  (Server.status (fst Scenario.new_server) = StatusStopped /\
   Server.Stop (fst Scenario.new_server) (snd Scenario.new_server)
   = Returns (Some (StateError "stop" "server"
                      (Server.status (fst Scenario.new_server))),
              fst Scenario.new_server, snd Scenario.new_server)) /\
  (Server.Stop (fst Scenario.running_server) (snd Scenario.running_server)
   = Returns (None, fst Scenario.stopped_server, snd Scenario.stopped_server)
   /\
   Server.Stop (fst Scenario.stopped_server) (snd Scenario.stopped_server)
   = Returns (Some (StateError "stop" "server" StatusStopped),
              fst Scenario.stopped_server, snd Scenario.stopped_server)).
Proof.
  destruct C1_invalid_transition_rejected as (H1 & H2 & H3 & H4 & H5 & H6).
  cbv zeta.
  assert (Hc : Client.Stop (fst (Scenario.running_client Scenario.reachable))
                 (snd (Scenario.running_client Scenario.reachable))
               = Returns (None, fst Scenario.stopped_client,
                          snd Scenario.stopped_client))
    by (vm_compute; reflexivity).
  assert (Hs : Server.Stop (fst Scenario.running_server)
                 (snd Scenario.running_server)
               = Returns (None, fst Scenario.stopped_server,
                          snd Scenario.stopped_server))
    by (vm_compute; reflexivity).
  split.
  { split; [vm_compute; reflexivity|]. apply H1. vm_compute. discriminate. }
  split.
  { split; [vm_compute; reflexivity|]. apply H2. vm_compute. discriminate. }
  split.
  { split; [exact Hc|]. exact (H3 _ _ _ _ Hc). }
  split.
  { split; [vm_compute; reflexivity|]. apply H4. vm_compute. discriminate. }
  split.
  { split; [vm_compute; reflexivity|]. apply H5. vm_compute. discriminate. }
  split; [exact Hs|]. exact (H6 _ _ _ _ Hs).
Defined.

(* ===================================================================== *)
(** ** Calls of the client *)
(* ===================================================================== *)

(** [ProcessModel] reads the connection and hands back the component and
    the world it was given. *)
Lemma Client_ProcessModel_frame answer req c w :
  snd (fst (Client.ProcessModel answer req c w)) = c /\
  snd (Client.ProcessModel answer req c w) = w.
Proof.
  unfold Client.ProcessModel. destruct (Client.conn c) as [k|]; [|easy].
  destruct (if conn_is_closed w k then _ else _); easy.
Qed.

(** C9: a [ProcessModel] call that fails (no connection, error of the
    transport or of the peer, cancelled context) returns no response and
    leaves the client and the world as they were: same status, no
    notification started or delivered. *)
Theorem C9_failed_call_keeps_status :
  forall answer req c w resp err c' w',
    Client.ProcessModel answer req c w = ((resp, Some err), c', w') ->
    resp = None /\
    Client.status c' = Client.status c /\
    notifications w' = notifications w /\
    delivered w' = delivered w /\
    c' = c /\ w' = w.
Proof.
  intros answer req c w resp err c' w' H.
  destruct (Client_ProcessModel_frame answer req c w) as [Hc Hw].
  rewrite H in Hc, Hw. simpl in Hc, Hw. subst c' w'.
  split; [|easy].
  unfold Client.ProcessModel in H. destruct (Client.conn c) as [k|].
  - destruct (if conn_is_closed w k then _ else _); congruence.
  - congruence.
Qed.

(** A call cancelled while the client is running. *)
Lemma C9_failed_call_keeps_status_witness :
  let running := Scenario.running_client Scenario.reachable in
  exists resp err c' w',
    Client.ProcessModel (inr (NetError "context canceled"))
      Scenario.sample_request (fst running) (snd running)
    = ((resp, Some err), c', w') /\
    resp = None /\
    Client.status c' = Client.status (fst running) /\
    notifications w' = notifications (snd running) /\
    delivered w' = delivered (snd running) /\
    c' = fst running /\ w' = snd running.
Proof.
  cbv zeta.
  assert (H : Client.ProcessModel (inr (NetError "context canceled"))
                Scenario.sample_request
                (fst (Scenario.running_client Scenario.reachable))
                (snd (Scenario.running_client Scenario.reachable))
              = ((None, Some (RPCError (NetError "context canceled"))),
                 fst (Scenario.running_client Scenario.reachable),
                 snd (Scenario.running_client Scenario.reachable)))
    by (vm_compute; reflexivity).
  do 4 eexists. split; [exact H|].
  exact (C9_failed_call_keeps_status _ _ _ _ _ _ _ _ H).
Defined.

(* ===================================================================== *)
(** ** The handler registry *)
(* ===================================================================== *)

(** Registration never changes the handler of a name that has one. *)
Lemma register_methods_keeps handler methods hs method h :
  hs !! method = Some h ->
  snd (Server.register_methods handler methods hs) !! method = Some h.
Proof.
  revert hs. induction methods as [|m rest IH]; intros hs Hm; simpl.
  - exact Hm.
  - destruct (hs !! m) eqn:E; simpl; [exact Hm|].
    apply IH. rewrite lookup_insert_ne; [exact Hm|]. congruence.
Qed.

(** A declared name that is taken makes the registration fail. *)
Lemma register_methods_conflict handler methods hs method :
  method ∈ methods ->
  is_Some (hs !! method) ->
  exists m, fst (Server.register_methods handler methods hs)
            = Some (AlreadyRegistered m).
Proof.
  revert hs. induction methods as [|m rest IH]; intros hs Hin Hsome.
  - inversion Hin.
  - simpl. destruct (hs !! m) eqn:E; simpl; [eauto|].
    apply IH.
    + apply elem_of_cons in Hin as [->|Hin]; [|exact Hin].
      rewrite E in Hsome. destruct Hsome; discriminate.
    + destruct Hsome as [h Hh]. exists h.
      rewrite lookup_insert_ne; [exact Hh|]. congruence.
Qed.

(** A failed registration keeps the names declared before the one that
    is taken. *)
Lemma register_methods_partial handler m1 m2 rest hs :
  hs !! m1 = None ->
  m1 <> m2 ->
  is_Some (hs !! m2) ->
  Server.register_methods handler (m1 :: m2 :: rest) hs
  = (Some (AlreadyRegistered m2), <[m1 := handler]> hs).
Proof.
  intros H1 Hne [h H2]. simpl. rewrite H1.
  rewrite lookup_insert_ne by exact Hne. rewrite H2. reflexivity.
Qed.

(** C3, evaluated on the code: the default handler is registered; a second
    handler declares "mcp.describeModel" and then "mcp.processModel".  The
    call fails with the already-registered error for "mcp.processModel" and
    leaves that name with the default handler, but "mcp.describeModel",
    declared before it, is now registered: the registry is not what it
    was. *)
Theorem C3_failed_registration_is_partial :
  let s0 := fst Scenario.new_server in
  let s1 := snd (Server.RegisterHandler Scenario.two_method_handler s0) in
  fst (Server.RegisterHandler Scenario.two_method_handler s0)
  = Some (AlreadyRegistered "mcp.processModel") /\
  Server.handlers s0 !! "mcp.processModel" = Some Server.NewDefaultModelHandler /\
  Server.handlers s1 !! "mcp.processModel" = Some Server.NewDefaultModelHandler /\
  Server.handlers s0 !! "mcp.describeModel" = None /\
  Server.handlers s1 !! "mcp.describeModel" = Some Scenario.two_method_handler /\
  Server.handlers s1 <> Server.handlers s0.
Proof.
  cbv zeta. repeat split; try (vm_compute; reflexivity).
  intros Heq.
  apply (f_equal (fun hs : gmap string Server.Handler =>
                    hs !! "mcp.describeModel")) in Heq.
  vm_compute in Heq. discriminate.
Qed.

(* ===================================================================== *)
(** ** Dispatch on the server *)
(* ===================================================================== *)

Lemma send_open r conn :
  conn_closed conn = false -> snd (send r conn) = push r conn.
Proof. intros H. unfold send. rewrite H. reflexivity. Qed.

Lemma ReplyWithError_open id code message conn :
  conn_closed conn = false ->
  Server.ReplyWithError id code message conn
  = push (ReplyError id {| Code := code; Message := message |}) conn.
Proof. intros H. unfold Server.ReplyWithError. apply send_open, H. Qed.






(* ===================================================================== *)
(** ** Reconnection *)
(* ===================================================================== *)

Lemma wrap_int_id x : int_range x -> wrap_int x = x.
Proof.
  unfold int_range, int_min, int_max, wrap_int.
  change (2 ^ 63) with 9223372036854775808.
  change (2 ^ 64) with 18446744073709551616.
  intros H. rewrite Z.mod_small; lia.
Qed.

(** Inside the loop the counter is below the maximum, so adding one does
    not wrap. *)
Lemma next_attempt_no_wrap r max :
  0 <= r -> r < max -> max <= int_max -> wrap_int (r + 1) = r + 1.
Proof.
  intros H0 Hlt Hmax. apply wrap_int_id.
  unfold int_range, int_min, int_max in *.
  change (2 ^ 63) with 9223372036854775808 in *. lia.
Qed.

Lemma ctx_never_done w k : ctxs w !! k = Some None -> ctx_done w k = false.
Proof. intros H. unfold ctx_done. rewrite H. reflexivity. Qed.

Lemma connect_refused c w msg :
  dial_result w (dials w) = Some msg ->
  exists err, Client.connect c w = (Some err, c, set_dials (S (dials w)) w).
Proof. intros H. unfold Client.connect. rewrite H. eauto. Qed.

Lemma connect_accepted c w :
  dial_result w (dials w) = None ->
  exists c' w',
    Client.connect c w = (None, c', w') /\
    Client.conn c' = Some (length (conns w)) /\
    Client.isConnected c' = true /\
    Client.status c' = Client.status c /\
    Client.reconnectAttempt c' = Client.reconnectAttempt c /\
    notifications w' = notifications w /\
    dials w' = S (dials w) /\
    conns w' !! length (conns w)
    = Some {| conn_ctx := Client.ctx c; conn_closed := false;
              conn_sent := [] |}.
Proof.
  intros H. unfold Client.connect. rewrite H.
  do 2 eexists. split; [reflexivity|]. simpl.
  repeat split. apply list_lookup_middle. reflexivity.
Qed.

(** The loop returns: the bound taken by [attemptReconnect] is never hit,
    whatever the network and the context do. *)
Lemma attemptReconnect_loop_returns fuel : forall c w,
  0 <= Client.reconnectAttempt c ->
  Client.MaxReconnectAttempts (Client.opts c) <= int_max ->
  (Z.to_nat (Client.MaxReconnectAttempts (Client.opts c)
             - Client.reconnectAttempt c) <= fuel)%nat ->
  is_Some (Client.attemptReconnect_loop fuel c w).
Proof.
  induction fuel as [|fuel IH]; intros c w Hr Hmax Hfuel; simpl.
  - rewrite bool_decide_eq_false_2 by lia. eauto.
  - case_bool_decide as Hlt; [|eauto].
    rewrite (next_attempt_no_wrap _ _ Hr Hlt Hmax).
    destruct (ctx_done _ _); [eauto|].
    unfold Client.connect. destruct (dial_result _ _); [|eauto].
    apply IH; simpl; lia.
Qed.

Lemma attemptReconnect_returns c w :
  0 <= Client.reconnectAttempt c ->
  Client.MaxReconnectAttempts (Client.opts c) <= int_max ->
  is_Some (Client.attemptReconnect c w).
Proof.
  intros Hr Hmax. apply attemptReconnect_loop_returns; [assumption..|apply le_n].
Qed.

(** With the context never cancelled and every dial refused, the loop makes
    one dial per unit of distance between the counter and the maximum, and
    then records Failed. *)
Lemma reconnect_exhausts fuel : forall c w,
  (forall i, (dials w <= i)%nat -> dial_result w i <> None) ->
  ctxs w !! Client.ctx c = Some None ->
  0 <= Client.reconnectAttempt c ->
  Client.MaxReconnectAttempts (Client.opts c) <= int_max ->
  (Z.to_nat (Client.MaxReconnectAttempts (Client.opts c)
             - Client.reconnectAttempt c) <= fuel)%nat ->
  exists c' w',
    Client.attemptReconnect_loop fuel c w = Some (c', w') /\
    Client.status c' = StatusFailed /\
    dials w'
    = (dials w + Z.to_nat (Client.MaxReconnectAttempts (Client.opts c)
                           - Client.reconnectAttempt c))%nat /\
    notifications w'
    = notifications w
        ++ map (fun cb => (cb, {| OldStatus := Client.status c;
                                  NewStatus := StatusFailed;
                                  Timestamp := now w';
                                  Error := Some ReconnectExhausted |}))
             (Client.callbacks c) /\
    Client.wg c' = Client.wg c.
Proof.
  induction fuel as [|fuel IH]; intros c w Hdial Hctx Hr Hmax Hfuel.
  - simpl. rewrite bool_decide_eq_false_2 by lia.
    unfold Client.updateStatus. rewrite Client_updateStatusLocked_spec.
    do 2 eexists. split; [reflexivity|]. simpl.
    replace (Z.to_nat _) with 0%nat by lia.
    repeat split. lia.
  - simpl. case_bool_decide as Hlt.
    + rewrite (next_attempt_no_wrap _ _ Hr Hlt Hmax).
      rewrite ctx_never_done by exact Hctx.
      destruct (dial_result w (dials w)) as [msg|] eqn:Hd;
        [|exfalso; exact (Hdial (dials w) (le_n _) Hd)].
      edestruct (connect_refused
                   (Client.set_reconnectAttempt (Client.reconnectAttempt c + 1) c)
                   (Sleep (Client.ReconnectDelay (Client.opts c)) w) msg)
        as [err Hc]; [exact Hd|].
      cbn [Client.opts Client.set_reconnectAttempt] in *.
      rewrite Hc.
      edestruct (IH (Client.set_reconnectAttempt (Client.reconnectAttempt c + 1) c)
                    (set_dials (S (dials w))
                       (Sleep (Client.ReconnectDelay (Client.opts c)) w)))
        as (c' & w' & Hloop & Hst & Hn & Hnot & Hwg).
      * intros i Hi. simpl in *. apply Hdial. lia.
      * exact Hctx.
      * simpl. lia.
      * exact Hmax.
      * simpl. lia.
      * exists c', w'. split; [exact Hloop|]. split; [exact Hst|].
        simpl in Hn, Hnot, Hwg. split; [lia|]. split; [exact Hnot|exact Hwg].
    + unfold Client.updateStatus. rewrite Client_updateStatusLocked_spec.
      do 2 eexists. split; [reflexivity|]. simpl.
      replace (Z.to_nat _) with 0%nat by lia.
      repeat split. lia.
Qed.

(** With the context never cancelled, [j] refused dials and then an
    accepted one, the loop ends connected with the counter back at zero and
    no change of status. *)
Lemma reconnect_succeeds j : forall fuel c w,
  (forall i, (i < j)%nat -> dial_result w (dials w + i)%nat <> None) ->
  dial_result w (dials w + j)%nat = None ->
  ctxs w !! Client.ctx c = Some None ->
  0 <= Client.reconnectAttempt c ->
  Client.MaxReconnectAttempts (Client.opts c) <= int_max ->
  Z.of_nat j
  < Client.MaxReconnectAttempts (Client.opts c) - Client.reconnectAttempt c ->
  (j < fuel)%nat ->
  exists c' w',
    Client.attemptReconnect_loop fuel c w = Some (c', w') /\
    Client.reconnectAttempt c' = 0 /\
    Client.status c' = Client.status c /\
    Client.isConnected c' = true /\
    notifications w' = notifications w /\
    dials w' = (dials w + S j)%nat.
Proof.
  induction j as [|j IH]; intros fuel c w Hfail Hok Hctx Hr Hmax Hlt Hfuel;
    (destruct fuel as [|fuel]; [lia|]); simpl;
    rewrite bool_decide_eq_true_2 by lia;
    rewrite (next_attempt_no_wrap _ (Client.MaxReconnectAttempts (Client.opts c)) Hr)
      by lia;
    rewrite ctx_never_done by exact Hctx.
  - rewrite Nat.add_0_r in Hok.
    edestruct (connect_accepted
                 (Client.set_reconnectAttempt (Client.reconnectAttempt c + 1) c)
                 (Sleep (Client.ReconnectDelay (Client.opts c)) w))
      as (c' & w' & Hc & _ & Hconn & Hst & _ & Hnot & Hn & _); [exact Hok|].
    cbn [Client.opts Client.set_reconnectAttempt] in *. rewrite Hc.
    do 2 eexists. split; [reflexivity|]. simpl in *.
    repeat split; try assumption. lia.
  - destruct (dial_result w (dials w)) as [msg|] eqn:Hd.
    2:{ exfalso. apply (Hfail 0%nat); [lia|]. rewrite Nat.add_0_r. exact Hd. }
    edestruct (connect_refused
                 (Client.set_reconnectAttempt (Client.reconnectAttempt c + 1) c)
                 (Sleep (Client.ReconnectDelay (Client.opts c)) w) msg)
      as [err Hc]; [exact Hd|].
    cbn [Client.opts Client.set_reconnectAttempt] in *. rewrite Hc.
    edestruct (IH fuel
                 (Client.set_reconnectAttempt (Client.reconnectAttempt c + 1) c)
                 (set_dials (S (dials w))
                    (Sleep (Client.ReconnectDelay (Client.opts c)) w)))
      as (c' & w' & Hloop & Hz & Hst & Hconn & Hnot & Hn).
    + intros i Hi. simpl. rewrite <- Nat.add_succ_r. apply Hfail. lia.
    + simpl. rewrite <- Nat.add_succ_r. exact Hok.
    + exact Hctx.
    + simpl. lia.
    + exact Hmax.
    + simpl. lia.
    + lia.
    + exists c', w'. simpl in *. repeat split; try assumption. lia.
Qed.

(** C2: auto-reconnect is enabled and the loss of the connection is seen
    while the client is Running, with the context never cancelled.  If
    every further dial is refused, the client dials at most
    MaxReconnectAttempts times and then records Failed, with an event from
    Running to Failed that carries the reconnect-exhausted error.  If a
    dial is accepted within the budget, the counter is back at zero, the
    client is connected and its status is still Running, no event having
    been started. *)
Theorem C2_reconnect_bounded_then_failed :
  forall c w,
    Client.AutoReconnect (Client.opts c) = true ->
    Client.status c = StatusRunning ->
    ctxs w !! Client.ctx c = Some None ->
    0 <= Client.reconnectAttempt c ->
    Client.MaxReconnectAttempts (Client.opts c) <= int_max ->
    ((forall i, (dials w <= i)%nat -> dial_result w i <> None) ->
     exists c' w',
       Client.monitorConnection c w = Some (c', w') /\
       Client.status c' = StatusFailed /\
       (dials w' - dials w
        <= Z.to_nat (Client.MaxReconnectAttempts (Client.opts c)))%nat /\
       notifications w'
       = notifications w
           ++ map (fun cb => (cb, {| OldStatus := StatusRunning;
                                     NewStatus := StatusFailed;
                                     Timestamp := now w';
                                     Error := Some ReconnectExhausted |}))
                (Client.callbacks c)) /\
    (forall j,
        (forall i, (i < j)%nat -> dial_result w (dials w + i)%nat <> None) ->
        dial_result w (dials w + j)%nat = None ->
        Z.of_nat j
        < Client.MaxReconnectAttempts (Client.opts c)
          - Client.reconnectAttempt c ->
        exists c' w',
          Client.monitorConnection c w = Some (c', w') /\
          Client.reconnectAttempt c' = 0 /\
          Client.status c' = StatusRunning /\
          Client.isConnected c' = true /\
          notifications w' = notifications w /\
          dials w' = (dials w + S j)%nat).
Proof.
  intros c w Hauto Hrun Hctx Hr Hmax.
  unfold Client.monitorConnection, Client.attemptReconnect.
  cbn [Client.opts Client.status Client.set_isConnected Client.reconnectAttempt].
  rewrite Hauto, Hrun. rewrite bool_decide_eq_true_2 by reflexivity.
  cbn [andb]. split.
  - intros Hdial.
    destruct (reconnect_exhausts
                (Z.to_nat (Client.MaxReconnectAttempts (Client.opts c)
                           - Client.reconnectAttempt c))
                (Client.set_isConnected false c) w)
      as (c' & w' & Hloop & Hst & Hn & Hnot & _);
      [exact Hdial|exact Hctx|exact Hr|exact Hmax|apply le_n|].
    cbn [Client.opts Client.status Client.set_isConnected
           Client.reconnectAttempt Client.callbacks] in *.
    rewrite Hloop. do 2 eexists. split; [reflexivity|].
    split; [exact Hst|]. split; [lia|]. rewrite Hrun in Hnot. exact Hnot.
  - intros j Hfail Hok Hlt.
    destruct (reconnect_succeeds j
                (Z.to_nat (Client.MaxReconnectAttempts (Client.opts c)
                           - Client.reconnectAttempt c))
                (Client.set_isConnected false c) w)
      as (c' & w' & Hloop & Hz & Hst & Hconn & Hnot & Hn);
      [exact Hfail|exact Hok|exact Hctx|exact Hr|exact Hmax|exact Hlt| |].
    { cbn [Client.opts Client.set_isConnected Client.reconnectAttempt]. lia. }
    cbn [Client.opts Client.status Client.set_isConnected
           Client.reconnectAttempt Client.callbacks] in *.
    rewrite Hloop. do 2 eexists. split; [reflexivity|].
    simpl. rewrite Hst, Hrun. repeat split; assumption.
Qed.

(** The options of test property 8: the server is lost after the first
    dial, respectively comes back at the second retry. *)
Lemma C2_reconnect_bounded_then_failed_witness :
  (let c := fst (Scenario.running_client Scenario.lost_after_first) in
   let w := snd (Scenario.running_client Scenario.lost_after_first) in
   Client.MaxReconnectAttempts (Client.opts c) = 3 /\
   exists c' w',
     Client.monitorConnection c w = Some (c', w') /\
     Client.status c' = StatusFailed /\
     (dials w' - dials w <= 3)%nat /\
     notifications w'
     = notifications w
         ++ [(Scenario.observer,
              {| OldStatus := StatusRunning; NewStatus := StatusFailed;
                 Timestamp := now w';
                 Error := Some ReconnectExhausted |})]) /\
  (let c := fst (Scenario.running_client Scenario.back_at_third) in
   let w := snd (Scenario.running_client Scenario.back_at_third) in
   exists c' w',
     Client.monitorConnection c w = Some (c', w') /\
     Client.reconnectAttempt c' = 0 /\
     Client.status c' = StatusRunning /\
     Client.isConnected c' = true /\
     notifications w' = notifications w /\
     dials w' = (dials w + 2)%nat).
Proof.
  cbv zeta. split.
  - split; [vm_compute; reflexivity|].
    apply (C2_reconnect_bounded_then_failed
             (fst (Scenario.running_client Scenario.lost_after_first))
             (snd (Scenario.running_client Scenario.lost_after_first))).
    + vm_compute. reflexivity.
    + vm_compute. reflexivity.
    + vm_compute. reflexivity.
    + vm_compute. discriminate.
    + vm_compute. discriminate.
    + intros i Hi.
      change (dials (snd (Scenario.running_client Scenario.lost_after_first)))
        with 1%nat in Hi.
      change (dial_result
                (snd (Scenario.running_client Scenario.lost_after_first)) i)
        with (Scenario.lost_after_first i).
      destruct i as [|i]; [lia|discriminate].
  - apply (C2_reconnect_bounded_then_failed
             (fst (Scenario.running_client Scenario.back_at_third))
             (snd (Scenario.running_client Scenario.back_at_third)));
      try (vm_compute; reflexivity); try (vm_compute; discriminate).
    intros i Hi. assert (i = 0%nat) as -> by lia. vm_compute. discriminate.
Defined.

(** C2 as stated fails: a client with auto-reconnect and three attempts
    goes through [Start], [Stop] and [Start] again, all successful, and
    then loses its connection for good while Running.  Its context was
    cancelled by the [Stop] and [Start] made no new one, so the monitor
    takes one turn of the loop, sees the cancellation and returns: no dial
    is made, the client is never Failed and no event is started; it stays
    Running, not connected, with no goroutine left to change that. *)
Lemma C2_restarted_client_never_fails :
  let c := fst Scenario.restarted_then_lost in
  let w := snd Scenario.restarted_then_lost in
  Client.AutoReconnect (Client.opts c) = true /\
  Client.MaxReconnectAttempts (Client.opts c) = 3 /\
  Client.status c = StatusRunning /\
  Client.isConnected c = true /\
  (forall i, (dials w <= i)%nat -> dial_result w i <> None) /\
  exists c' w',
    Client.monitorConnection c w = Some (c', w') /\
    Client.status c' = StatusRunning /\
    Client.isConnected c' = false /\
    dials w' = dials w /\
    notifications w' = notifications w /\
    Client.wg c' = 0%nat.
Proof.
  cbv zeta. split_and!; try (vm_compute; reflexivity).
  - intros i Hi.
    change (dials (snd Scenario.restarted_then_lost)) with 2%nat in Hi.
    change (dial_result (snd Scenario.restarted_then_lost) i)
      with (Scenario.lost_after_second i).
    destruct i as [|[|i]]; [lia|lia|discriminate].
  - do 2 eexists. split_and!; vm_compute; reflexivity.
Qed.

(** C5, as the code has it: with the counter below the maximum and the
    context cancelled at an instant not later than the end of the delay,
    [attemptReconnect] sleeps the whole delay, then sees the cancellation
    and returns: no dial, no connection, no change of status, no event. *)
Theorem C5_shutdown_checked_after_delay :
  forall c w t,
    0 <= Client.reconnectAttempt c ->
    Client.reconnectAttempt c < Client.MaxReconnectAttempts (Client.opts c) ->
    Client.MaxReconnectAttempts (Client.opts c) <= int_max ->
    ctxs w !! Client.ctx c = Some (Some t) ->
    t <= now w + Z.max 0 (Client.ReconnectDelay (Client.opts c)) ->
    exists c' w',
      Client.attemptReconnect c w = Some (c', w') /\
      now w' = now w + Z.max 0 (Client.ReconnectDelay (Client.opts c)) /\
      dials w' = dials w /\
      conns w' = conns w /\
      Client.status c' = Client.status c /\
      notifications w' = notifications w.
Proof.
  intros c w t Hr Hlt Hmax Hctx Ht.
  unfold Client.attemptReconnect.
  destruct (Z.to_nat _) as [|fuel] eqn:Hfuel; [lia|].
  simpl. rewrite bool_decide_eq_true_2 by exact Hlt.
  rewrite (next_attempt_no_wrap _ _ Hr Hlt Hmax).
  unfold ctx_done, Sleep. cbn [ctxs set_now now Client.ctx
                                 Client.set_reconnectAttempt Client.opts].
  rewrite Hctx. rewrite bool_decide_eq_true_2 by exact Ht.
  do 2 eexists. split; [reflexivity|]. repeat split.
Qed.

(** The context is cancelled 1 ms into a delay of 10 ms. *)
Lemma C5_shutdown_checked_after_delay_witness :
  let c := fst Scenario.cancelled_while_waiting in
  let w := snd Scenario.cancelled_while_waiting in
  exists c' w',
    Client.attemptReconnect c w = Some (c', w') /\
    now w' = now w + 10 * Scenario.ms /\
    dials w' = dials w /\
    conns w' = conns w /\
    Client.status c' = StatusRunning /\
    notifications w' = notifications w.
Proof.
  cbv zeta.
  destruct (C5_shutdown_checked_after_delay
              (fst Scenario.cancelled_while_waiting)
              (snd Scenario.cancelled_while_waiting)
              (1 * Scenario.ms))
    as (c' & w' & H & Hnow & Hd & Hc & Hst & Hn);
    try (vm_compute; reflexivity); try (vm_compute; discriminate).
  exists c', w'. repeat split; assumption.
Defined.

(** C5 as stated fails: the context is cancelled 1 ms into a delay of
    10 ms, and the loop still returns only when the 10 ms have elapsed. *)
Lemma C5_delay_not_interrupted :
  let c := fst Scenario.cancelled_while_waiting in
  let w := snd Scenario.cancelled_while_waiting in
  Client.ReconnectDelay (Client.opts c) = 10 * Scenario.ms /\
  ctxs w !! Client.ctx c = Some (Some (now w + 1 * Scenario.ms)) /\
  exists c' w',
    Client.attemptReconnect c w = Some (c', w') /\
    now w' = now w + 10 * Scenario.ms /\
    ~ now w' < now w + Client.ReconnectDelay (Client.opts c).
Proof.
  cbv zeta. split; [vm_compute; reflexivity|]. split; [vm_compute; reflexivity|].
  do 2 eexists. split; [vm_compute; reflexivity|].
  split; [vm_compute; reflexivity|]. vm_compute. discriminate.
Qed.

(* ===================================================================== *)
(** ** The cancellation scope *)
(* ===================================================================== *)

Lemma WithCancel_fresh w :
  ctxs w !! fst (WithCancel w) = None /\
  ctxs (snd (WithCancel w)) !! fst (WithCancel w) = Some None /\
  ctx_done (snd (WithCancel w)) (fst (WithCancel w)) = false.
Proof.
  unfold WithCancel, ctx_done. simpl.
  rewrite lookup_ge_None_2 by lia.
  rewrite list_lookup_middle by reflexivity. repeat split.
Qed.

Lemma cancel_done k w :
  (k < length (ctxs w))%nat -> ctx_done (cancel k w) k = true.
Proof.
  intros Hk. unfold cancel. destruct (ctx_done w k) eqn:E; [exact E|].
  unfold ctx_done. simpl. rewrite list_lookup_insert_eq by exact Hk.
  apply bool_decide_eq_true_2. lia.
Qed.

(** Whether a context is done depends on the contexts and the clock only. *)
Lemma ctx_done_ext w w' k :
  ctxs w' = ctxs w -> now w' = now w -> ctx_done w' k = ctx_done w k.
Proof. intros H1 H2. unfold ctx_done. rewrite H1, H2. reflexivity. Qed.

Lemma close_conn_at_ctxs k w :
  ctxs (close_conn_at k w) = ctxs w /\ now (close_conn_at k w) = now w.
Proof. unfold close_conn_at. destruct (conns w !! k); split; reflexivity. Qed.

Lemma Client_New_scope options w :
  let c := fst (Client.New options w) in
  let w1 := snd (Client.New options w) in
  Client.status c = StatusStopped /\
  ctxs w !! Client.ctx c = None /\
  ctx_done w1 (Client.ctx c) = false.
Proof.
  destruct (WithCancel_fresh w) as (H1 & _ & H3).
  unfold Client.New. cbv zeta. repeat split; assumption.
Qed.

Lemma Client_connect_scope c w :
  let '(e, c', w') := Client.connect c w in
  Client.ctx c' = Client.ctx c /\ ctxs w' = ctxs w /\ now w' = now w /\
  (e = None ->
   exists k conn,
     Client.conn c' = Some k /\ conns w' !! k = Some conn /\
     conn_ctx conn = Client.ctx c /\ k ∈ monitors w').
Proof.
  unfold Client.connect. destruct (dial_result w (dials w)).
  - split_and!; try reflexivity. discriminate.
  - split_and!; try reflexivity. intros _. do 2 eexists. simpl.
    split; [reflexivity|]. split; [apply list_lookup_middle; reflexivity|].
    split; [reflexivity|]. apply elem_of_app. right. apply list_elem_of_singleton.
    reflexivity.
Qed.

(** [Start] keeps the context the client was built with, creates none and
    cancels none; the connection it makes is built under that context. *)
Lemma Client_Start_scope c w :
  let '(e, c', w') := Client.Start c w in
  Client.ctx c' = Client.ctx c /\ ctxs w' = ctxs w /\ now w' = now w /\
  (e = None ->
   Client.status c' = StatusRunning /\
   exists k conn,
     Client.conn c' = Some k /\ conns w' !! k = Some conn /\
     conn_ctx conn = Client.ctx c /\ k ∈ monitors w').
Proof.
  unfold Client.Start. destruct (decide _).
  - split_and!; try reflexivity. discriminate.
  - rewrite Client_updateStatusLocked_spec.
    pose proof (Client_connect_scope (Client.set_status StatusStarting c)
                  (set_notifications
                     (notifications w
                        ++ map (fun cb => (cb, {| OldStatus := Client.status c;
                                                  NewStatus := StatusStarting;
                                                  Timestamp := now w;
                                                  Error := None |}))
                             (Client.callbacks c)) w)) as H.
    destruct (Client.connect _ _) as [[e c2] w2].
    destruct H as (Hc & Hx & Hn & Hconn). simpl in Hc, Hx, Hn.
    unfold Client.updateStatus. destruct e as [err|].
    + rewrite Client_updateStatusLocked_spec. simpl.
      split_and!; try assumption. discriminate.
    + rewrite Client_updateStatusLocked_spec. simpl.
      split_and!; try assumption. intros _. split; [reflexivity|].
      destruct (Hconn eq_refl) as (k & conn & H1 & H2 & H3 & H4).
      exists k, conn. simpl in H3. split_and!; assumption.
Qed.

(** A monitor that wakes up while the client is not Running only clears
    the connected flag and leaves the wait group. *)
Lemma monitorConnection_not_running c w :
  Client.status c <> StatusRunning ->
  Client.monitorConnection c w
  = Some (Client.set_wg (pred (Client.wg c)) (Client.set_isConnected false c), w).
Proof.
  intros H. unfold Client.monitorConnection. simpl.
  rewrite bool_decide_eq_false_2 by exact H. rewrite andb_false_r. reflexivity.
Qed.

Lemma run_monitors_not_running n : forall c w,
  Client.status c <> StatusRunning ->
  exists c',
    Client.run_monitors n c w = Some (c', w) /\
    Client.status c' = Client.status c /\
    Client.ctx c' = Client.ctx c /\
    Client.callbacks c' = Client.callbacks c.
Proof.
  induction n as [|n IH]; intros c w H; simpl.
  - eauto.
  - rewrite monitorConnection_not_running by exact H.
    destruct (IH (Client.set_wg (pred (Client.wg c))
                    (Client.set_isConnected false c)) w H)
      as (c' & Hrun & Hst & Hctx & Hcb).
    exists c'. repeat split; assumption.
Qed.

(** A [Stop] that succeeds leaves the client with the same context, now
    cancelled. *)
Lemma Client_Stop_scope c w c' w' :
  (Client.ctx c < length (ctxs w))%nat ->
  Client.Stop c w = Returns (None, c', w') ->
  Client.ctx c' = Client.ctx c /\ ctx_done w' (Client.ctx c') = true.
Proof.
  intros Hk. unfold Client.Stop. destruct (decide _); [discriminate|].
  rewrite Client_updateStatusLocked_spec.
  set (c1 := Client.set_status StatusStopping c).
  set (w1 := set_notifications _ w).
  assert (Hdone : ctx_done (cancel (Client.ctx c1) w1) (Client.ctx c) = true).
  { apply cancel_done. exact Hk. }
  set (w2 := cancel (Client.ctx c1) w1) in *.
  destruct (match Client.conn c1 with
            | Some k => (Client.set_conn None c1, close_conn_at k w2)
            | None => (c1, w2)
            end) as [c2 w3] eqn:E.
  assert (Hc2 : Client.ctx c2 = Client.ctx c
                /\ Client.status c2 = StatusStopping
                /\ ctx_done w3 (Client.ctx c) = true).
  { destruct (Client.conn c1) as [k|]; injection E as <- <-.
    - repeat split. rewrite <- Hdone.
      apply ctx_done_ext; apply close_conn_at_ctxs.
    - repeat split. exact Hdone. }
  destruct Hc2 as (Hctx2 & Hst2 & Hdone3).
  unfold Client.wake_monitors.
  destruct (run_monitors_not_running
              (length (filter (fun k => conn_is_closed w3 k = true) (monitors w3)))
              (Client.set_isConnected false c2)
              (set_monitors
                 (filter (fun k => conn_is_closed w3 k = false) (monitors w3)) w3))
    as (c4 & Hrun & Hst4 & Hctx4 & _).
  { simpl. rewrite Hst2. discriminate. }
  rewrite Hrun. destruct (decide _); [|discriminate].
  unfold Client.updateStatus. rewrite Client_updateStatusLocked_spec.
  intros [= <- <-]. simpl in *. rewrite Hctx4, Hctx2. split; [reflexivity|].
  exact Hdone3.
Qed.

Lemma Server_New_scope options w :
  let s := fst (Server.New options w) in
  let w1 := snd (Server.New options w) in
  Server.status s = StatusStopped /\
  ctxs w !! Server.ctx s = None /\
  ctx_done w1 (Server.ctx s) = false.
Proof.
  destruct (WithCancel_fresh w) as (H1 & _ & H3).
  unfold Server.New. cbv zeta. split_and!; [reflexivity|assumption..].
Qed.

(** [Start] keeps the context the server was built with, creates none and
    cancels none; its accept loop is started under that context. *)
Lemma Server_Start_scope s w :
  let '(e, s', w') := Server.Start s w in
  Server.ctx s' = Server.ctx s /\ ctxs w' = ctxs w /\ now w' = now w /\
  (e = None ->
   Server.status s' = StatusRunning /\
   exists l, l ∈ Server.listeners s' /\ l ∈ acceptors w').
Proof.
  unfold Server.Start. destruct (decide _).
  - split_and!; try reflexivity. discriminate.
  - rewrite Server_updateStatusLocked_spec. cbn [ctxs set_notifications].
    destruct (listen_result _ _) as [msg|].
    + unfold Server.updateStatus. rewrite Server_updateStatusLocked_spec.
      simpl. split_and!; try reflexivity. discriminate.
    + unfold Server.updateStatus. rewrite Server_updateStatusLocked_spec.
      simpl. split_and!; try reflexivity. intros _. split; [reflexivity|].
      exists (length (listeners w)).
      split; apply elem_of_app; right; apply list_elem_of_singleton; reflexivity.
Qed.

(** A connection accepted by the server is built under the server's
    context. *)
Lemma Server_accept_scope l s w :
  let '(s', w') := Server.accept l s w in
  Server.ctx s' = Server.ctx s /\ ctxs w' = ctxs w /\ now w' = now w /\
  (Server.wg s' = S (Server.wg s) ->
   exists conn,
     conns w' !! length (conns w) = Some conn /\
     conn_ctx conn = Server.ctx s /\ length (conns w) ∈ serving w').
Proof.
  unfold Server.accept. destruct (_ && _).
  - simpl. split_and!; try reflexivity. intros _. eexists.
    split; [apply list_lookup_middle; reflexivity|]. split; [reflexivity|].
    apply elem_of_app; right; apply list_elem_of_singleton; reflexivity.
  - split_and!; try reflexivity. intros H. exfalso. lia.
Qed.

Lemma close_listeners_ctxs ls : forall w,
  ctxs (Server.close_listeners ls w) = ctxs w /\
  now (Server.close_listeners ls w) = now w.
Proof.
  unfold Server.close_listeners.
  induction ls as [|l ls IH]; intros w; simpl; [split; reflexivity|].
  destruct (IH (set_listeners (<[l := false]> (listeners w)) w)) as [H1 H2].
  rewrite H1, H2. split; reflexivity.
Qed.

(** A [Stop] that succeeds leaves the server with the same context, now
    cancelled. *)
Lemma Server_Stop_scope s w s' w' :
  (Server.ctx s < length (ctxs w))%nat ->
  Server.Stop s w = Returns (None, s', w') ->
  Server.ctx s' = Server.ctx s /\ ctx_done w' (Server.ctx s') = true.
Proof.
  intros Hk. unfold Server.Stop. destruct (decide _); [discriminate|].
  rewrite Server_updateStatusLocked_spec.
  set (s1 := Server.set_status StatusStopping s).
  set (w1 := set_notifications _ w).
  assert (Hdone : ctx_done (cancel (Server.ctx s1) w1) (Server.ctx s) = true).
  { apply cancel_done. exact Hk. }
  set (w2 := cancel (Server.ctx s1) w1) in *.
  destruct (close_listeners_ctxs (Server.listeners s1) w2) as [Hx Hn].
  unfold Server.reap. destruct (decide _); [|discriminate].
  unfold Server.updateStatus. rewrite Server_updateStatusLocked_spec.
  intros [= <- <-]. simpl. split; [reflexivity|].
  rewrite <- Hdone. apply ctx_done_ext; simpl; assumption.
Qed.

(** C4, as the code has it: the cancellation context is made, not
    cancelled, when the component is built ([New]); [Start] makes no
    context and keeps the one the component has, and the connection (client)
    or accept loop (server) it starts runs under it; a successful [Stop]
    cancels that context.  So the work of a [Start] that directly follows
    [New] runs under a context that is not cancelled. *)
Theorem C4_scope_made_at_construction :
  (forall options w,
      let c := fst (Client.New options w) in
      let w1 := snd (Client.New options w) in
      ctxs w !! Client.ctx c = None /\ ctx_done w1 (Client.ctx c) = false) /\
  (forall c w,
      let '(e, c', w') := Client.Start c w in
      Client.ctx c' = Client.ctx c /\ ctxs w' = ctxs w /\
      (e = None ->
       exists k conn,
         Client.conn c' = Some k /\ conns w' !! k = Some conn /\
         conn_ctx conn = Client.ctx c)) /\
  (forall c w c' w',
      (Client.ctx c < length (ctxs w))%nat ->
      Client.Stop c w = Returns (None, c', w') ->
      Client.ctx c' = Client.ctx c /\ ctx_done w' (Client.ctx c') = true) /\
  (forall options w,
      let c := fst (Client.New options w) in
      let w1 := snd (Client.New options w) in
      let '(e, c', w') := Client.Start c w1 in
      Client.ctx c' = Client.ctx c /\ ctx_done w' (Client.ctx c') = false) /\
  (forall options w,
      let s := fst (Server.New options w) in
      let w1 := snd (Server.New options w) in
      ctxs w !! Server.ctx s = None /\ ctx_done w1 (Server.ctx s) = false) /\
  (forall s w,
      let '(e, s', w') := Server.Start s w in
      Server.ctx s' = Server.ctx s /\ ctxs w' = ctxs w /\
      (e = None -> exists l, l ∈ Server.listeners s' /\ l ∈ acceptors w')) /\
  (forall s w s' w',
      (Server.ctx s < length (ctxs w))%nat ->
      Server.Stop s w = Returns (None, s', w') ->
      Server.ctx s' = Server.ctx s /\ ctx_done w' (Server.ctx s') = true) /\
  (forall options w,
      let s := fst (Server.New options w) in
      let w1 := snd (Server.New options w) in
      let '(e, s', w') := Server.Start s w1 in
      Server.ctx s' = Server.ctx s /\ ctx_done w' (Server.ctx s') = false).
Proof.
  split_and!.
  - intros options w. apply Client_New_scope.
  - intros c w. pose proof (Client_Start_scope c w) as H.
    destruct (Client.Start c w) as [[e c'] w'].
    destruct H as (H1 & H2 & _ & H4). split_and!; try assumption.
    intros He. destruct (H4 He) as (_ & k & conn & Hk & Hc & Hx & _).
    exists k, conn. split_and!; assumption.
  - exact Client_Stop_scope.
  - intros options w. cbv zeta.
    destruct (Client_New_scope options w) as (_ & _ & Hfresh).
    pose proof (Client_Start_scope (fst (Client.New options w))
                  (snd (Client.New options w))) as H.
    destruct (Client.Start _ _) as [[e c'] w'].
    destruct H as (H1 & H2 & H3 & _). split; [exact H1|].
    rewrite H1, <- Hfresh. apply ctx_done_ext; assumption.
  - intros options w. apply Server_New_scope.
  - intros s w. pose proof (Server_Start_scope s w) as H.
    destruct (Server.Start s w) as [[e s'] w'].
    destruct H as (H1 & H2 & _ & H4). split_and!; try assumption.
    intros He. apply (H4 He).
  - exact Server_Stop_scope.
  - intros options w. cbv zeta.
    destruct (Server_New_scope options w) as (_ & _ & Hfresh).
    pose proof (Server_Start_scope (fst (Server.New options w))
                  (snd (Server.New options w))) as H.
    destruct (Server.Start _ _) as [[e s'] w'].
    destruct H as (H1 & H2 & H3 & _). split; [exact H1|].
    rewrite H1, <- Hfresh. apply ctx_done_ext; assumption.
Qed.

(** The client and the server of the examples: started, then stopped. *)
Lemma C4_scope_made_at_construction_witness :
  (exists k conn,
      Client.conn (fst (Scenario.running_client Scenario.reachable)) = Some k /\
      conns (snd (Scenario.running_client Scenario.reachable)) !! k = Some conn /\
      conn_ctx conn = Client.ctx (fst (Scenario.new_client Scenario.reachable))) /\
  ctx_done (snd Scenario.stopped_client)
    (Client.ctx (fst Scenario.stopped_client)) = true /\
  (exists l,
      l ∈ Server.listeners (fst Scenario.running_server) /\
      l ∈ acceptors (snd Scenario.running_server)) /\
  ctx_done (snd Scenario.stopped_server)
    (Server.ctx (fst Scenario.stopped_server)) = true.
Proof.
  destruct C4_scope_made_at_construction
    as (_ & HcStart & HcStop & _ & _ & HsStart & HsStop & _).
  split_and!.
  - specialize (HcStart (fst (Scenario.new_client Scenario.reachable))
                  (snd (Scenario.new_client Scenario.reachable))).
    change (Client.Start (fst (Scenario.new_client Scenario.reachable))
              (snd (Scenario.new_client Scenario.reachable)))
      with (Scenario.started_client Scenario.reachable) in HcStart.
    unfold Scenario.running_client.
    destruct (Scenario.started_client Scenario.reachable) as [[e c'] w'] eqn:E.
    destruct HcStart as (_ & _ & H).
    apply H.
    change e with (fst (fst (e, c', w'))). rewrite <- E.
    vm_compute. reflexivity.
  - apply (HcStop (fst (Scenario.running_client Scenario.reachable))
             (snd (Scenario.running_client Scenario.reachable))).
    + vm_compute. lia.
    + vm_compute. reflexivity.
  - specialize (HsStart (fst Scenario.new_server) (snd Scenario.new_server)).
    change (Server.Start (fst Scenario.new_server) (snd Scenario.new_server))
      with Scenario.started_server in HsStart.
    unfold Scenario.running_server.
    destruct Scenario.started_server as [[e s'] w'] eqn:E.
    destruct HsStart as (_ & _ & H).
    apply H.
    change e with (fst (fst (e, s', w'))). rewrite <- E.
    vm_compute. reflexivity.
  - apply (HsStop (fst Scenario.running_server) (snd Scenario.running_server)).
    + vm_compute. lia.
    + vm_compute. reflexivity.
Defined.

(** C4 as stated fails: a client and a server go through [Start], [Stop]
    and [Start] again, all three successful.  After the second [Start] the
    component is Running under the context it was built with, which the
    [Stop] has cancelled; the client's new connection is built under that
    cancelled context. *)
Lemma C4_restart_under_cancelled_scope :
  (let first := Scenario.running_client Scenario.reachable in
   let again := Scenario.restarted_client in
   let c := snd (fst again) in
   let w := snd again in
   fst (fst (Scenario.started_client Scenario.reachable)) = None /\
   Client.Stop (fst first) (snd first)
   = Returns (None, fst Scenario.stopped_client, snd Scenario.stopped_client) /\
   fst (fst again) = None /\
   Client.status c = StatusRunning /\
   Client.ctx c = Client.ctx (fst first) /\
   ctx_done w (Client.ctx c) = true /\
   exists k conn,
     Client.conn c = Some k /\ conns w !! k = Some conn /\
     Client.conn (fst first) <> Some k /\
     ctx_done w (conn_ctx conn) = true) /\
  (let again := Scenario.restarted_server in
   let s := snd (fst again) in
   let w := snd again in
   fst (fst Scenario.started_server) = None /\
   Server.Stop (fst Scenario.running_server) (snd Scenario.running_server)
   = Returns (None, fst Scenario.stopped_server, snd Scenario.stopped_server) /\
   fst (fst again) = None /\
   Server.status s = StatusRunning /\
   Server.ctx s = Server.ctx (fst Scenario.running_server) /\
   ctx_done w (Server.ctx s) = true).
Proof.
  cbv zeta. split.
  - split_and!; try (vm_compute; reflexivity).
    exists 1%nat. eexists.
    split_and!; try (vm_compute; reflexivity). vm_compute. discriminate.
  - split_and!; vm_compute; reflexivity.
Qed.

(* ===================================================================== *)
(** ** Delivery of status-change events *)
(* ===================================================================== *)

(** Running one notification goroutine moves its event from the waiting
    ones to the received ones of its callback; nothing is lost or
    duplicated. *)
Lemma deliver_conserves i w cb :
  received_by cb (deliver i w) ++ pending_for cb (deliver i w)
  ≡ₚ received_by cb w ++ pending_for cb w.
Proof.
  unfold deliver. destruct (notifications w !! i) as [task|] eqn:E; [|reflexivity].
  unfold received_by, pending_for. simpl.
  rewrite (delete_Permutation (notifications w) i task E) at 2.
  rewrite filter_app, map_app, !filter_cons, filter_nil.
  destruct (decide (fst task = cb)); simpl.
  - rewrite <- app_assoc. simpl.
    apply Permutation_app_head. reflexivity.
  - rewrite app_nil_r. reflexivity.
Qed.

Lemma run_schedule_conserves schedule : forall w cb,
  received_by cb (run_schedule schedule w)
    ++ pending_for cb (run_schedule schedule w)
  ≡ₚ received_by cb w ++ pending_for cb w.
Proof.
  unfold run_schedule.
  induction schedule as [|i schedule IH]; intros w cb; simpl; [reflexivity|].
  rewrite IH. apply deliver_conserves.
Qed.

(** Running the waiting goroutines oldest first delivers in the order in
    which they were started. *)
Lemma run_in_order n : forall w,
  length (notifications w) = n ->
  run_schedule (replicate n 0%nat) w
  = set_delivered (delivered w ++ notifications w) (set_notifications [] w).
Proof.
  unfold run_schedule.
  induction n as [|n IH]; intros w Hlen; simpl.
  - destruct w as [? ? nots ? ? ? ? ? ? ? ? ? ?]. simpl in *.
    destruct nots; [|discriminate].
    unfold set_delivered, set_notifications. simpl. rewrite app_nil_r.
    reflexivity.
  - destruct w as [? ? nots ? ? ? ? ? ? ? ? ? ?]. simpl in *.
    destruct nots as [|task nots]; [discriminate|].
    injection Hlen as Hlen.
    unfold deliver at 1. simpl. rewrite IH by exact Hlen.
    unfold set_delivered, set_notifications. simpl.
    rewrite <- app_assoc. reflexivity.
Qed.

(** C8, as the code has it: a transition starts exactly one goroutine per
    callback registered at that moment, each with the event of the
    transition, and returns without running any of them.  Whatever the
    order in which the scheduler runs them, once none is waiting every
    callback has received each of its events exactly once (a permutation of
    the events in transition order); running them oldest first gives the
    transition order, other schedules give other orders. *)
Theorem C8_one_delivery_per_observer_any_order :
  (forall st err c w,
      let '(c', w') := Client.updateStatusLocked st err c w in
      Client.status c' = st /\
      delivered w' = delivered w /\
      notifications w'
      = notifications w
          ++ map (fun cb => (cb, {| OldStatus := Client.status c;
                                    NewStatus := st;
                                    Timestamp := now w;
                                    Error := err |}))
               (Client.callbacks c)) /\
  (forall st err s w,
      let '(s', w') := Server.updateStatusLocked st err s w in
      Server.status s' = st /\
      delivered w' = delivered w /\
      notifications w'
      = notifications w
          ++ map (fun cb => (cb, {| OldStatus := Server.status s;
                                    NewStatus := st;
                                    Timestamp := now w;
                                    Error := err |}))
               (Server.callbacks s)) /\
  (forall schedule w cb,
      notifications (run_schedule schedule w) = [] ->
      received_by cb (run_schedule schedule w)
      ≡ₚ received_by cb w ++ pending_for cb w) /\
  (forall w cb,
      let w' := run_schedule (replicate (length (notifications w)) 0%nat) w in
      notifications w' = [] /\
      received_by cb w' = received_by cb w ++ pending_for cb w).
Proof.
  split_and!.
  - intros st err c w. rewrite Client_updateStatusLocked_spec. split_and!; reflexivity.
  - intros st err s w. rewrite Server_updateStatusLocked_spec. split_and!; reflexivity.
  - intros schedule w cb Hnone.
    rewrite <- (run_schedule_conserves schedule w cb).
    unfold pending_for at 1. rewrite Hnone. simpl. rewrite app_nil_r. reflexivity.
  - intros w cb. cbv zeta. rewrite run_in_order by reflexivity.
    split; [reflexivity|].
    unfold received_by, pending_for. simpl. rewrite filter_app, map_app. reflexivity.
Qed.

(** The two events of a successful [Start], delivered newest first. *)
Lemma C8_one_delivery_per_observer_any_order_witness :
  let w := snd (Scenario.running_client Scenario.reachable) in
  notifications (run_schedule [1%nat; 0%nat] w) = [] /\
  received_by Scenario.observer (run_schedule [1%nat; 0%nat] w)
  ≡ₚ received_by Scenario.observer w ++ pending_for Scenario.observer w.
Proof.
  cbv zeta.
  assert (H : notifications
                (run_schedule [1%nat; 0%nat]
                   (snd (Scenario.running_client Scenario.reachable))) = [])
    by (vm_compute; reflexivity).
  split; [exact H|].
  exact (proj1 (proj2 (proj2 C8_one_delivery_per_observer_any_order)) _ _
           Scenario.observer H).
Defined.

(** C8 as stated fails: a client with one observer is started; the two
    transitions Stopped to Starting and Starting to Running start one
    goroutine each.  When the scheduler runs the second goroutine first,
    the observer receives each event once, the event of the second
    transition before that of the first. *)
Lemma C8_order_not_preserved :
  let w := snd (Scenario.running_client Scenario.reachable) in
  let starting := {| OldStatus := StatusStopped; NewStatus := StatusStarting;
                     Timestamp := 0; Error := None |} in
  let running := {| OldStatus := StatusStarting; NewStatus := StatusRunning;
                    Timestamp := 0; Error := None |} in
  Client.callbacks (fst (Scenario.running_client Scenario.reachable))
  = [Scenario.observer] /\
  delivered w = [] /\
  pending_for Scenario.observer w = [starting; running] /\
  notifications (run_schedule [1%nat; 0%nat] w) = [] /\
  received_by Scenario.observer (run_schedule [1%nat; 0%nat] w)
  = [running; starting] /\
  received_by Scenario.observer (run_schedule [1%nat; 0%nat] w)
  <> [starting; running].
Proof.
  cbv zeta. split_and!; try (vm_compute; reflexivity).
  vm_compute. discriminate.
Qed.

(* ===================================================================== *)
(** ** The scenarios of the repository's tests *)
(* ===================================================================== *)

Example state_error_message :
  Error_msg (StateError "start" "client" StatusRunning)
  = "cannot start client in Running state".
Proof. reflexivity. Qed.

Example connection_error_message :
  fst (fst (Scenario.started_client Scenario.unreachable))
  = Some (ConnectionError "connect to" "localhost:5000"
            (NetError "connection refused")) /\
  option_map Error_msg (fst (fst (Scenario.started_client Scenario.unreachable)))
  = Some "failed to connect to localhost:5000: connection refused".
Proof. split; vm_compute; reflexivity. Qed.

(** TestClientLifecycle: with no server, [Start] fails, the client is
    Failed, and two events were started for the observer. *)
Example client_start_without_server :
  let '(e, c, w) := Scenario.started_client Scenario.unreachable in
  e <> None /\
  Client.status c = StatusFailed /\
  map (fun task => (OldStatus (snd task), NewStatus (snd task)))
    (notifications w)
  = [(StatusStopped, StatusStarting); (StatusStarting, StatusFailed)].
Proof. vm_compute. split_and!; [discriminate|reflexivity..]. Qed.

(** TestServerLifecycle: Stopped, then Running after [Start], then Stopped
    after [Stop], four events in all. *)
Example server_lifecycle :
  Server.status (fst Scenario.new_server) = StatusStopped /\
  fst (fst Scenario.started_server) = None /\
  Server.status (fst Scenario.running_server) = StatusRunning /\
  Server.status (fst Scenario.stopped_server) = StatusStopped /\
  map (fun task => (OldStatus (snd task), NewStatus (snd task)))
    (notifications (snd Scenario.stopped_server))
  = [(StatusStopped, StatusStarting); (StatusStarting, StatusRunning);
     (StatusRunning, StatusStopping); (StatusStopping, StatusStopped)].
Proof. vm_compute. split_and!; reflexivity. Qed.

(** TestHandlerRegistration: registering the same method again fails. *)
Example duplicate_registration_fails :
  fst (Server.RegisterHandler Server.NewDefaultModelHandler
         (fst Scenario.new_server))
  = Some (AlreadyRegistered "mcp.processModel").
Proof. vm_compute. reflexivity. Qed.

(** TestDefaultModelHandler_ProcessModel: the results of the default
    handler. *)
Example default_handler_results :
  forall done req now,
    exists resp,
      Server.DefaultModelHandler_ProcessModel done req now = (Some resp, None) /\
      Success resp = true /\
      Results resp !! "status" = Some (VString "processed") /\
      Results resp !! "message" = Some (VString "Model processed successfully").
Proof.
  intros done req now. eexists. split; [reflexivity|]. simpl.
  split_and!; [reflexivity| |apply lookup_insert_eq].
  rewrite lookup_insert_ne by discriminate. apply lookup_insert_eq.
Qed.

(** A server with an open client connection does not finish [Stop]: the
    connection goroutine stays in the wait group until the peer leaves. *)
Example server_stop_waits_for_connections :
  let '(s, w) := Server.accept 0 (fst Scenario.running_server)
                   (snd Scenario.running_server) in
  Server.wg s = 2%nat /\
  Server.Stop s w = Hangs /\
  (let '(s', w') := Server.disconnect 0 s w in
   exists r, Server.Stop s' w' = Returns r /\ fst (fst r) = None).
Proof.
  vm_compute. split_and!; [reflexivity..|]. eexists. split; reflexivity.
Qed.

(* ===================================================================== *)
(** ** Validation results (package tools) *)
(* ===================================================================== *)

Lemma string_app_assoc (a b c : string) : (a +:+ b) +:+ c = a +:+ (b +:+ c).
Proof.
  induction a as [|x a IH]; [reflexivity|].
  change (String x ((a +:+ b) +:+ c) = String x (a +:+ (b +:+ c))).
  f_equal. exact IH.
Qed.

Lemma string_app_nil_r (a : string) : a +:+ "" = a.
Proof.
  induction a as [|x a IH]; [reflexivity|].
  change (String x (a +:+ "") = String x a). f_equal. exact IH.
Qed.

(** The loop of [Error] appends the formatted errors in order. *)
Lemma error_message_fold errs : forall acc,
  fold_left (fun errorMsg err => errorMsg +:+ Tools.format_error err) errs acc
  = acc +:+ fold_right (fun err rest => Tools.format_error err +:+ rest) "" errs.
Proof.
  induction errs as [|err errs IH]; intros acc; simpl.
  - rewrite string_app_nil_r. reflexivity.
  - rewrite IH, string_app_assoc. reflexivity.
Qed.

Lemma add_errors_spec (es : list (string * string)) : forall vr,
  Tools.Errors
    (fold_left (fun vr fm => Tools.AddError (fst fm) (snd fm) vr) es vr)
  = Tools.Errors vr
      ++ map (fun fm => {| Tools.Field := fst fm; Tools.Message := snd fm |}) es
  /\
  Tools.Valid
    (fold_left (fun vr fm => Tools.AddError (fst fm) (snd fm) vr) es vr)
  = match es with [] => Tools.Valid vr | _ => false end.
Proof.
  induction es as [|fm es IH]; intros vr; simpl.
  - rewrite app_nil_r. split; reflexivity.
  - destruct (IH (Tools.AddError (fst fm) (snd fm) vr)) as [HE HV].
    rewrite HE, HV. simpl. rewrite <- app_assoc. split; [reflexivity|].
    destruct es; reflexivity.
Qed.

(** X1: a result made by [NewValidationResult] and any number of
    [AddError] calls holds the errors in the order they were added; it is
    valid exactly when none was added; [Error] is nil exactly then, and
    otherwise its message is "validation failed:" followed by
    " field: message;" for each error, in order. *)
Theorem X1_validation_result_accumulates :
  forall es : list (string * string),
    let vr := fold_left (fun vr fm => Tools.AddError (fst fm) (snd fm) vr) es
                Tools.NewValidationResult in
    Tools.Errors vr
    = map (fun fm => {| Tools.Field := fst fm; Tools.Message := snd fm |}) es /\
    (Tools.Valid vr = true <-> es = []) /\
    (Tools.Error vr = None <-> es = []) /\
    (es <> [] ->
     Tools.Error vr
     = Some ("validation failed:"
               +:+ fold_right
                     (fun fm rest =>
                        " " +:+ fst fm +:+ ": " +:+ snd fm +:+ ";" +:+ rest)
                     "" es)).
Proof.
  intros es. cbv zeta.
  destruct (add_errors_spec es Tools.NewValidationResult) as [HE HV].
  simpl in HE. split; [exact HE|].
  unfold Tools.Error. rewrite HV, HE. destruct es as [|fm es].
  - simpl. repeat split; intros; congruence.
  - split; [split; intros; discriminate|].
    split; [split; intros; discriminate|]. intros _.
    rewrite error_message_fold. f_equal. f_equal.
    generalize (fm :: es). intros l.
    induction l as [|x l IH]; cbn [fold_right map]; [reflexivity|].
    rewrite IH. unfold Tools.format_error. cbn [Tools.Field Tools.Message].
    rewrite !string_app_assoc. reflexivity.
Qed.

Lemma X1_validation_result_accumulates_witness :
  Tools.Error
    (Tools.AddError "field2" "message2"
       (Tools.AddError "field1" "message1" Tools.NewValidationResult))
  = Some "validation failed: field1: message1; field2: message2;".
Proof.
  exact (proj2 (proj2 (proj2
           (X1_validation_result_accumulates
              [("field1", "message1"); ("field2", "message2")])))
           ltac:(discriminate)).
Defined.

(* ===================================================================== *)
(** ** Registration and dispatch, further *)
(* ===================================================================== *)

(** Registration succeeds exactly when the declared names are pairwise
    distinct and none of them is taken. *)
Lemma register_methods_ok_iff handler methods : forall hs,
  fst (Server.register_methods handler methods hs) = None
  <-> NoDup methods /\ forall m, m ∈ methods -> hs !! m = None.
Proof.
  induction methods as [|m rest IH]; intros hs; simpl.
  - split; [|reflexivity]. intros _. split; [constructor|].
    intros m Hm. inversion Hm.
  - destruct (hs !! m) eqn:E; simpl.
    + split; [discriminate|]. intros [_ H].
      rewrite (H m) in E by (apply elem_of_cons; left; reflexivity).
      discriminate.
    + rewrite IH. split.
      * intros [Hnd Hfree].
        assert (Hm : m ∉ rest).
        { intros Hin. specialize (Hfree m Hin).
          rewrite lookup_insert_eq in Hfree. discriminate. }
        split; [constructor; assumption|].
        intros m' Hm'. apply elem_of_cons in Hm' as [->|Hm']; [exact E|].
        specialize (Hfree m' Hm').
        rewrite lookup_insert_ne in Hfree; [exact Hfree|].
        intros ->. contradiction.
      * intros [Hnd Hfree]. apply NoDup_cons in Hnd as [Hm Hnd].
        split; [exact Hnd|]. intros m' Hm'.
        rewrite lookup_insert_ne by (intros ->; contradiction).
        apply Hfree. apply elem_of_cons. right. exact Hm'.
Qed.

(** After a successful registration the declared names map to the handler
    and every other name is as before. *)
Lemma register_methods_ok_lookup handler methods : forall hs,
  fst (Server.register_methods handler methods hs) = None ->
  forall m,
    snd (Server.register_methods handler methods hs) !! m
    = if decide (m ∈ methods) then Some handler else hs !! m.
Proof.
  induction methods as [|m0 rest IH]; intros hs Hok m; simpl in *.
  - destruct (decide (m ∈ [])) as [Hin|]; [inversion Hin|reflexivity].
  - destruct (hs !! m0) eqn:E; simpl in *; [discriminate|].
    rewrite (IH _ Hok).
    destruct (decide (m ∈ rest)) as [Hin|Hnin].
    + rewrite decide_True by (apply elem_of_cons; right; exact Hin). reflexivity.
    + destruct (decide (m = m0)) as [->|Hne].
      * rewrite decide_True by (apply elem_of_cons; left; reflexivity).
        apply lookup_insert_eq.
      * rewrite decide_False
          by (intros H; apply elem_of_cons in H as [?|?]; contradiction).
        apply lookup_insert_ne. congruence.
Qed.

(** X2: [RegisterHandler] returns nil exactly when the names the handler
    declares are pairwise distinct and none of them is registered (a
    handler that declares a name twice is refused even by an empty
    registry); it then maps each declared name to the handler and leaves
    every other name, and every other field of the server, as it was. *)
Theorem X2_registration_succeeds_iff :
  forall handler s,
    (fst (Server.RegisterHandler handler s) = None
     <-> NoDup (Server.Methods handler)
         /\ forall m, m ∈ Server.Methods handler -> Server.handlers s !! m = None)
    /\
    (fst (Server.RegisterHandler handler s) = None ->
     forall m,
       Server.handlers (snd (Server.RegisterHandler handler s)) !! m
       = if decide (m ∈ Server.Methods handler) then Some handler
         else Server.handlers s !! m)
    /\
    Server.status (snd (Server.RegisterHandler handler s)) = Server.status s /\
    Server.callbacks (snd (Server.RegisterHandler handler s))
    = Server.callbacks s /\
    Server.listeners (snd (Server.RegisterHandler handler s))
    = Server.listeners s.
Proof.
  intros handler s. unfold Server.RegisterHandler.
  pose proof (register_methods_ok_iff handler (Server.Methods handler)
                (Server.handlers s)) as Hiff.
  pose proof (register_methods_ok_lookup handler (Server.Methods handler)
                (Server.handlers s)) as Hlook.
  destruct (Server.register_methods _ _ _) as [err hs]. simpl in *.
  split_and!; try reflexivity; assumption.
Qed.

(** A handler declaring the same name twice, on a new server. *)
Lemma X2_registration_succeeds_iff_witness :
  let twice := {| Server.Methods := ["custom.method1"; "custom.method1"];
                  Server.ProcessModel := None |} in
  let s := fst (Server.New [] (genesis 0 Scenario.reachable Scenario.reachable)) in
  fst (Server.RegisterHandler twice s) <> None /\
  forall m,
    Server.handlers
      (snd (Server.RegisterHandler Server.NewDefaultModelHandler s)) !! m
    = if decide (m ∈ ["mcp.processModel"])
      then Some Server.NewDefaultModelHandler else None.
Proof.
  cbv zeta. split.
  - intros H.
    apply (proj1 (X2_registration_succeeds_iff _ _)) in H as [Hnd _].
    simpl in Hnd. apply NoDup_cons in Hnd as [Hnin _].
    apply Hnin. apply elem_of_cons. left. reflexivity.
  - intros m.
    rewrite (proj1 (proj2 (X2_registration_succeeds_iff
                             Server.NewDefaultModelHandler _))).
    + reflexivity.
    + vm_compute. reflexivity.
Defined.

(** X3: only "mcp.processModel" is dispatched.  A call to any other method
    for which a handler is registered is answered, on an open connection,
    with the protocol error InvalidRequest "unknown method: ..."; the
    handler is not consulted and the connection stays open. *)
Theorem X3_only_processModel_is_dispatched :
  forall s w conn req handler,
    conn_closed conn = false ->
    Server.handlers s !! Method req = Some handler ->
    Method req <> "mcp.processModel" ->
    Server.Handle s w conn req
    = Returns (push (ReplyError (ReqID req)
                       {| Code := CodeInvalidRequest;
                          Message := "unknown method: " +:+ Method req |})
                 conn).
Proof.
  intros s w conn req handler Hopen Hreg Hne.
  unfold Server.Handle. rewrite Hreg.
  destruct (decide _) as [Heq|_]; [contradiction|].
  rewrite ReplyWithError_open by exact Hopen. reflexivity.
Qed.

Lemma X3_only_processModel_is_dispatched_witness :
  let describe := {| Server.Methods := ["mcp.describeModel"];
                     Server.ProcessModel :=
                       Some Server.DefaultModelHandler_ProcessModel |} in
  let s := snd (Server.RegisterHandler describe (fst Scenario.running_server)) in
  let call := {| Method := "mcp.describeModel";
                 Params := Some (Decodes Scenario.sample_request);
                 ReqID := IDStr "r1" |} in
  Server.Handle s (snd Scenario.running_server) Scenario.open_conn call
  = Returns (push (ReplyError (IDStr "r1")
                     {| Code := -32600;
                        Message := "unknown method: mcp.describeModel" |})
               Scenario.open_conn).
Proof.
  cbv zeta.
  rewrite (X3_only_processModel_is_dispatched _ _ _ _
             {| Server.Methods := ["mcp.describeModel"];
                Server.ProcessModel :=
                  Some Server.DefaultModelHandler_ProcessModel |}).
  - reflexivity.
  - reflexivity.
  - vm_compute. reflexivity.
  - discriminate.
Defined.

(** X4: a call to "mcp.processModel" with a payload, for which a model
    handler is registered, on an open connection: if the payload does not
    decode the reply is InvalidParams; if the handler returns an error the
    reply is InternalError "processing error: ..." and the response the
    handler may have returned with it is dropped; otherwise the reply is
    the handler's response as it is (the server does not touch its
    identifier or flags).  Without a payload the call makes the handler
    goroutine panic, and a registered handler that is no model handler
    gives InternalError. *)
Theorem X4_processModel_outcomes :
  forall s w conn req handler,
    conn_closed conn = false ->
    Method req = "mcp.processModel" ->
    Server.handlers s !! Method req = Some handler ->
    match Server.ProcessModel handler with
    | None =>
        Server.Handle s w conn req
        = Returns (push (ReplyError (ReqID req)
                           {| Code := CodeInternalError;
                              Message := "handler is not a ModelHandler" |})
                     conn)
    | Some process =>
        match Params req with
        | None => exists msg, Server.Handle s w conn req = Panics msg
        | Some (Malformed why) =>
            Server.Handle s w conn req
            = Returns (push (ReplyError (ReqID req)
                               {| Code := CodeInvalidParams;
                                  Message := "invalid params: " +:+ why |})
                         conn)
        | Some (Decodes modelReq) =>
            match process (ctx_done w (conn_ctx conn)) modelReq (now w) with
            | (_, Some err) =>
                Server.Handle s w conn req
                = Returns (push (ReplyError (ReqID req)
                                   {| Code := CodeInternalError;
                                      Message := "processing error: "
                                                 +:+ Error_msg err |})
                             conn)
            | (resp, None) =>
                Server.Handle s w conn req
                = Returns (push (ReplyResult (ReqID req) resp) conn)
            end
        end
    end.
Proof.
  intros s w conn req handler Hopen Hm Hreg.
  unfold Server.Handle. rewrite Hreg.
  destruct (decide _) as [_|Hne]; [|contradiction].
  unfold Server.handleProcessModel.
  destruct (Server.ProcessModel handler) as [process|].
  - destruct (Params req) as [[modelReq|why]|]; simpl.
    + destruct (process _ _ _) as [resp [err|]].
      * rewrite ReplyWithError_open by exact Hopen. reflexivity.
      * rewrite send_open by exact Hopen. reflexivity.
    + rewrite ReplyWithError_open by exact Hopen. reflexivity.
    + eauto.
  - rewrite ReplyWithError_open by exact Hopen. reflexivity.
Qed.

(** The default handler on the running server: a call without payload. *)
Lemma X4_processModel_outcomes_witness :
  exists msg,
    Server.Handle (fst Scenario.running_server) (snd Scenario.running_server)
      Scenario.open_conn
      {| Method := "mcp.processModel"; Params := None; ReqID := IDNum 3 |}
    = Panics msg.
Proof.
  exact (X4_processModel_outcomes
           (fst Scenario.running_server) (snd Scenario.running_server)
           Scenario.open_conn
           {| Method := "mcp.processModel"; Params := None; ReqID := IDNum 3 |}
           Server.NewDefaultModelHandler
           eq_refl eq_refl ltac:(vm_compute; reflexivity)).
Defined.

(* ===================================================================== *)
(** ** The client, call by call *)
(* ===================================================================== *)

Lemma close_conn_at_set k w :
  exists cs, close_conn_at k w = set_conns cs w /\ length cs = length (conns w).
Proof.
  unfold close_conn_at. destruct (conns w !! k) as [c|].
  - eexists. split; [reflexivity|]. apply length_insert.
  - exists (conns w). split; [destruct w; reflexivity|reflexivity].
Qed.

Lemma conn_is_closed_close k k' w :
  conn_is_closed (close_conn_at k w) k'
  = if decide (k = k') then true else conn_is_closed w k'.
Proof.
  unfold close_conn_at, conn_is_closed.
  destruct (decide (k = k')) as [<-|Hne].
  - destruct (conns w !! k) as [c|] eqn:E.
    + simpl. rewrite list_lookup_insert_eq; [reflexivity|].
      apply lookup_lt_Some in E. exact E.
    + rewrite E. reflexivity.
  - destruct (conns w !! k) as [c|] eqn:E; [|reflexivity].
    simpl. rewrite list_lookup_insert_ne by exact Hne. reflexivity.
Qed.

(** What [Start] does when the dial is accepted. *)
Lemma Client_Start_accepted c w :
  Client.status c = StatusStopped ->
  dial_result w (dials w) = None ->
  exists c' w',
    Client.Start c w = (None, c', w') /\
    Client.status c' = StatusRunning /\
    Client.isConnected c' = true /\
    Client.conn c' = Some (length (conns w)) /\
    Client.wg c' = S (Client.wg c) /\
    Client.reconnectAttempt c' = Client.reconnectAttempt c /\
    Client.callbacks c' = Client.callbacks c /\
    Client.opts c' = Client.opts c /\
    Client.ctx c' = Client.ctx c /\
    notifications w'
    = notifications w
        ++ map (fun cb => (cb, {| OldStatus := StatusStopped;
                                  NewStatus := StatusStarting;
                                  Timestamp := now w; Error := None |}))
             (Client.callbacks c)
        ++ map (fun cb => (cb, {| OldStatus := StatusStarting;
                                  NewStatus := StatusRunning;
                                  Timestamp := now w; Error := None |}))
             (Client.callbacks c) /\
    conns w'
    = conns w ++ [{| conn_ctx := Client.ctx c; conn_closed := false;
                     conn_sent := [] |}] /\
    monitors w' = monitors w ++ [length (conns w)] /\
    dials w' = S (dials w) /\
    ctxs w' = ctxs w /\ now w' = now w /\ delivered w' = delivered w.
Proof.
  intros Hst Hd. unfold Client.Start.
  destruct (decide _) as [Hne|_]; [congruence|].
  rewrite Client_updateStatusLocked_spec. unfold Client.connect.
  cbn [dial_result dials set_notifications]. rewrite Hd.
  unfold Client.updateStatus. rewrite Client_updateStatusLocked_spec.
  do 2 eexists. split; [reflexivity|]. simpl. rewrite Hst, <- app_assoc.
  split_and!; reflexivity.
Qed.

(** What [Start] does when the dial is refused. *)
Lemma Client_Start_dial_refused c w msg :
  Client.status c = StatusStopped ->
  dial_result w (dials w) = Some msg ->
  let err := ConnectionError "connect to"
               (Client.ServerHost (Client.opts c) +:+ ":"
                  +:+ itoa (Client.ServerPort (Client.opts c)))
               (NetError msg) in
  exists c' w',
    Client.Start c w = (Some err, c', w') /\
    c' = Client.set_status StatusFailed c /\
    notifications w'
    = notifications w
        ++ map (fun cb => (cb, {| OldStatus := StatusStopped;
                                  NewStatus := StatusStarting;
                                  Timestamp := now w; Error := None |}))
             (Client.callbacks c)
        ++ map (fun cb => (cb, {| OldStatus := StatusStarting;
                                  NewStatus := StatusFailed;
                                  Timestamp := now w; Error := Some err |}))
             (Client.callbacks c) /\
    conns w' = conns w /\ monitors w' = monitors w /\
    dials w' = S (dials w) /\
    ctxs w' = ctxs w /\ now w' = now w /\ delivered w' = delivered w.
Proof.
  intros Hst Hd. cbv zeta. unfold Client.Start.
  destruct (decide _) as [Hne|_]; [congruence|].
  rewrite Client_updateStatusLocked_spec. unfold Client.connect.
  cbn [dial_result dials set_notifications]. rewrite Hd.
  unfold Client.updateStatus. rewrite Client_updateStatusLocked_spec.
  do 2 eexists. split; [reflexivity|]. simpl. rewrite Hst, <- app_assoc.
  split_and!; try reflexivity.
Qed.

(** Every way the reconnection loop can end: the context is found
    cancelled after a delay; a dial is accepted; the budget is spent.  It
    always ends, after at most as many dials as the counter is short of the
    maximum. *)
Lemma attemptReconnect_loop_spec fuel : forall c w,
  0 <= Client.reconnectAttempt c ->
  Client.MaxReconnectAttempts (Client.opts c) <= int_max ->
  (Z.to_nat (Client.MaxReconnectAttempts (Client.opts c)
             - Client.reconnectAttempt c) <= fuel)%nat ->
  exists c' w',
    Client.attemptReconnect_loop fuel c w = Some (c', w') /\
    Client.opts c' = Client.opts c /\
    Client.ctx c' = Client.ctx c /\
    Client.callbacks c' = Client.callbacks c /\
    ctxs w' = ctxs w /\
    delivered w' = delivered w /\
    (dials w <= dials w'
     <= dials w + Z.to_nat (Client.MaxReconnectAttempts (Client.opts c)
                            - Client.reconnectAttempt c))%nat /\
    0 <= Client.reconnectAttempt c'
      <= Z.max (Client.reconnectAttempt c)
           (Client.MaxReconnectAttempts (Client.opts c)) /\
    ((Client.status c' = Client.status c /\
      notifications w' = notifications w /\
      monitors w' = monitors w /\ conns w' = conns w /\
      Client.wg c' = Client.wg c /\ Client.conn c' = Client.conn c /\
      Client.isConnected c' = Client.isConnected c /\
      ctx_done w' (Client.ctx c) = true)
     \/
     (Client.status c' = Client.status c /\
      notifications w' = notifications w /\
      monitors w' = monitors w ++ [length (conns w)] /\
      conns w' = conns w ++ [{| conn_ctx := Client.ctx c;
                                conn_closed := false; conn_sent := [] |}] /\
      Client.wg c' = S (Client.wg c) /\
      Client.conn c' = Some (length (conns w)) /\
      Client.isConnected c' = true /\
      Client.reconnectAttempt c' = 0)
     \/
     (Client.status c' = StatusFailed /\
      notifications w'
      = notifications w
          ++ map (fun cb => (cb, {| OldStatus := Client.status c;
                                    NewStatus := StatusFailed;
                                    Timestamp := now w';
                                    Error := Some ReconnectExhausted |}))
               (Client.callbacks c) /\
      monitors w' = monitors w /\ conns w' = conns w /\
      Client.wg c' = Client.wg c /\ Client.conn c' = Client.conn c /\
      Client.isConnected c' = Client.isConnected c)).
Proof.
  assert (Hexh : forall c w,
             0 <= Client.reconnectAttempt c ->
             ~ Client.reconnectAttempt c
               < Client.MaxReconnectAttempts (Client.opts c) ->
             exists c' w',
               Some (Client.updateStatus StatusFailed (Some ReconnectExhausted) c w)
               = Some (c', w') /\
               Client.opts c' = Client.opts c /\
               Client.ctx c' = Client.ctx c /\
               Client.callbacks c' = Client.callbacks c /\
               ctxs w' = ctxs w /\ delivered w' = delivered w /\
               (dials w <= dials w'
                <= dials w + Z.to_nat (Client.MaxReconnectAttempts (Client.opts c)
                                       - Client.reconnectAttempt c))%nat /\
               0 <= Client.reconnectAttempt c'
                 <= Z.max (Client.reconnectAttempt c)
                      (Client.MaxReconnectAttempts (Client.opts c)) /\
               (Client.status c' = StatusFailed /\
                notifications w'
                = notifications w
                    ++ map (fun cb => (cb, {| OldStatus := Client.status c;
                                              NewStatus := StatusFailed;
                                              Timestamp := now w';
                                              Error := Some ReconnectExhausted |}))
                         (Client.callbacks c) /\
                monitors w' = monitors w /\ conns w' = conns w /\
                Client.wg c' = Client.wg c /\ Client.conn c' = Client.conn c /\
                Client.isConnected c' = Client.isConnected c)).
  { intros c w Hr Hge. unfold Client.updateStatus.
    rewrite Client_updateStatusLocked_spec.
    do 2 eexists. split; [reflexivity|]. simpl.
    split_and!; try reflexivity; lia. }
  induction fuel as [|fuel IH]; intros c w Hr Hmax Hfuel; simpl.
  - rewrite bool_decide_eq_false_2 by lia.
    destruct (Hexh c w Hr) as (c' & w' & H & H1 & H2 & H3 & H4 & H5 & H6 & H7 & H8);
      [lia|].
    exists c', w'. split_and!; try assumption; try lia. right. right. exact H8.
  - case_bool_decide as Hlt.
    2:{ destruct (Hexh c w Hr Hlt)
          as (c' & w' & H & H1 & H2 & H3 & H4 & H5 & H6 & H7 & H8).
        exists c', w'. split_and!; try assumption; try lia. right. right. exact H8. }
    rewrite (next_attempt_no_wrap _ _ Hr Hlt Hmax).
    cbn [Client.opts Client.ctx Client.set_reconnectAttempt].
    destruct (ctx_done _ _) eqn:Hdone.
    + do 2 eexists. split; [reflexivity|]. simpl.
      split_and!; try reflexivity; try lia.
      left. split_and!; try reflexivity. exact Hdone.
    + unfold Client.connect. cbn [dial_result dials Sleep set_now].
      destruct (dial_result w (dials w)) as [msg|].
      * destruct (IH (Client.set_reconnectAttempt (Client.reconnectAttempt c + 1) c)
                    (set_dials (S (dials w))
                       (Sleep (Client.ReconnectDelay (Client.opts c)) w)))
          as (c' & w' & Hloop & H1 & H2 & H3 & H4 & H5 & H6 & H7 & H8);
          [simpl; lia|exact Hmax|simpl; lia|].
        rewrite Hloop. exists c', w'.
        simpl in H1, H2, H3, H4, H5, H6, H7, H8.
        split_and!; try assumption; try reflexivity; try lia.
      * do 2 eexists. split; [reflexivity|]. simpl.
        split_and!; try reflexivity; try lia.
        right. left. split_and!; reflexivity.
Qed.

(** What a monitor goroutine does once its connection is lost: nothing but
    clearing the connected flag (not Running, auto-reconnect off, or the
    context found cancelled); a reconnection; or giving up, which makes the
    client Failed.  It always ends and leaves the wait group. *)
Lemma monitorConnection_spec c w :
  0 <= Client.reconnectAttempt c ->
  Client.MaxReconnectAttempts (Client.opts c) <= int_max ->
  exists c' w',
    Client.monitorConnection c w = Some (c', w') /\
    Client.opts c' = Client.opts c /\
    Client.ctx c' = Client.ctx c /\
    Client.callbacks c' = Client.callbacks c /\
    ctxs w' = ctxs w /\
    delivered w' = delivered w /\
    (dials w <= dials w'
     <= dials w + Z.to_nat (Client.MaxReconnectAttempts (Client.opts c)
                            - Client.reconnectAttempt c))%nat /\
    0 <= Client.reconnectAttempt c'
      <= Z.max (Client.reconnectAttempt c)
           (Client.MaxReconnectAttempts (Client.opts c)) /\
    ((Client.status c' = Client.status c /\
      notifications w' = notifications w /\
      monitors w' = monitors w /\ conns w' = conns w /\
      Client.wg c' = pred (Client.wg c) /\ Client.conn c' = Client.conn c /\
      Client.isConnected c' = false)
     \/
     (Client.status c = StatusRunning /\
      Client.AutoReconnect (Client.opts c) = true /\
      Client.status c' = StatusRunning /\
      notifications w' = notifications w /\
      monitors w' = monitors w ++ [length (conns w)] /\
      conns w' = conns w ++ [{| conn_ctx := Client.ctx c;
                                conn_closed := false; conn_sent := [] |}] /\
      Client.wg c' = Client.wg c /\
      Client.conn c' = Some (length (conns w)) /\
      Client.isConnected c' = true /\
      Client.reconnectAttempt c' = 0)
     \/
     (Client.status c = StatusRunning /\
      Client.AutoReconnect (Client.opts c) = true /\
      Client.status c' = StatusFailed /\
      notifications w'
      = notifications w
          ++ map (fun cb => (cb, {| OldStatus := StatusRunning;
                                    NewStatus := StatusFailed;
                                    Timestamp := now w';
                                    Error := Some ReconnectExhausted |}))
               (Client.callbacks c) /\
      monitors w' = monitors w /\ conns w' = conns w /\
      Client.wg c' = pred (Client.wg c) /\ Client.conn c' = Client.conn c /\
      Client.isConnected c' = false)).
Proof.
  intros Hr Hmax. unfold Client.monitorConnection.
  cbn [Client.opts Client.status Client.set_isConnected].
  destruct (Client.AutoReconnect (Client.opts c)) eqn:Hauto; cbn [andb].
  2:{ do 2 eexists. split; [reflexivity|]. simpl.
      split_and!; try reflexivity; try lia. left. split_and!; reflexivity. }
  case_bool_decide as Hrun.
  2:{ do 2 eexists. split; [reflexivity|]. simpl.
      split_and!; try reflexivity; try lia. left. split_and!; reflexivity. }
  unfold Client.attemptReconnect.
  destruct (attemptReconnect_loop_spec
              (Z.to_nat (Client.MaxReconnectAttempts
                           (Client.opts (Client.set_isConnected false c))
                         - Client.reconnectAttempt
                             (Client.set_isConnected false c)))
              (Client.set_isConnected false c) w)
    as (c' & w' & Hloop & H1 & H2 & H3 & H4 & H5 & H6 & H7 & H8);
    [exact Hr|exact Hmax|apply le_n|].
  rewrite Hloop. do 2 eexists. split; [reflexivity|].
  simpl in H1, H2, H3, H4, H5, H6, H7, H8. simpl.
  split_and!; try assumption; try lia.
  destruct H8 as [H8|[H8|H8]].
  - left. destruct H8 as (Ha&Hb&Hc&Hd&He&Hf&Hg&Hh).
    rewrite He. split_and!; try assumption; reflexivity.
  - right. left. destruct H8 as (Ha&Hb&Hc&Hd&He&Hf&Hg&Hh).
    rewrite He. split_and!; try assumption; try reflexivity; congruence.
  - right. right. destruct H8 as (Ha&Hb&Hc&Hd&He&Hf&Hg).
    rewrite He, <- Hrun.
    split_and!; try assumption; try reflexivity; congruence.
Qed.

Lemma Forall_insert_mid {A} (P : A -> Prop) (n new d : list A) :
  Forall P (n ++ d) -> Forall P new -> Forall P ((n ++ new) ++ d).
Proof. rewrite !Forall_app. tauto. Qed.

Lemma Forall_event_copies edge (event : StatusChangeEvent) (cbs : list Callback) :
  edge (OldStatus event) (NewStatus event) = true ->
  Forall (Trace.event_on edge) (map (fun cb => (cb, event)) cbs).
Proof.
  intros H. apply Forall_forall. intros task Hin.
  apply list_elem_of_fmap in Hin as (cb & -> & _). exact H.
Qed.

Lemma deliver_keeps_events P i w :
  Forall P (notifications w ++ delivered w) ->
  Forall P (notifications (deliver i w) ++ delivered (deliver i w)).
Proof.
  unfold deliver. destruct (notifications w !! i) as [task|] eqn:E; [|auto].
  simpl. intros H.
  rewrite (delete_Permutation (notifications w) i task E) in H.
  rewrite app_assoc, Forall_app. simpl in H. apply Forall_cons in H as [Ht H].
  split; [exact H|]. constructor; [exact Ht|constructor].
Qed.

(** Monitors that wake up while the client is not Running leave the wait
    group one by one. *)
Lemma run_monitors_quiet n : forall c w,
  Client.status c <> StatusRunning ->
  exists c',
    Client.run_monitors n c w = Some (c', w) /\
    Client.status c' = Client.status c /\
    Client.ctx c' = Client.ctx c /\
    Client.callbacks c' = Client.callbacks c /\
    Client.opts c' = Client.opts c /\
    Client.conn c' = Client.conn c /\
    Client.reconnectAttempt c' = Client.reconnectAttempt c /\
    Client.wg c' = (Client.wg c - n)%nat /\
    Client.isConnected c'
    = match n with O => Client.isConnected c | S _ => false end.
Proof.
  induction n as [|n IH]; intros c w H; simpl.
  - exists c. split_and!; try reflexivity. lia.
  - rewrite monitorConnection_not_running by exact H.
    destruct (IH (Client.set_wg (pred (Client.wg c))
                    (Client.set_isConnected false c)) w H)
      as (c' & Hrun & H1 & H2 & H3 & H4 & H5 & H6 & H7 & H8).
    exists c'. simpl in *. split_and!; try assumption; [lia|].
    rewrite H8. destruct n; reflexivity.
Qed.

Lemma client_edge_cases :
  Trace.client_edge StatusStopped StatusStarting = true /\
  Trace.client_edge StatusStarting StatusRunning = true /\
  Trace.client_edge StatusStarting StatusFailed = true /\
  Trace.client_edge StatusRunning StatusStopping = true /\
  Trace.client_edge StatusStopping StatusStopped = true /\
  Trace.client_edge StatusRunning StatusFailed = true.
Proof. repeat split. Qed.

(** [Start] keeps a settled client settled. *)
Lemma settled_Start c w :
  Trace.client_settled c w ->
  Trace.client_settled (snd (fst (Client.Start c w))) (snd (Client.Start c w)).
Proof.
  intros Hs. destruct (decide (Client.status c = StatusStopped)) as [Hst|Hst].
  2:{ rewrite Client_Start_refused by exact Hst. exact Hs. }
  destruct Hs as (Hwg & Hmon & Hr & Hmax & Hctx & Hev).
  destruct Hmon as [[Hmon Hconn]|(k & _ & _ & _ & Hrun & _)]; [|congruence].
  destruct (dial_result w (dials w)) as [msg|] eqn:Hd.
  - destruct (Client_Start_dial_refused c w msg Hst Hd)
      as (c' & w' & HS & -> & Hn & Hc & Hm & _ & Hx & _ & Hdel).
    rewrite HS. cbn [fst snd]. unfold Trace.client_settled.
    cbn [Client.wg Client.set_status Client.isConnected Client.conn
           Client.status Client.reconnectAttempt Client.opts Client.ctx].
    rewrite Hm, Hx, Hn, Hdel. split_and!; try assumption; try lia.
    + left. split; assumption.
    + rewrite app_assoc. apply Forall_insert_mid; [|apply Forall_event_copies; reflexivity].
      apply Forall_insert_mid; [exact Hev|apply Forall_event_copies; reflexivity].
  - destruct (Client_Start_accepted c w Hst Hd)
      as (c' & w' & HS & H1 & H2 & H3 & H4 & H5 & H6 & H7 & H8 & Hn & Hc & Hm
          & _ & Hx & _ & Hdel).
    rewrite HS. cbn [fst snd]. unfold Trace.client_settled.
    rewrite H4, Hm, Hmon, H7, H5, H8, Hx, Hn, Hdel, Hwg, Hmon.
    split_and!; try assumption; try reflexivity; try lia.
    + right. exists (length (conns w)). split_and!; try assumption; try reflexivity.
      unfold conn_is_closed. rewrite Hc.
      rewrite list_lookup_middle by reflexivity. reflexivity.
    + rewrite app_assoc. apply Forall_insert_mid; [|apply Forall_event_copies; reflexivity].
      apply Forall_insert_mid; [exact Hev|apply Forall_event_copies; reflexivity].
Qed.

Lemma cancel_set k w :
  exists cx, cancel k w = set_ctxs cx w /\ length cx = length (ctxs w).
Proof.
  unfold cancel. destruct (ctx_done w k).
  - exists (ctxs w). split; [destruct w; reflexivity|reflexivity].
  - eexists. split; [reflexivity|]. apply length_insert.
Qed.

(** [Stop] on a settled Running client returns, with the client Stopped,
    its connection dropped, its context cancelled and no goroutine left. *)
Lemma settled_Stop_running c w :
  Trace.client_settled c w ->
  Client.status c = StatusRunning ->
  exists c' w',
    Client.Stop c w = Returns (None, c', w') /\
    Client.status c' = StatusStopped /\
    Client.conn c' = None /\
    Client.isConnected c' = false /\
    Client.wg c' = 0%nat /\
    monitors w' = [] /\
    ctx_done w' (Client.ctx c') = true /\
    Client.ctx c' = Client.ctx c /\
    Client.callbacks c' = Client.callbacks c /\
    Client.opts c' = Client.opts c /\
    Client.reconnectAttempt c' = Client.reconnectAttempt c /\
    notifications w'
    = notifications w
        ++ map (fun cb => (cb, {| OldStatus := StatusRunning;
                                  NewStatus := StatusStopping;
                                  Timestamp := now w; Error := None |}))
             (Client.callbacks c)
        ++ map (fun cb => (cb, {| OldStatus := StatusStopping;
                                  NewStatus := StatusStopped;
                                  Timestamp := now w; Error := None |}))
             (Client.callbacks c) /\
    delivered w' = delivered w /\
    dials w' = dials w /\
    (forall k, Client.conn c = Some k -> conn_is_closed w' k = true) /\
    Trace.client_settled c' w'.
Proof.
  intros (Hwg & Hmon & Hr & Hmax & Hctx & Hev) Hrun.
  unfold Client.Stop. destruct (decide _) as [Hne|_]; [congruence|].
  rewrite Client_updateStatusLocked_spec. rewrite Hrun.
  set (c1 := Client.set_status StatusStopping c).
  set (w1 := set_notifications _ w).
  assert (Hdone : ctx_done (cancel (Client.ctx c1) w1) (Client.ctx c) = true).
  { apply cancel_done. exact Hctx. }
  destruct (cancel_set (Client.ctx c1) w1) as (cx & Hcancel & Hlen).
  rewrite Hcancel in *. set (w2 := set_ctxs cx w1) in *.
  assert (Hgo : forall c2 w3,
             Client.status c2 = StatusStopping ->
             Client.wg c2 = 1%nat ->
             Client.run_monitors 1 (Client.set_isConnected false c2) w3
             = Some (Client.set_wg 0 (Client.set_isConnected false c2), w3)).
  { intros c2 w3 Hs2 Hn. simpl.
    rewrite monitorConnection_not_running
      by (simpl; rewrite Hs2; discriminate).
    simpl. rewrite Hn. reflexivity. }
  destruct Hmon as [[Hmon Hconn]|(k & Hmon & Hck & Hopen & _ & Hic)].
  - assert (Hwake : forall c2 w3,
               Client.status c2 = StatusStopping -> Client.wg c2 = 0%nat ->
               monitors w3 = [] ->
               Client.wake_monitors (Client.set_isConnected false c2) w3
               = Some (Client.set_wg 0 (Client.set_isConnected false c2),
                       set_monitors [] w3)).
    { intros c2 w3 Hs2 Hw2 Hm3. unfold Client.wake_monitors. rewrite Hm3.
      simpl. f_equal. f_equal. destruct c2; simpl in *; subst; reflexivity. }
    destruct (Client.conn c1) as [k|] eqn:Hk.
    + destruct (close_conn_at_set k w2) as (cs & Hclose & Hcl).
      rewrite Hclose. rewrite Hwake;
        [|reflexivity|unfold c1; simpl; rewrite Hwg, Hmon; reflexivity
         |unfold w2, w1; simpl; exact Hmon].
      cbn [Client.wg Client.set_wg]. destruct (decide _) as [_|Hne]; [|congruence].
      unfold Client.updateStatus. rewrite Client_updateStatusLocked_spec.
      do 2 eexists. split; [reflexivity|]. simpl. rewrite <- app_assoc.
      split_and!; try reflexivity.
      * rewrite <- Hdone. reflexivity.
      * intros k' Hk'. simpl in Hk. rewrite Hk in Hk'. injection Hk' as <-.
        pose proof (conn_is_closed_close k k w2) as Hclosed.
        rewrite decide_True in Hclosed by reflexivity.
        rewrite Hclose in Hclosed. exact Hclosed.
      * unfold Trace.client_settled. simpl.
        split_and!; try assumption; try reflexivity; try lia;
          try (rewrite Hlen; exact Hctx).
        -- left. split; reflexivity.
        -- rewrite app_assoc.
           apply Forall_insert_mid; [|apply Forall_event_copies; reflexivity].
           apply Forall_insert_mid; [exact Hev|apply Forall_event_copies; reflexivity].
    + simpl in Hk. rewrite Hwake;
        [|reflexivity|unfold c1; simpl; rewrite Hwg, Hmon; reflexivity
         |unfold w2, w1; simpl; exact Hmon].
      cbn [Client.wg Client.set_wg]. destruct (decide _) as [_|Hne]; [|congruence].
      unfold Client.updateStatus. rewrite Client_updateStatusLocked_spec.
      do 2 eexists. split; [reflexivity|]. simpl. rewrite <- app_assoc.
      split_and!; try reflexivity; try exact Hk.
      * rewrite <- Hdone. reflexivity.
      * intros k' Hk'. congruence.
      * unfold Trace.client_settled. simpl.
        split_and!; try assumption; try reflexivity; try lia;
          try (rewrite Hlen; exact Hctx).
        -- left. split; reflexivity.
        -- rewrite app_assoc.
           apply Forall_insert_mid; [|apply Forall_event_copies; reflexivity].
           apply Forall_insert_mid; [exact Hev|apply Forall_event_copies; reflexivity].
  - assert (Hk : Client.conn c1 = Some k) by exact Hck. rewrite Hk.
    destruct (close_conn_at_set k w2) as (cs & Hclose & Hcl).
    assert (Hclosed : conn_is_closed (close_conn_at k w2) k = true).
    { rewrite conn_is_closed_close. rewrite decide_True by reflexivity. reflexivity. }
    unfold Client.wake_monitors.
    assert (Hm3 : monitors (close_conn_at k w2) = [k])
      by (rewrite Hclose; unfold w2, w1; simpl; exact Hmon).
    rewrite Hm3. rewrite !filter_cons, !filter_nil.
    rewrite decide_True by exact Hclosed.
    rewrite decide_False by (rewrite Hclosed; discriminate).
    cbn [length].
    rewrite Hgo; [|reflexivity|unfold c1; simpl; rewrite Hwg, Hmon; reflexivity].
    cbn [Client.wg Client.set_wg]. destruct (decide _) as [_|Hne]; [|congruence].
    unfold Client.updateStatus. rewrite Client_updateStatusLocked_spec.
    do 2 eexists. split; [reflexivity|]. rewrite Hclose. simpl. rewrite <- app_assoc.
    split_and!; try reflexivity.
    + rewrite <- Hdone. reflexivity.
    + intros k' Hk'. rewrite Hck in Hk'. injection Hk' as <-.
      rewrite Hclose in Hclosed. exact Hclosed.
    + unfold Trace.client_settled. simpl.
      split_and!; try assumption; try reflexivity; try lia;
          try (rewrite Hlen; exact Hctx).
      * left. split; reflexivity.
      * rewrite app_assoc.
        apply Forall_insert_mid; [|apply Forall_event_copies; reflexivity].
        apply Forall_insert_mid; [exact Hev|apply Forall_event_copies; reflexivity].
Qed.

(** The loss of a connection keeps a settled client settled, and the event
    is handled to its end. *)
Lemma settled_Lost k c w :
  Trace.client_settled c w ->
  exists c' w',
    Client.disconnect k c w = Some (c', w') /\ Trace.client_settled c' w'.
Proof.
  intros (Hwg & Hmon & Hr & Hmax & Hctx & Hev).
  unfold Client.disconnect, Client.wake_monitors.
  destruct (close_conn_at_set k w) as (cs & Hclose & Hcl).
  pose proof (conn_is_closed_close k) as Hcc.
  destruct Hmon as [[Hmon Hconn]|(k0 & Hmon & Hck & Hopen & Hrun & Hic)].
  - rewrite Hclose. cbn [monitors set_conns]. rewrite Hmon. simpl.
    do 2 eexists. split; [reflexivity|].
    unfold Trace.client_settled. simpl. rewrite Hmon in Hwg.
    split_and!; try assumption; try lia. left. split; [reflexivity|assumption].
  - assert (Hm1 : monitors (close_conn_at k w) = [k0])
      by (rewrite Hclose; exact Hmon).
    rewrite Hm1, !filter_cons, !filter_nil.
    destruct (decide (k = k0)) as [->|Hne].
    + assert (Hclosed : conn_is_closed (close_conn_at k0 w) k0 = true).
      { rewrite Hcc. rewrite decide_True by reflexivity. reflexivity. }
      rewrite decide_True by exact Hclosed.
      rewrite decide_False by (rewrite Hclosed; discriminate).
      cbn [length Client.run_monitors].
      destruct (monitorConnection_spec c (set_monitors [] (close_conn_at k0 w)))
        as (c' & w' & Hmc & H1 & H2 & H3 & H4 & H5 & _ & H7 & H8);
        [lia|exact Hmax|].
      rewrite Hmc. exists c', w'. split; [reflexivity|].
      rewrite Hclose in H4, H5, H8. simpl in H4, H5, H8.
      unfold Trace.client_settled. rewrite H1, H2, H4, H5.
      destruct H8 as [H8|[H8|H8]].
      * destruct H8 as (Ha & Hb & Hc & Hd & He & Hf & Hg).
        rewrite He, Hc, Hb, Hwg, Hmon.
        split_and!; try assumption; try reflexivity; try lia.
        left. split; [reflexivity|assumption].
      * destruct H8 as (_ & _ & Ha & Hb & Hc & Hd & He & Hf & Hg & Hh).
        rewrite He, Hc, Hb, Hh, Hwg, Hmon.
        split_and!; try assumption; try reflexivity; try lia.
        right. exists (length cs).
        split_and!; try assumption; try reflexivity.
        unfold conn_is_closed. rewrite Hd.
        rewrite list_lookup_middle by reflexivity. reflexivity.
      * destruct H8 as (_ & _ & Ha & Hb & Hc & Hd & He & Hf & Hg).
        rewrite He, Hc, Hb, Hwg, Hmon.
        split_and!; try assumption; try reflexivity; try lia.
        -- left. split; [reflexivity|assumption].
        -- apply Forall_insert_mid; [exact Hev|].
           apply Forall_event_copies. reflexivity.
    + assert (Hstill : conn_is_closed (close_conn_at k w) k0 = false).
      { rewrite Hcc. rewrite decide_False by exact Hne. exact Hopen. }
      rewrite decide_False by (rewrite Hstill; discriminate).
      rewrite decide_True by exact Hstill.
      cbn [length Client.run_monitors].
      do 2 eexists. split; [reflexivity|].
      unfold Trace.client_settled. rewrite Hclose. simpl.
      split_and!; try assumption; try lia.
      * rewrite Hwg, Hmon. reflexivity.
      * right. exists k0. split_and!; try assumption; try reflexivity.
        rewrite Hclose in Hstill. exact Hstill.
Qed.

(** Every step on a settled client returns and leaves it settled. *)
Lemma client_step_settled op c w :
  Trace.client_settled c w ->
  exists c' w',
    Trace.client_step op c w = Some (c', w') /\ Trace.client_settled c' w'.
Proof.
  intros Hs. destruct op as [| |cb|answer req|k|i]; simpl.
  - pose proof (settled_Start c w Hs) as H.
    destruct (Client.Start c w) as [[e c'] w']. eauto.
  - destruct (decide (Client.status c = StatusRunning)) as [Hrun|Hrun].
    + destruct (settled_Stop_running c w Hs Hrun) as (c' & w' & HS & H).
      rewrite HS. exists c', w'. split; [reflexivity|].
      do 14 (destruct H as [_ H]). exact H.
    + rewrite Client_Stop_refused by exact Hrun. eauto.
  - do 2 eexists. split; [reflexivity|]. exact Hs.
  - destruct (Client_ProcessModel_frame answer req c w) as [H1 H2].
    destruct (Client.ProcessModel answer req c w) as [[r c'] w'].
    simpl in H1, H2. subst. eauto.
  - apply settled_Lost. exact Hs.
  - do 2 eexists. split; [reflexivity|].
    destruct Hs as (Hwg & Hmon & Hr & Hmax & Hctx & Hev).
    unfold Trace.client_settled.
    assert (Hd : exists n d, deliver i w = set_delivered d (set_notifications n w)).
    { unfold deliver. destruct (notifications w !! i).
      - eauto.
      - exists (notifications w), (delivered w). destruct w; reflexivity. }
    pose proof (deliver_keeps_events _ i w Hev) as Hev'.
    destruct Hd as (n & d & Hd). rewrite Hd in *. simpl in *.
    split_and!; try assumption; try lia.
Qed.

Lemma client_run_settled ops : forall c w,
  Trace.client_settled c w ->
  exists c' w',
    Trace.client_run ops c w = Some (c', w') /\ Trace.client_settled c' w'.
Proof.
  induction ops as [|op ops IH]; intros c w Hs; simpl.
  - eauto.
  - destruct (client_step_settled op c w Hs) as (c1 & w1 & Hstep & Hs1).
    rewrite Hstep. apply IH. exact Hs1.
Qed.

(** A client built in a world where nothing has happened is settled. *)
Lemma client_New_settled options start dial listen :
  Client.MaxReconnectAttempts
    (fold_left (fun o opt => opt o) options Client.DefaultOptions) <= int_max ->
  Trace.client_settled
    (fst (Client.New options (genesis start dial listen)))
    (snd (Client.New options (genesis start dial listen))).
Proof.
  intros Hmax. unfold Client.New, Trace.client_settled. simpl.
  split_and!; try reflexivity; try lia; try assumption.
  - left. split; reflexivity.
  - constructor.
Qed.

(** X5: [Start] on a Stopped client.  If the dial is accepted it returns
    nil and the client is Running and connected, on a new connection built
    under the client's context, with one more goroutine in the wait group;
    if the dial is refused it returns the connection error, the client is
    Failed, not connected, and no goroutine was started.  In both cases each
    callback gets two events, Stopped to Starting and then Starting to
    Running or Failed, the last one carrying the error that is returned. *)
Theorem X5_client_start_outcomes :
  forall c w,
    Client.status c = StatusStopped ->
    match dial_result w (dials w) with
    | None =>
        exists c' w',
          Client.Start c w = (None, c', w') /\
          Client.status c' = StatusRunning /\
          Client.isConnected c' = true /\
          Client.conn c' = Some (length (conns w)) /\
          conns w'
          = conns w ++ [{| conn_ctx := Client.ctx c; conn_closed := false;
                           conn_sent := [] |}] /\
          Client.wg c' = S (Client.wg c) /\
          notifications w'
          = notifications w
              ++ map (fun cb => (cb, {| OldStatus := StatusStopped;
                                        NewStatus := StatusStarting;
                                        Timestamp := now w; Error := None |}))
                   (Client.callbacks c)
              ++ map (fun cb => (cb, {| OldStatus := StatusStarting;
                                        NewStatus := StatusRunning;
                                        Timestamp := now w; Error := None |}))
                   (Client.callbacks c)
    | Some msg =>
        exists err c' w',
          Client.Start c w = (Some err, c', w') /\
          err = ConnectionError "connect to"
                  (Client.ServerHost (Client.opts c) +:+ ":"
                     +:+ itoa (Client.ServerPort (Client.opts c)))
                  (NetError msg) /\
          Client.status c' = StatusFailed /\
          Client.isConnected c' = Client.isConnected c /\
          Client.conn c' = Client.conn c /\
          conns w' = conns w /\
          Client.wg c' = Client.wg c /\
          notifications w'
          = notifications w
              ++ map (fun cb => (cb, {| OldStatus := StatusStopped;
                                        NewStatus := StatusStarting;
                                        Timestamp := now w; Error := None |}))
                   (Client.callbacks c)
              ++ map (fun cb => (cb, {| OldStatus := StatusStarting;
                                        NewStatus := StatusFailed;
                                        Timestamp := now w;
                                        Error := Some err |}))
                   (Client.callbacks c)
    end.
Proof.
  intros c w Hst. destruct (dial_result w (dials w)) as [msg|] eqn:Hd.
  - destruct (Client_Start_dial_refused c w msg Hst Hd)
      as (c' & w' & HS & -> & Hn & Hc & _).
    eexists _, _, w'. split; [exact HS|]. split; [reflexivity|].
    split_and!; try reflexivity; assumption.
  - destruct (Client_Start_accepted c w Hst Hd)
      as (c' & w' & HS & H1 & H2 & H3 & H4 & _ & _ & _ & _ & Hn & Hc & _).
    exists c', w'. split_and!; assumption.
Qed.

(** TestClientLifecycle: no server is listening. *)
Lemma X5_client_start_outcomes_witness :
  let c := fst (Scenario.new_client Scenario.unreachable) in
  let w := snd (Scenario.new_client Scenario.unreachable) in
  exists err c' w',
    Client.Start c w = (Some err, c', w') /\
    Error_msg err = "failed to connect to localhost:5000: connection refused" /\
    Client.status c' = StatusFailed /\
    Client.isConnected c' = false /\
    length (notifications w') = 2%nat.
Proof.
  cbv zeta.
  pose proof (X5_client_start_outcomes
                (fst (Scenario.new_client Scenario.unreachable))
                (snd (Scenario.new_client Scenario.unreachable)) eq_refl) as H.
  change (dial_result (snd (Scenario.new_client Scenario.unreachable))
            (dials (snd (Scenario.new_client Scenario.unreachable))))
    with (Some "connection refused") in H.
  destruct H as (err & c' & w' & HS & He & Hst & Hic & _ & _ & _ & Hn).
  exists err, c', w'. split; [exact HS|]. rewrite He, Hst, Hic, Hn.
  split_and!; reflexivity.
Defined.

(** X6: the reconnection loop always ends, whatever the network answers
    and whenever the context is cancelled, after at most as many dials as
    the counter is short of MaxReconnectAttempts.  It ends in one of three
    ways: the context was found cancelled (nothing changed but the counter
    and the clock); a dial was accepted (the client is on a new connection,
    counter at zero, same status, no event); or the budget is spent (the
    client is Failed and each callback gets the event). *)
Theorem X6_reconnect_always_ends_within_budget :
  forall c w,
    0 <= Client.reconnectAttempt c ->
    Client.MaxReconnectAttempts (Client.opts c) <= int_max ->
    exists c' w',
      Client.attemptReconnect c w = Some (c', w') /\
      (dials w' - dials w
       <= Z.to_nat (Client.MaxReconnectAttempts (Client.opts c)
                    - Client.reconnectAttempt c))%nat /\
      0 <= Client.reconnectAttempt c' /\
      ((ctx_done w' (Client.ctx c) = true /\
        Client.status c' = Client.status c /\
        Client.conn c' = Client.conn c /\
        conns w' = conns w /\
        notifications w' = notifications w)
       \/
       (Client.conn c' = Some (length (conns w)) /\
        Client.isConnected c' = true /\
        Client.reconnectAttempt c' = 0 /\
        Client.status c' = Client.status c /\
        notifications w' = notifications w)
       \/
       (Client.status c' = StatusFailed /\
        Client.conn c' = Client.conn c /\
        conns w' = conns w /\
        notifications w'
        = notifications w
            ++ map (fun cb => (cb, {| OldStatus := Client.status c;
                                      NewStatus := StatusFailed;
                                      Timestamp := now w';
                                      Error := Some ReconnectExhausted |}))
                 (Client.callbacks c))).
Proof.
  intros c w Hr Hmax. unfold Client.attemptReconnect.
  destruct (attemptReconnect_loop_spec
              (Z.to_nat (Client.MaxReconnectAttempts (Client.opts c)
                         - Client.reconnectAttempt c)) c w Hr Hmax (le_n _))
    as (c' & w' & Hloop & _ & _ & _ & _ & _ & Hd & Hr' & H).
  exists c', w'. split; [exact Hloop|]. split; [lia|]. split; [lia|].
  destruct H as [H|[H|H]].
  - left. destruct H as (?&?&?&?&?&?&?&?). split_and!; assumption.
  - right. left. destruct H as (?&?&?&?&?&?&?&?). split_and!; assumption.
  - right. right. destruct H as (?&?&?&?&?&?&?). split_and!; assumption.
Qed.

(** The server comes back at the second retry. *)
Lemma X6_reconnect_always_ends_within_budget_witness :
  let c := fst (Scenario.running_client Scenario.back_at_third) in
  let w := snd (Scenario.running_client Scenario.back_at_third) in
  exists c' w',
    Client.attemptReconnect c w = Some (c', w') /\
    (dials w' - dials w <= 3)%nat /\
    0 <= Client.reconnectAttempt c'.
Proof.
  cbv zeta.
  destruct (X6_reconnect_always_ends_within_budget
              (fst (Scenario.running_client Scenario.back_at_third))
              (snd (Scenario.running_client Scenario.back_at_third)))
    as (c' & w' & H & Hd & Hr & _).
  - vm_compute. discriminate.
  - vm_compute. discriminate.
  - exists c', w'. split; [exact H|]. split; [exact Hd|exact Hr].
Defined.



(** X9: after any such sequence the attempt counter is between zero and
    MaxReconnectAttempts (zero when that is negative). *)
Theorem X9_attempt_counter_bounds :
  forall options start dial listen ops c w,
    let c0 := fst (Client.New options (genesis start dial listen)) in
    let w0 := snd (Client.New options (genesis start dial listen)) in
    Client.MaxReconnectAttempts (Client.opts c0) <= int_max ->
    Trace.client_run ops c0 w0 = Some (c, w) ->
    0 <= Client.reconnectAttempt c
      <= Z.max 0 (Client.MaxReconnectAttempts (Client.opts c)).
Proof.
  intros options start dial listen ops c w c0 w0 Hmax Hrun.
  destruct (client_run_settled ops c0 w0) as (c' & w' & Hrun' & Hs).
  { apply client_New_settled. exact Hmax. }
  rewrite Hrun in Hrun'. injection Hrun' as <- <-.
  destruct Hs as (_ & _ & Hr & _). exact Hr.
Qed.

(** The server is lost for good: the counter ends at the maximum. *)
Lemma X9_attempt_counter_bounds_witness :
  let c0 := fst (Client.New Scenario.client_options
                   (genesis 0 Scenario.lost_after_first Scenario.reachable)) in
  let w0 := snd (Client.New Scenario.client_options
                   (genesis 0 Scenario.lost_after_first Scenario.reachable)) in
  let r := default (c0, w0)
             (Trace.client_run [Trace.CStart; Trace.CLost 0] c0 w0) in
  Trace.client_run [Trace.CStart; Trace.CLost 0] c0 w0 = Some (fst r, snd r) /\
  Client.reconnectAttempt (fst r) = 3 /\
  0 <= Client.reconnectAttempt (fst r)
    <= Z.max 0 (Client.MaxReconnectAttempts (Client.opts (fst r))).
Proof.
  cbv zeta.
  set (c0 := fst (Client.New Scenario.client_options
                    (genesis 0 Scenario.lost_after_first Scenario.reachable))).
  set (w0 := snd (Client.New Scenario.client_options
                    (genesis 0 Scenario.lost_after_first Scenario.reachable))).
  set (r := default (c0, w0)
              (Trace.client_run [Trace.CStart; Trace.CLost 0] c0 w0)).
  assert (H : Trace.client_run [Trace.CStart; Trace.CLost 0] c0 w0
              = Some (fst r, snd r)) by (vm_compute; reflexivity).
  split; [exact H|]. split; [vm_compute; reflexivity|].
  exact (X9_attempt_counter_bounds Scenario.client_options 0
           Scenario.lost_after_first Scenario.reachable
           [Trace.CStart; Trace.CLost 0] (fst r) (snd r)
           ltac:(vm_compute; discriminate) H).
Defined.




(** X13: with auto-reconnect off, the loss of the connection of a connected
    client (reached by any sequence of calls and events) changes neither
    its status, which stays Running, nor its connection field; it only
    clears the connected flag.  No event is started and no dial is made; a
    later [ProcessModel] fails with an RPC error whatever the peer would
    have answered. *)
Theorem X13_loss_without_reconnect_stays_running :
  forall options start dial listen ops c w k answer req,
    let c0 := fst (Client.New options (genesis start dial listen)) in
    let w0 := snd (Client.New options (genesis start dial listen)) in
    Client.MaxReconnectAttempts (Client.opts c0) <= int_max ->
    Trace.client_run ops c0 w0 = Some (c, w) ->
    Client.AutoReconnect (Client.opts c) = false ->
    Client.isConnected c = true ->
    Client.conn c = Some k ->
    exists c' w',
      Client.disconnect k c w = Some (c', w') /\
      Client.status c' = StatusRunning /\
      Client.isConnected c' = false /\
      Client.conn c' = Some k /\
      Client.wg c' = 0%nat /\
      notifications w' = notifications w /\
      dials w' = dials w /\
      exists err,
        Client.ProcessModel answer req c' w'
        = ((None, Some (RPCError err)), c', w').
Proof.
  intros options start dial listen ops c w k answer req c0 w0 Hmax Hrun
    Hauto Hic Hk.
  destruct (client_run_settled ops c0 w0) as (c' & w' & Hrun' & Hs).
  { apply client_New_settled. exact Hmax. }
  rewrite Hrun in Hrun'. injection Hrun' as <- <-.
  destruct Hs as (Hwg & Hmon & _).
  destruct Hmon as [[_ Hic']|(k0 & Hmon & Hck & Hopen & Hst & _)]; [congruence|].
  assert (k0 = k) as -> by congruence.
  unfold Client.disconnect, Client.wake_monitors.
  destruct (close_conn_at_set k w) as (cs & Hclose & _).
  assert (Hclosed : conn_is_closed (close_conn_at k w) k = true).
  { rewrite conn_is_closed_close. rewrite decide_True by reflexivity. reflexivity. }
  rewrite Hclose in *. cbn [monitors set_conns]. rewrite Hmon.
  rewrite !filter_cons, !filter_nil.
  rewrite decide_True by exact Hclosed.
  rewrite decide_False by (rewrite Hclosed; discriminate).
  cbn [length Client.run_monitors]. unfold Client.monitorConnection.
  cbn [Client.opts Client.set_isConnected]. rewrite Hauto. cbn [andb].
  do 2 eexists. split; [reflexivity|]. simpl.
  split_and!; try assumption; try reflexivity.
  - rewrite Hwg, Hmon. reflexivity.
  - eexists. unfold Client.ProcessModel. simpl. rewrite Hk.
    unfold conn_is_closed in *. simpl in *.
    destruct (cs !! k) as [cn|]; [rewrite Hclosed|]; reflexivity.
Qed.

Lemma X13_loss_without_reconnect_stays_running_witness :
  let options := [Client.WithAutoReconnect false] in
  let c0 := fst (Client.New options
                   (genesis 0 Scenario.reachable Scenario.reachable)) in
  let w0 := snd (Client.New options
                   (genesis 0 Scenario.reachable Scenario.reachable)) in
  let r := default (c0, w0) (Trace.client_run [Trace.CStart] c0 w0) in
  Trace.client_run [Trace.CStart] c0 w0 = Some (fst r, snd r) /\
  exists c' w',
    Client.disconnect 0 (fst r) (snd r) = Some (c', w') /\
    Client.status c' = StatusRunning /\
    Client.isConnected c' = false /\
    exists err,
      Client.ProcessModel (inl (NewModelResponse Scenario.sample_request 0))
        Scenario.sample_request c' w'
      = ((None, Some (RPCError err)), c', w').
Proof.
  cbv zeta.
  set (c0 := fst (Client.New [Client.WithAutoReconnect false]
                    (genesis 0 Scenario.reachable Scenario.reachable))).
  set (w0 := snd (Client.New [Client.WithAutoReconnect false]
                    (genesis 0 Scenario.reachable Scenario.reachable))).
  set (r := default (c0, w0) (Trace.client_run [Trace.CStart] c0 w0)).
  assert (H : Trace.client_run [Trace.CStart] c0 w0 = Some (fst r, snd r))
    by (vm_compute; reflexivity).
  split; [exact H|].
  destruct (X13_loss_without_reconnect_stays_running
              [Client.WithAutoReconnect false] 0
              Scenario.reachable Scenario.reachable [Trace.CStart]
              (fst r) (snd r) 0%nat
              (inl (NewModelResponse Scenario.sample_request 0))
              Scenario.sample_request
              ltac:(vm_compute; discriminate) H
              ltac:(vm_compute; reflexivity) ltac:(vm_compute; reflexivity)
              ltac:(vm_compute; reflexivity))
    as (c' & w' & HD & H1 & H2 & _ & _ & _ & _ & HP).
  exists c', w'. split_and!; assumption.
Defined.

(** A successful [Stop] leaves the client without connection. *)
Lemma Client_Stop_ok_conn c w c' w' :
  Client.Stop c w = Returns (None, c', w') -> Client.conn c' = None.
Proof.
  unfold Client.Stop. destruct (decide _); [discriminate|].
  rewrite Client_updateStatusLocked_spec.
  set (c1 := Client.set_status StatusStopping c).
  set (w2 := cancel _ _).
  destruct (match Client.conn c1 with
            | Some k => (Client.set_conn None c1, close_conn_at k w2)
            | None => (c1, w2)
            end) as [c2 w3] eqn:E.
  assert (Hc2 : Client.conn c2 = None /\ Client.status c2 = StatusStopping).
  { destruct (Client.conn c1) as [k|] eqn:Hk; injection E as <- <-.
    - split; reflexivity.
    - split; [exact Hk|reflexivity]. }
  destruct Hc2 as [Hconn Hst].
  unfold Client.wake_monitors.
  destruct (run_monitors_quiet
              (length (filter (fun k => conn_is_closed w3 k = true) (monitors w3)))
              (Client.set_isConnected false c2)
              (set_monitors
                 (filter (fun k => conn_is_closed w3 k = false) (monitors w3)) w3))
    as (c4 & Hrun & _ & _ & _ & _ & Hconn4 & _).
  { simpl. rewrite Hst. discriminate. }
  rewrite Hrun. destruct (decide _); [|discriminate].
  unfold Client.updateStatus. rewrite Client_updateStatusLocked_spec.
  intros [= <- <-]. simpl in *. congruence.
Qed.


(* ===================================================================== *)
(** ** The server, call by call *)
(* ===================================================================== *)

(** What [Start] does when the listener is made. *)
Lemma Server_Start_listening s w :
  Server.status s = StatusStopped ->
  listen_result w (listens w) = None ->
  exists s' w',
    Server.Start s w = (None, s', w') /\
    Server.status s' = StatusRunning /\
    Server.listeners s' = Server.listeners s ++ [length (listeners w)] /\
    Server.wg s' = S (Server.wg s) /\
    Server.handlers s' = Server.handlers s /\
    Server.callbacks s' = Server.callbacks s /\
    Server.opts s' = Server.opts s /\
    Server.ctx s' = Server.ctx s /\
    listeners w' = listeners w ++ [true] /\
    acceptors w' = acceptors w ++ [length (listeners w)] /\
    notifications w'
    = notifications w
        ++ map (fun cb => (cb, {| OldStatus := StatusStopped;
                                  NewStatus := StatusStarting;
                                  Timestamp := now w; Error := None |}))
             (Server.callbacks s)
        ++ map (fun cb => (cb, {| OldStatus := StatusStarting;
                                  NewStatus := StatusRunning;
                                  Timestamp := now w; Error := None |}))
             (Server.callbacks s) /\
    serving w' = serving w /\ conns w' = conns w /\
    ctxs w' = ctxs w /\ now w' = now w /\ delivered w' = delivered w /\
    listens w' = S (listens w).
Proof.
  intros Hst Hl. unfold Server.Start.
  destruct (decide _) as [Hne|_]; [congruence|].
  rewrite Server_updateStatusLocked_spec.
  cbn [listen_result listens set_notifications]. rewrite Hl.
  unfold Server.updateStatus. rewrite Server_updateStatusLocked_spec.
  do 2 eexists. split; [reflexivity|]. simpl. rewrite Hst, <- app_assoc.
  split_and!; reflexivity.
Qed.

(** What [Start] does when the address cannot be listened on. *)
Lemma Server_Start_listen_refused s w msg :
  Server.status s = StatusStopped ->
  listen_result w (listens w) = Some msg ->
  exists w',
    Server.Start s w
    = (Some (ConnectionError "listen on"
               (Server.Host (Server.opts s) +:+ ":"
                  +:+ itoa (Server.Port (Server.opts s)))
               (NetError msg)),
       Server.set_status StatusFailed s, w') /\
    notifications w'
    = notifications w
        ++ map (fun cb => (cb, {| OldStatus := StatusStopped;
                                  NewStatus := StatusStarting;
                                  Timestamp := now w; Error := None |}))
             (Server.callbacks s)
        ++ map (fun cb => (cb, {| OldStatus := StatusStarting;
                                  NewStatus := StatusFailed;
                                  Timestamp := now w;
                                  Error := Some (NetError msg) |}))
             (Server.callbacks s) /\
    listeners w' = listeners w /\ acceptors w' = acceptors w /\
    serving w' = serving w /\ conns w' = conns w /\
    ctxs w' = ctxs w /\ now w' = now w /\ delivered w' = delivered w /\
    listens w' = S (listens w).
Proof.
  intros Hst Hl. unfold Server.Start.
  destruct (decide _) as [Hne|_]; [congruence|].
  rewrite Server_updateStatusLocked_spec.
  cbn [listen_result listens set_notifications]. rewrite Hl.
  unfold Server.updateStatus. rewrite Server_updateStatusLocked_spec.
  eexists. split; [reflexivity|]. simpl. rewrite Hst, <- app_assoc.
  split_and!; reflexivity.
Qed.

Lemma close_listeners_set ls : forall w,
  exists lis, Server.close_listeners ls w = set_listeners lis w.
Proof.
  unfold Server.close_listeners.
  induction ls as [|l ls IH]; intros w; simpl.
  - exists (listeners w). destruct w; reflexivity.
  - destruct (IH (set_listeners (<[l := false]> (listeners w)) w)) as [lis H].
    exists lis. rewrite H. reflexivity.
Qed.

(** Closing the listeners of a list closes each of them and no other. *)
Lemma close_listeners_open ls : forall w l,
  listener_is_open (Server.close_listeners ls w) l
  = if decide (l ∈ ls) then false else listener_is_open w l.
Proof.
  unfold Server.close_listeners.
  induction ls as [|a ls IH]; intros w l; simpl.
  - destruct (decide (l ∈ [])) as [H|_]; [inversion H|reflexivity].
  - rewrite IH. destruct (decide (l ∈ ls)) as [Hin|Hnin].
    + rewrite decide_True by (apply elem_of_cons; right; exact Hin). reflexivity.
    + unfold listener_is_open. cbn [listeners set_listeners].
      destruct (decide (a = l)) as [->|Hne].
      * rewrite decide_True by (apply elem_of_cons; left; reflexivity).
        destruct (listeners w !! l) eqn:E.
        -- rewrite list_lookup_insert_eq by (eapply lookup_lt_Some; exact E).
           reflexivity.
        -- rewrite list_insert_ge by (apply lookup_ge_None; exact E).
           rewrite E. reflexivity.
      * rewrite decide_False
          by (intros H; apply elem_of_cons in H as [?|?]; [congruence|contradiction]).
        rewrite list_lookup_insert_ne by exact Hne. reflexivity.
Qed.

Lemma filter_split_length {A} (f : A -> bool) (l : list A) :
  (length (filter (fun x => f x = true) l)
   + length (filter (fun x => f x = false) l))%nat = length l.
Proof.
  induction l as [|x l IH]; [reflexivity|].
  rewrite !filter_cons. destruct (f x) eqn:E.
  - rewrite decide_True by reflexivity. rewrite decide_False by discriminate.
    simpl. lia.
  - rewrite decide_False by discriminate. rewrite decide_True by reflexivity.
    simpl. lia.
Qed.

Lemma filter_all_true {A} (f : A -> bool) (l : list A) :
  (forall x, x ∈ l -> f x = true) ->
  filter (fun x => f x = true) l = l /\ filter (fun x => f x = false) l = [].
Proof.
  induction l as [|x l IH]; intros H; [split; reflexivity|].
  rewrite !filter_cons.
  rewrite decide_True by (apply H, elem_of_cons; left; reflexivity).
  rewrite decide_False
    by (rewrite (H x) by (apply elem_of_cons; left; reflexivity); discriminate).
  destruct IH as [H1 H2].
  { intros y Hy. apply H, elem_of_cons. right. exact Hy. }
  rewrite H1, H2. split; reflexivity.
Qed.

Lemma lifecycle_edge_cases :
  Trace.lifecycle_edge StatusStopped StatusStarting = true /\
  Trace.lifecycle_edge StatusStarting StatusRunning = true /\
  Trace.lifecycle_edge StatusStarting StatusFailed = true /\
  Trace.lifecycle_edge StatusRunning StatusStopping = true /\
  Trace.lifecycle_edge StatusStopping StatusStopped = true /\
  Trace.lifecycle_edge StatusRunning StatusFailed = false.
Proof. repeat split. Qed.

(** A transition along an edge keeps a settled server settled. *)
Lemma settled_server_updateStatus st err s w :
  Trace.server_settled s w ->
  Trace.lifecycle_edge (Server.status s) st = true ->
  Trace.server_settled (fst (Server.updateStatusLocked st err s w))
    (snd (Server.updateStatusLocked st err s w)).
Proof.
  intros (Hwg & Hacc & Hserv & Hctx & Hev) Hedge.
  rewrite Server_updateStatusLocked_spec. unfold Trace.server_settled. simpl.
  split_and!; try assumption.
  apply Forall_insert_mid; [exact Hev|].
  apply Forall_event_copies. exact Hedge.
Qed.

(** The goroutines that can end do so, and the wait group follows. *)
Lemma settled_server_reap s w :
  Server.wg s = (length (acceptors w) + length (serving w))%nat ->
  (forall l, l ∈ acceptors w -> l ∈ Server.listeners s) ->
  (Server.ctx s < length (ctxs w))%nat ->
  Forall (Trace.event_on Trace.lifecycle_edge) (notifications w ++ delivered w) ->
  Trace.server_settled (fst (Server.reap s w)) (snd (Server.reap s w)).
Proof.
  intros Hwg Hacc Hctx Hev. unfold Server.reap, Trace.server_settled. simpl.
  pose proof (filter_split_length
                (fun l => Server.acceptor_ends w (Server.ctx s) l) (acceptors w))
    as Ha.
  pose proof (filter_split_length (fun k => conn_is_closed w k) (serving w)) as Hh.
  cbv beta in Ha, Hh. split_and!; try assumption.
  - lia.
  - intros l Hl. apply list_elem_of_filter in Hl as [_ Hl]. apply Hacc, Hl.
  - intros k Hk. apply list_elem_of_filter in Hk as [Hk _]. exact Hk.
Qed.

(** [Stop] on a settled Running server: if it returns, the server is
    settled; and it does return when no connection is being served. *)
Lemma settled_server_Stop s w :
  Trace.server_settled s w ->
  Server.status s = StatusRunning ->
  (forall e s' w',
      Server.Stop s w = Returns (e, s', w') -> Trace.server_settled s' w') /\
  (serving w = [] ->
   exists s' w',
     Server.Stop s w = Returns (None, s', w') /\
     Server.status s' = StatusStopped /\
     Server.wg s' = 0%nat /\
     acceptors w' = [] /\
     serving w' = [] /\
     ctx_done w' (Server.ctx s') = true /\
     Server.listeners s' = Server.listeners s /\
     (forall l, l ∈ Server.listeners s -> listener_is_open w' l = false) /\
     Server.handlers s' = Server.handlers s /\
     notifications w'
     = notifications w
         ++ map (fun cb => (cb, {| OldStatus := StatusRunning;
                                   NewStatus := StatusStopping;
                                   Timestamp := now w; Error := None |}))
              (Server.callbacks s)
         ++ map (fun cb => (cb, {| OldStatus := StatusStopping;
                                   NewStatus := StatusStopped;
                                   Timestamp := now w; Error := None |}))
              (Server.callbacks s)).
Proof.
  intros Hs Hrun.
  pose proof (settled_server_updateStatus StatusStopping None s w Hs) as Hs1.
  rewrite Hrun in Hs1. specialize (Hs1 eq_refl).
  unfold Server.Stop. destruct (decide _) as [Hne|_]; [congruence|].
  rewrite Server_updateStatusLocked_spec in *. cbn [fst snd] in Hs1.
  rewrite Hrun in *.
  set (s1 := Server.set_status StatusStopping s) in *.
  set (w1 := set_notifications _ w) in *.
  destruct Hs1 as (Hwg & Hacc & Hserv & Hctx & Hev).
  assert (Hdone : ctx_done (cancel (Server.ctx s1) w1) (Server.ctx s1) = true)
    by (apply cancel_done; exact Hctx).
  destruct (cancel_set (Server.ctx s1) w1) as (cx & Hcancel & Hlen).
  rewrite Hcancel in *. set (w2 := set_ctxs cx w1) in *.
  pose proof (close_listeners_open (Server.listeners s1) w2) as Hopen.
  destruct (close_listeners_ctxs (Server.listeners s1) w2) as [Hcx Hnow].
  destruct (close_listeners_set (Server.listeners s1) w2) as (lis & Hclose).
  rewrite Hclose in *. set (w3 := set_listeners lis w2) in *.
  assert (Hs3 : Trace.server_settled (fst (Server.reap s1 w3))
                  (snd (Server.reap s1 w3))).
  { apply settled_server_reap; unfold w3, w2; simpl; try assumption.
    rewrite Hlen. exact Hctx. }
  split.
  - intros e s' w'. destruct (Server.reap s1 w3) as [s2 w4] eqn:Hreap.
    destruct (decide _); [|discriminate].
    pose proof (settled_server_updateStatus StatusStopped None s2 w4 Hs3) as Hs4.
    assert (Hst2 : Server.status s2 = StatusStopping).
    { unfold Server.reap in Hreap. injection Hreap as <- _. reflexivity. }
    rewrite Hst2 in Hs4. specialize (Hs4 eq_refl).
    unfold Server.updateStatus.
    destruct (Server.updateStatusLocked _ _ s2 w4) as [s3 w5].
    intros [= _ <- <-]. exact Hs4.
  - intros Hnone. unfold Server.reap.
    assert (Hserv3 : serving w3 = []) by exact Hnone.
    destruct (filter_all_true (fun l => Server.acceptor_ends w3 (Server.ctx s1) l)
                (acceptors w3)) as [Hall Hnil].
    { intros l Hl. unfold Server.acceptor_ends. rewrite Hopen.
      rewrite decide_True by (apply Hacc; exact Hl).
      simpl. rewrite <- Hdone. apply ctx_done_ext; assumption. }
    rewrite Hall, Hnil, Hserv3, !filter_nil. cbn [length].
    cbn [Server.wg Server.set_wg].
    assert (Hwg3 : Server.wg s1 = length (acceptors w3)).
    { transitivity (length (acceptors w1) + length (serving w))%nat;
        [exact Hwg|].
      rewrite Hnone. change (acceptors w3) with (acceptors w1). simpl. lia. }
    destruct (decide _) as [_|Hne]; [|exfalso; apply Hne; lia].
    unfold Server.updateStatus. rewrite Server_updateStatusLocked_spec.
    do 2 eexists. split; [reflexivity|]. simpl. rewrite <- app_assoc.
    split_and!; try reflexivity.
    + change (Server.wg s = length (acceptors w)) in Hwg3. lia.
    + rewrite <- Hdone. apply ctx_done_ext; assumption.
    + intros l Hl. specialize (Hopen l).
      rewrite decide_True in Hopen by exact Hl. exact Hopen.
Qed.

(** [Start] keeps a settled server settled. *)
Lemma settled_server_Start s w :
  Trace.server_settled s w ->
  Trace.server_settled (snd (fst (Server.Start s w))) (snd (Server.Start s w)).
Proof.
  intros Hs. destruct (decide (Server.status s = StatusStopped)) as [Hst|Hst].
  2:{ rewrite Server_Start_refused by exact Hst. exact Hs. }
  destruct Hs as (Hwg & Hacc & Hserv & Hctx & Hev).
  destruct (listen_result w (listens w)) as [msg|] eqn:Hl.
  - destruct (Server_Start_listen_refused s w msg Hst Hl)
      as (w' & HS & Hn & _ & Ha & Hsv & Hc & Hx & _ & Hdel & _).
    rewrite HS. cbn [fst snd]. unfold Trace.server_settled, conn_is_closed.
    cbn [Server.wg Server.set_status Server.listeners Server.ctx].
    rewrite Ha, Hsv, Hc, Hx, Hn, Hdel. split_and!; try assumption.
    rewrite app_assoc.
    apply Forall_insert_mid; [|apply Forall_event_copies; reflexivity].
    apply Forall_insert_mid; [exact Hev|apply Forall_event_copies; reflexivity].
  - destruct (Server_Start_listening s w Hst Hl)
      as (s' & w' & HS & _ & Hli & Hw & _ & _ & _ & Hcx & _ & Ha & Hn & Hsv
          & Hc & Hx & _ & Hdel & _).
    rewrite HS. cbn [fst snd]. unfold Trace.server_settled, conn_is_closed.
    rewrite Hw, Hli, Hcx, Ha, Hsv, Hc, Hx, Hn, Hdel.
    split_and!; try assumption.
    + rewrite length_app. simpl. lia.
    + intros l Hin. apply elem_of_app in Hin as [Hin|Hin].
      * apply elem_of_app. left. apply Hacc, Hin.
      * apply elem_of_app. right.
        apply list_elem_of_singleton in Hin. subst l.
        apply list_elem_of_singleton. reflexivity.
    + rewrite app_assoc.
      apply Forall_insert_mid; [|apply Forall_event_copies; reflexivity].
      apply Forall_insert_mid; [exact Hev|apply Forall_event_copies; reflexivity].
Qed.

(** An accepted connection keeps a settled server settled. *)
Lemma settled_server_accept l s w :
  Trace.server_settled s w ->
  Trace.server_settled (fst (Server.accept l s w)) (snd (Server.accept l s w)).
Proof.
  intros Hs. unfold Server.accept.
  destruct (listener_is_open w l && bool_decide (l ∈ acceptors w));
    [|exact Hs].
  destruct Hs as (Hwg & Hacc & Hserv & Hctx & Hev).
  unfold Trace.server_settled, conn_is_closed. simpl.
  split_and!; try assumption.
  - rewrite Hwg, length_app. simpl. lia.
  - intros k Hin. apply elem_of_app in Hin as [Hin|Hin].
    + specialize (Hserv k Hin). unfold conn_is_closed in Hserv.
      destruct (conns w !! k) as [c|] eqn:E; [|discriminate].
      rewrite lookup_app_l by (eapply lookup_lt_Some; exact E).
      rewrite E. exact Hserv.
    + apply list_elem_of_singleton in Hin. subst k.
      rewrite list_lookup_middle by reflexivity. reflexivity.
Qed.

(** The loss of a connection keeps a settled server settled. *)
Lemma settled_server_disconnect k s w :
  Trace.server_settled s w ->
  Trace.server_settled (fst (Server.disconnect k s w))
    (snd (Server.disconnect k s w)).
Proof.
  intros (Hwg & Hacc & Hserv & Hctx & Hev). unfold Server.disconnect.
  destruct (close_conn_at_set k w) as (cs & Hclose & _).
  apply settled_server_reap; rewrite Hclose; simpl; assumption.
Qed.

(** Every step on a settled server that returns leaves it settled. *)
Lemma server_step_settled op s w s' w' :
  Trace.server_settled s w ->
  Trace.server_step op s w = Some (s', w') ->
  Trace.server_settled s' w'.
Proof.
  intros Hs. destruct op as [| |handler|cb|l|k|i]; simpl.
  - pose proof (settled_server_Start s w Hs) as H.
    destruct (Server.Start s w) as [[e s1] w1]. intros [= <- <-]. exact H.
  - destruct (decide (Server.status s = StatusRunning)) as [Hrun|Hrun].
    + destruct (settled_server_Stop s w Hs Hrun) as [H _].
      destruct (Server.Stop s w) as [[[e s1] w1]| |] eqn:E; try discriminate.
      intros [= <- <-]. apply (H e). reflexivity.
    + rewrite Server_Stop_refused by exact Hrun. intros [= <- <-]. exact Hs.
  - intros [= <- <-]. unfold Server.RegisterHandler.
    destruct (Server.register_methods _ _ _) as [err hs]. exact Hs.
  - intros [= <- <-]. exact Hs.
  - pose proof (settled_server_accept l s w Hs) as H.
    destruct (Server.accept l s w) as [s1 w1]. intros [= <- <-]. exact H.
  - pose proof (settled_server_disconnect k s w Hs) as H.
    destruct (Server.disconnect k s w) as [s1 w1]. intros [= <- <-]. exact H.
  - intros [= <- <-].
    destruct Hs as (Hwg & Hacc & Hserv & Hctx & Hev).
    assert (Hd : exists n d, deliver i w = set_delivered d (set_notifications n w)).
    { unfold deliver. destruct (notifications w !! i).
      - eauto.
      - exists (notifications w), (delivered w). destruct w; reflexivity. }
    pose proof (deliver_keeps_events _ i w Hev) as Hev'.
    destruct Hd as (n & d & Hd). rewrite Hd in *.
    unfold Trace.server_settled, conn_is_closed in *. simpl in *.
    split_and!; assumption.
Qed.

Lemma server_run_settled ops : forall s w s' w',
  Trace.server_settled s w ->
  Trace.server_run ops s w = Some (s', w') ->
  Trace.server_settled s' w'.
Proof.
  induction ops as [|op ops IH]; intros s w s' w' Hs; simpl.
  - intros [= <- <-]. exact Hs.
  - destruct (Trace.server_step op s w) as [[s1 w1]|] eqn:Hstep; [|discriminate].
    apply IH. eapply server_step_settled; eassumption.
Qed.

(** A server built in a world where nothing has happened is settled. *)
Lemma server_New_settled options start dial listen :
  Trace.server_settled
    (fst (Server.New options (genesis start dial listen)))
    (snd (Server.New options (genesis start dial listen))).
Proof.
  unfold Server.New, Trace.server_settled. simpl.
  split_and!; try reflexivity; try lia.
  - intros l H. inversion H.
  - intros k H. inversion H.
  - constructor.
Qed.

(** X15: [Start] on a Stopped server.  If the listener is made, it returns
    nil, the server is Running, the new listener is open and is added to
    the server's listeners, and one accept loop is started on it.  If it is
    not, the server is Failed, no listener and no goroutine is added, and
    the error returned wraps the network error with the address, while the
    Failed event given to the callbacks carries the network error itself,
    not the error that is returned. *)
Theorem X15_server_start_outcomes :
  forall s w,
    Server.status s = StatusStopped ->
    match listen_result w (listens w) with
    | None =>
        exists s' w',
          Server.Start s w = (None, s', w') /\
          Server.status s' = StatusRunning /\
          Server.listeners s' = Server.listeners s ++ [length (listeners w)] /\
          listener_is_open w' (length (listeners w)) = true /\
          acceptors w' = acceptors w ++ [length (listeners w)] /\
          Server.wg s' = S (Server.wg s) /\
          notifications w'
          = notifications w
              ++ map (fun cb => (cb, {| OldStatus := StatusStopped;
                                        NewStatus := StatusStarting;
                                        Timestamp := now w; Error := None |}))
                   (Server.callbacks s)
              ++ map (fun cb => (cb, {| OldStatus := StatusStarting;
                                        NewStatus := StatusRunning;
                                        Timestamp := now w; Error := None |}))
                   (Server.callbacks s)
    | Some msg =>
        exists err s' w',
          Server.Start s w = (Some err, s', w') /\
          Error_msg err
          = "failed to listen on " +:+ Server.Host (Server.opts s) +:+ ":"
              +:+ itoa (Server.Port (Server.opts s)) +:+ ": " +:+ msg /\
          Server.status s' = StatusFailed /\
          Server.listeners s' = Server.listeners s /\
          Server.wg s' = Server.wg s /\
          listeners w' = listeners w /\
          acceptors w' = acceptors w /\
          notifications w'
          = notifications w
              ++ map (fun cb => (cb, {| OldStatus := StatusStopped;
                                        NewStatus := StatusStarting;
                                        Timestamp := now w; Error := None |}))
                   (Server.callbacks s)
              ++ map (fun cb => (cb, {| OldStatus := StatusStarting;
                                        NewStatus := StatusFailed;
                                        Timestamp := now w;
                                        Error := Some (NetError msg) |}))
                   (Server.callbacks s)
    end.
Proof.
  intros s w Hst. destruct (listen_result w (listens w)) as [msg|] eqn:Hl.
  - destruct (Server_Start_listen_refused s w msg Hst Hl)
      as (w' & HS & Hn & Hli & Ha & _).
    eexists _, _, w'. split; [exact HS|].
    split_and!; try reflexivity; try assumption.
    cbn [Error_msg]. rewrite !string_app_assoc. reflexivity.
  - destruct (Server_Start_listening s w Hst Hl)
      as (s' & w' & HS & H1 & H2 & H3 & _ & _ & _ & _ & Hli & Ha & Hn & _).
    exists s', w'. split_and!; try assumption.
    unfold listener_is_open. rewrite Hli.
    rewrite list_lookup_middle by reflexivity. reflexivity.
Qed.

(** The address is in use. *)
Lemma X15_server_start_outcomes_witness :
  let s := fst (Server.New [Server.WithPort 8080]
                  (genesis 0 Scenario.reachable Scenario.unreachable)) in
  let w := snd (Server.New [Server.WithPort 8080]
                  (genesis 0 Scenario.reachable Scenario.unreachable)) in
  exists err s' w',
    Server.Start s w = (Some err, s', w') /\
    Error_msg err = "failed to listen on 127.0.0.1:8080: connection refused" /\
    Server.status s' = StatusFailed /\
    acceptors w' = [].
Proof.
  cbv zeta.
  pose proof (X15_server_start_outcomes
                (fst (Server.New [Server.WithPort 8080]
                        (genesis 0 Scenario.reachable Scenario.unreachable)))
                (snd (Server.New [Server.WithPort 8080]
                        (genesis 0 Scenario.reachable Scenario.unreachable)))
                eq_refl) as H.
  change (listen_result _ _) with (Some "connection refused") in H.
  destruct H as (err & s' & w' & HS & He & Hst & _ & _ & _ & Ha & _).
  exists err, s', w'. split; [exact HS|]. split; [rewrite He; reflexivity|].
  split; [exact Hst|]. rewrite Ha. reflexivity.
Defined.

(** What is known when [Stop] on a Running server returns. *)
Lemma Server_Stop_returns s w e s' w' :
  Server.status s = StatusRunning ->
  Server.Stop s w = Returns (e, s', w') ->
  e = None /\
  Server.status s' = StatusStopped /\
  Server.wg s' = 0%nat /\
  Server.listeners s' = Server.listeners s /\
  Server.handlers s' = Server.handlers s /\
  (forall l, l ∈ Server.listeners s -> listener_is_open w' l = false) /\
  listens w' = listens w.
Proof.
  intros Hrun. unfold Server.Stop.
  destruct (decide _) as [Hne|_]; [congruence|].
  rewrite Server_updateStatusLocked_spec.
  set (s1 := Server.set_status StatusStopping s).
  set (w1 := set_notifications _ w).
  destruct (cancel_set (Server.ctx s1) w1) as (cx & Hcancel & _).
  rewrite Hcancel.
  pose proof (close_listeners_open (Server.listeners s1) (set_ctxs cx w1))
    as Hopen.
  destruct (close_listeners_set (Server.listeners s1) (set_ctxs cx w1))
    as (lis & Hclose).
  rewrite Hclose in *. unfold Server.reap.
  destruct (decide _) as [Hz|_]; [|discriminate].
  unfold Server.updateStatus. rewrite Server_updateStatusLocked_spec.
  intros [= <- <- <-]. split_and!; try reflexivity.
  - exact Hz.
  - intros l Hl. specialize (Hopen l).
    rewrite decide_True in Hopen by exact Hl. exact Hopen.
Qed.

(** X16: on a server built by [New], after any sequence of calls,
    accepted connections, lost connections and deliveries, [Stop] on the
    Running server returns nil as soon as no connection is being served.
    The server is then Stopped, its context is cancelled, every listener it
    ever made is closed, and no accept loop or connection goroutine is
    left; each callback gets the events Running to Stopping and Stopping
    to Stopped; the registered handlers stay. *)
Theorem X16_server_stop_without_connections :
  forall options start dial listen ops s w,
    let s0 := fst (Server.New options (genesis start dial listen)) in
    let w0 := snd (Server.New options (genesis start dial listen)) in
    Trace.server_run ops s0 w0 = Some (s, w) ->
    Server.status s = StatusRunning ->
    serving w = [] ->
    exists s' w',
      Server.Stop s w = Returns (None, s', w') /\
      Server.status s' = StatusStopped /\
      Server.wg s' = 0%nat /\
      acceptors w' = [] /\
      serving w' = [] /\
      ctx_done w' (Server.ctx s') = true /\
      (forall l, l ∈ Server.listeners s -> listener_is_open w' l = false) /\
      Server.handlers s' = Server.handlers s /\
      notifications w'
      = notifications w
          ++ map (fun cb => (cb, {| OldStatus := StatusRunning;
                                    NewStatus := StatusStopping;
                                    Timestamp := now w; Error := None |}))
               (Server.callbacks s)
          ++ map (fun cb => (cb, {| OldStatus := StatusStopping;
                                    NewStatus := StatusStopped;
                                    Timestamp := now w; Error := None |}))
               (Server.callbacks s).
Proof.
  intros options start dial listen ops s w s0 w0 Hrun Hst Hnone.
  assert (Hs : Trace.server_settled s w).
  { eapply server_run_settled; [|exact Hrun]. apply server_New_settled. }
  destruct (settled_server_Stop s w Hs Hst) as [_ H].
  destruct (H Hnone)
    as (s' & w' & HS & H1 & H2 & H3 & H4 & H5 & _ & H7 & H8 & H9).
  exists s', w'. split_and!; assumption.
Qed.

(** TestServerLifecycle with a client that came and went. *)
Lemma X16_server_stop_without_connections_witness :
  let s0 := fst (Server.New [] (genesis 0 Scenario.reachable Scenario.reachable)) in
  let w0 := snd (Server.New [] (genesis 0 Scenario.reachable Scenario.reachable)) in
  let ops := [Trace.SObserve Scenario.observer; Trace.SStart;
              Trace.SAccept 0; Trace.SLost 0] in
  let r := default (s0, w0) (Trace.server_run ops s0 w0) in
  Trace.server_run ops s0 w0 = Some (fst r, snd r) /\
  exists s' w',
    Server.Stop (fst r) (snd r) = Returns (None, s', w') /\
    Server.status s' = StatusStopped /\
    listener_is_open w' 0 = false.
Proof.
  cbv zeta.
  set (s0 := fst (Server.New [] (genesis 0 Scenario.reachable Scenario.reachable))).
  set (w0 := snd (Server.New [] (genesis 0 Scenario.reachable Scenario.reachable))).
  set (ops := [Trace.SObserve Scenario.observer; Trace.SStart;
               Trace.SAccept 0; Trace.SLost 0]).
  set (r := default (s0, w0) (Trace.server_run ops s0 w0)).
  assert (H : Trace.server_run ops s0 w0 = Some (fst r, snd r))
    by (vm_compute; reflexivity).
  split; [exact H|].
  destruct (X16_server_stop_without_connections []
              0 Scenario.reachable Scenario.reachable ops (fst r) (snd r) H
              ltac:(vm_compute; reflexivity) ltac:(vm_compute; reflexivity))
    as (s' & w' & HS & H1 & _ & _ & _ & _ & H6 & _).
  exists s', w'. split; [exact HS|]. split; [exact H1|].
  apply H6. vm_compute. apply list_elem_of_here.
Defined.

(** X17: the server never compares the number of connections it serves
    with MaxConcurrentClients.  On an open listener with its accept loop,
    any number of connections is accepted one after the other, whatever the
    options say: each gets a goroutine in the wait group and an open
    connection under the server's context. *)
Theorem X17_connection_limit_not_enforced :
  forall n s w l,
    listener_is_open w l = true ->
    l ∈ acceptors w ->
    exists s' w',
      Trace.server_run (replicate n (Trace.SAccept l)) s w = Some (s', w') /\
      serving w' = serving w ++ seq (length (conns w)) n /\
      conns w'
      = conns w ++ replicate n {| conn_ctx := Server.ctx s;
                                  conn_closed := false; conn_sent := [] |} /\
      Server.wg s' = (Server.wg s + n)%nat /\
      Server.status s' = Server.status s /\
      Server.opts s' = Server.opts s.
Proof.
  induction n as [|n IH]; intros s w l Hopen Hacc.
  - exists s, w. simpl. rewrite !app_nil_r. split_and!; try reflexivity. lia.
  - cbn [replicate Trace.server_run Trace.server_step]. unfold Server.accept.
    rewrite Hopen, bool_decide_eq_true_2 by exact Hacc. cbn [andb].
    set (s1 := Server.set_wg _ s). set (w1 := set_serving _ _).
    destruct (IH s1 w1 l Hopen Hacc) as (s' & w' & Hrun & H1 & H2 & H3 & H4 & H5).
    exists s', w'. split; [exact Hrun|].
    rewrite H1, H2, H3, H4, H5. unfold s1, w1. simpl.
    rewrite length_app. simpl. rewrite <- !app_assoc. simpl.
    rewrite Nat.add_1_r. split_and!; try reflexivity. lia.
Qed.

(** Three connections on a server limited to one. *)
Lemma X17_connection_limit_not_enforced_witness :
  let s0 := fst (Server.New [Server.WithMaxConcurrentClients 1]
                   (genesis 0 Scenario.reachable Scenario.reachable)) in
  let w0 := snd (Server.New [Server.WithMaxConcurrentClients 1]
                   (genesis 0 Scenario.reachable Scenario.reachable)) in
  let s := snd (fst (Server.Start s0 w0)) in
  let w := snd (Server.Start s0 w0) in
  Server.MaxConcurrentClients (Server.opts s) = 1 /\
  exists s' w',
    Trace.server_run (replicate 3 (Trace.SAccept 0)) s w = Some (s', w') /\
    serving w' = [0; 1; 2]%nat /\
    Server.wg s' = 4%nat.
Proof.
  cbv zeta. split; [reflexivity|].
  destruct (X17_connection_limit_not_enforced 3
              (snd (fst (Server.Start
                 (fst (Server.New [Server.WithMaxConcurrentClients 1]
                         (genesis 0 Scenario.reachable Scenario.reachable)))
                 (snd (Server.New [Server.WithMaxConcurrentClients 1]
                         (genesis 0 Scenario.reachable Scenario.reachable))))))
              (snd (Server.Start
                 (fst (Server.New [Server.WithMaxConcurrentClients 1]
                         (genesis 0 Scenario.reachable Scenario.reachable)))
                 (snd (Server.New [Server.WithMaxConcurrentClients 1]
                         (genesis 0 Scenario.reachable Scenario.reachable)))))
              0%nat ltac:(vm_compute; reflexivity)
              ltac:(vm_compute; apply list_elem_of_here))
    as (s' & w' & H & H1 & _ & H3 & _).
  exists s', w'. split; [exact H|]. split; [exact H1|exact H3].
Defined.

(** X18: on a server built by [New], after any sequence of calls and
    events that return, every status-change event ever started follows an
    edge of the lifecycle: Stopped to Starting, Starting to Running or
    Failed, Running to Stopping, Stopping to Stopped.  Unlike the client,
    the server never goes from Running to Failed. *)
Theorem X18_server_events_follow_state_machine :
  forall options start dial listen ops s w,
    let s0 := fst (Server.New options (genesis start dial listen)) in
    let w0 := snd (Server.New options (genesis start dial listen)) in
    Trace.server_run ops s0 w0 = Some (s, w) ->
    forall cb event,
      (cb, event) ∈ notifications w ++ delivered w ->
      Trace.lifecycle_edge (OldStatus event) (NewStatus event) = true /\
      (OldStatus event = StatusRunning -> NewStatus event = StatusStopping).
Proof.
  intros options start dial listen ops s w s0 w0 Hrun cb event Hin.
  assert (Hs : Trace.server_settled s w).
  { eapply server_run_settled; [|exact Hrun]. apply server_New_settled. }
  destruct Hs as (_ & _ & _ & _ & Hev).
  rewrite Forall_forall in Hev. specialize (Hev (cb, event) Hin).
  unfold Trace.event_on in Hev. cbn [snd] in Hev. split; [exact Hev|].
  intros Hold. rewrite Hold in Hev.
  destruct (NewStatus event); try discriminate. reflexivity.
Qed.

Lemma X18_server_events_follow_state_machine_witness :
  let s0 := fst (Server.New [] (genesis 0 Scenario.reachable Scenario.reachable)) in
  let w0 := snd (Server.New [] (genesis 0 Scenario.reachable Scenario.reachable)) in
  let r := default (s0, w0) (Trace.server_run Trace.server_session s0 w0) in
  Trace.server_run Trace.server_session s0 w0 = Some (fst r, snd r) /\
  length (notifications (snd r) ++ delivered (snd r)) = 6%nat /\
  forall cb event,
    (cb, event) ∈ notifications (snd r) ++ delivered (snd r) ->
    Trace.lifecycle_edge (OldStatus event) (NewStatus event) = true.
Proof.
  cbv zeta.
  set (s0 := fst (Server.New [] (genesis 0 Scenario.reachable Scenario.reachable))).
  set (w0 := snd (Server.New [] (genesis 0 Scenario.reachable Scenario.reachable))).
  set (r := default (s0, w0) (Trace.server_run Trace.server_session s0 w0)).
  assert (H : Trace.server_run Trace.server_session s0 w0 = Some (fst r, snd r))
    by (vm_compute; reflexivity).
  split; [exact H|]. split; [vm_compute; reflexivity|].
  intros cb event Hin.
  exact (proj1 (X18_server_events_follow_state_machine [] 0
                  Scenario.reachable Scenario.reachable Trace.server_session
                  (fst r) (snd r) H cb event Hin)).
Defined.

(** A server is either Running, or Stopped or Failed with no goroutine and
    no open listener; one step keeps it so. *)
Lemma server_idle_step op s w s' w' :
  Trace.server_settled s w ->
  (Server.status s = StatusRunning \/
   ((Server.status s = StatusStopped \/ Server.status s = StatusFailed) /\
    acceptors w = [] /\ serving w = [] /\
    forall l, l ∈ Server.listeners s -> listener_is_open w l = false)) ->
  Trace.server_step op s w = Some (s', w') ->
  Server.status s' = StatusRunning \/
  ((Server.status s' = StatusStopped \/ Server.status s' = StatusFailed) /\
   acceptors w' = [] /\ serving w' = [] /\
   forall l, l ∈ Server.listeners s' -> listener_is_open w' l = false).
Proof.
  intros Hs Hi. destruct op as [| |handler|cb|l|k|i]; simpl.
  - destruct (decide (Server.status s = StatusStopped)) as [Hst|Hst].
    2:{ rewrite Server_Start_refused by exact Hst. intros [= <- <-]. exact Hi. }
    destruct Hi as [Hrun|(_ & Ha & Hsv & Hli)]; [congruence|].
    destruct (listen_result w (listens w)) as [msg|] eqn:Hl.
    + destruct (Server_Start_listen_refused s w msg Hst Hl)
        as (w1 & HS & _ & Hli1 & Ha1 & Hsv1 & _).
      rewrite HS. intros [= <- <-]. right.
      unfold listener_is_open. rewrite Ha1, Hsv1, Hli1.
      split_and!; try assumption. right. reflexivity.
    + destruct (Server_Start_listening s w Hst Hl) as (s1 & w1 & HS & H1 & _).
      rewrite HS. intros [= <- <-]. left. exact H1.
  - destruct (decide (Server.status s = StatusRunning)) as [Hrun|Hrun].
    + destruct (settled_server_Stop s w Hs Hrun) as [H _].
      destruct (Server.Stop s w) as [[[e s1] w1]| |] eqn:E; try discriminate.
      intros [= <- <-]. specialize (H e s1 w1 eq_refl).
      destruct (Server_Stop_returns s w e s1 w1 Hrun E)
        as (_ & Hst & Hwg & Hli & _ & Hclosed & _).
      destruct H as (Hwg1 & _). rewrite Hwg in Hwg1.
      right. rewrite Hli.
      split_and!; try assumption.
      * left. exact Hst.
      * destruct (acceptors w1); [reflexivity|simpl in Hwg1; lia].
      * destruct (serving w1); [reflexivity|].
        rewrite length_cons in Hwg1. lia.
    + rewrite Server_Stop_refused by exact Hrun. intros [= <- <-]. exact Hi.
  - intros [= <- <-]. unfold Server.RegisterHandler.
    destruct (Server.register_methods _ _ _) as [err hs]. exact Hi.
  - intros [= <- <-]. exact Hi.
  - unfold Server.accept.
    destruct Hi as [Hrun|(Hst & Ha & Hsv & Hli)].
    + destruct (_ && _); intros [= <- <-]; left; exact Hrun.
    + rewrite Ha, bool_decide_eq_false_2 by (intros H; inversion H).
      rewrite andb_false_r. intros [= <- <-]. right.
      split_and!; assumption.
  - unfold Server.disconnect, Server.reap. intros [= <- <-].
    destruct Hi as [Hrun|(Hst & Ha & Hsv & Hli)]; [left; exact Hrun|].
    right. destruct (close_conn_at_set k w) as (cs & Hclose & _).
    rewrite Hclose. simpl. rewrite Ha, Hsv, !filter_nil.
    split_and!; try assumption; reflexivity.
  - intros [= <- <-].
    assert (Hd : exists n d, deliver i w = set_delivered d (set_notifications n w)).
    { unfold deliver. destruct (notifications w !! i).
      - eauto.
      - exists (notifications w), (delivered w). destruct w; reflexivity. }
    destruct Hd as (n & d & Hd). rewrite Hd. exact Hi.
Qed.

Lemma server_idle_run ops : forall s w s' w',
  Trace.server_settled s w ->
  (Server.status s = StatusRunning \/
   ((Server.status s = StatusStopped \/ Server.status s = StatusFailed) /\
    acceptors w = [] /\ serving w = [] /\
    forall l, l ∈ Server.listeners s -> listener_is_open w l = false)) ->
  Trace.server_run ops s w = Some (s', w') ->
  Trace.server_settled s' w' /\
  (Server.status s' = StatusRunning \/
   ((Server.status s' = StatusStopped \/ Server.status s' = StatusFailed) /\
    acceptors w' = [] /\ serving w' = [] /\
    forall l, l ∈ Server.listeners s' -> listener_is_open w' l = false)).
Proof.
  induction ops as [|op ops IH]; intros s w s' w' Hs Hi; simpl.
  - intros [= <- <-]. split; assumption.
  - destruct (Trace.server_step op s w) as [[s1 w1]|] eqn:Hstep; [|discriminate].
    apply IH.
    + eapply server_step_settled; eassumption.
    + eapply server_idle_step; eassumption.
Qed.

(** X19: on a server built by [New], between two calls the status is
    Stopped, Running or Failed; and whenever it is not Running, the wait
    group is empty, there is no accept loop and no connection goroutine,
    every listener the server ever made is closed, and no connection is
    accepted. *)
Theorem X19_server_not_running_is_idle :
  forall options start dial listen ops s w,
    let s0 := fst (Server.New options (genesis start dial listen)) in
    let w0 := snd (Server.New options (genesis start dial listen)) in
    Trace.server_run ops s0 w0 = Some (s, w) ->
    (Server.status s = StatusStopped \/ Server.status s = StatusRunning \/
     Server.status s = StatusFailed) /\
    (Server.status s <> StatusRunning ->
     Server.wg s = 0%nat /\ acceptors w = [] /\ serving w = [] /\
     (forall l, l ∈ Server.listeners s -> listener_is_open w l = false) /\
     (forall l, Server.accept l s w = (s, w))).
Proof.
  intros options start dial listen ops s w s0 w0 Hrun.
  destruct (server_idle_run ops s0 w0 s w) as [Hs Hi].
  - apply server_New_settled.
  - right. unfold s0, w0, Server.New. simpl.
    split_and!; try reflexivity; try (left; reflexivity);
      try (intros l H; inversion H).
  - exact Hrun.
  - split.
    + destruct Hi as [H|([H|H] & _)]; auto.
    + intros Hne. destruct Hi as [H|(_ & Ha & Hsv & Hli)]; [contradiction|].
      destruct Hs as (Hwg & _). rewrite Ha, Hsv in Hwg.
      split_and!; try assumption.
      intros l. unfold Server.accept.
      rewrite Ha, bool_decide_eq_false_2 by (intros H; inversion H).
      rewrite andb_false_r. reflexivity.
Qed.

(** After the example session up to its [Stop]. *)
Lemma X19_server_not_running_is_idle_witness :
  let s0 := fst (Server.New [] (genesis 0 Scenario.reachable Scenario.reachable)) in
  let w0 := snd (Server.New [] (genesis 0 Scenario.reachable Scenario.reachable)) in
  let ops := take 9 Trace.server_session in
  let r := default (s0, w0) (Trace.server_run ops s0 w0) in
  Trace.server_run ops s0 w0 = Some (fst r, snd r) /\
  Server.status (fst r) = StatusStopped /\
  Server.wg (fst r) = 0%nat /\
  Server.listeners (fst r) = [0%nat] /\
  listener_is_open (snd r) 0 = false /\
  Server.accept 0 (fst r) (snd r) = (fst r, snd r).
Proof.
  cbv zeta.
  set (s0 := fst (Server.New [] (genesis 0 Scenario.reachable Scenario.reachable))).
  set (w0 := snd (Server.New [] (genesis 0 Scenario.reachable Scenario.reachable))).
  set (ops := take 9 Trace.server_session).
  set (r := default (s0, w0) (Trace.server_run ops s0 w0)).
  assert (H : Trace.server_run ops s0 w0 = Some (fst r, snd r))
    by (vm_compute; reflexivity).
  assert (Hst : Server.status (fst r) = StatusStopped)
    by (vm_compute; reflexivity).
  assert (Hli : Server.listeners (fst r) = [0%nat]) by (vm_compute; reflexivity).
  destruct (X19_server_not_running_is_idle [] 0 Scenario.reachable
              Scenario.reachable ops (fst r) (snd r) H) as [_ Hidle].
  destruct Hidle as (Hwg & _ & _ & Hclosed & Hacc).
  { rewrite Hst. discriminate. }
  split_and!; try assumption.
  - apply Hclosed. rewrite Hli. apply list_elem_of_here.
  - apply Hacc.
Defined.

(* ===================================================================== *)
(** ** Options that are never read *)
(* ===================================================================== *)

Lemma server_step_beside_address max timeout tls cert key op s w :
  Trace.server_step op
    (Trace.server_beside_address max timeout tls cert key s) w
  = option_map (prod_map (Trace.server_beside_address max timeout tls cert key) id)
      (Trace.server_step op s w).
Proof.
  destruct s as [[h p m t e cp ck] st ls hs cbs cx g].
  destruct op as [| |handler|cb|l|k|i]; cbn [Trace.server_step].
  - unfold Server.Start, Server.updateStatus, Server.updateStatusLocked.
    cbn. destruct (decide (st <> StatusStopped)); [reflexivity|].
    cbn. destruct (listen_result _ _); reflexivity.
  - unfold Server.Stop, Server.updateStatus, Server.updateStatusLocked,
      Server.reap.
    cbn. destruct (decide (st <> StatusRunning)); [reflexivity|].
    cbn. destruct (decide _); reflexivity.
  - unfold Server.RegisterHandler. cbn.
    destruct (Server.register_methods _ _ _); reflexivity.
  - reflexivity.
  - unfold Server.accept. cbn. destruct (_ && _); reflexivity.
  - reflexivity.
  - reflexivity.
Qed.

Lemma server_run_beside_address max timeout tls cert key ops : forall s w,
  Trace.server_run ops
    (Trace.server_beside_address max timeout tls cert key s) w
  = option_map (prod_map (Trace.server_beside_address max timeout tls cert key) id)
      (Trace.server_run ops s w).
Proof.
  induction ops as [|op ops IH]; intros s w; cbn [Trace.server_run].
  - reflexivity.
  - rewrite server_step_beside_address.
    destruct (Trace.server_step op s w) as [[s1 w1]|]; [|reflexivity].
    cbn. apply IH.
Qed.

Lemma Server_Start_beside_address max timeout tls cert key s w :
  Server.Start (Trace.server_beside_address max timeout tls cert key s) w
  = (fst (fst (Server.Start s w)),
     Trace.server_beside_address max timeout tls cert key
       (snd (fst (Server.Start s w))),
     snd (Server.Start s w)).
Proof.
  destruct s as [[h p m t e cp ck] st ls hs cbs cx g].
  unfold Server.Start, Server.updateStatus, Server.updateStatusLocked.
  cbn. destruct (decide (st <> StatusStopped)); [reflexivity|].
  cbn. destruct (listen_result _ _); reflexivity.
Qed.

Lemma Server_Stop_beside_address max timeout tls cert key s w :
  Server.Stop (Trace.server_beside_address max timeout tls cert key s) w
  = match Server.Stop s w with
    | Returns (e, s', w') =>
        Returns (e, Trace.server_beside_address max timeout tls cert key s', w')
    | Panics msg => Panics msg
    | Hangs => Hangs
    end.
Proof.
  destruct s as [[h p m t e cp ck] st ls hs cbs cx g].
  unfold Server.Stop, Server.updateStatus, Server.updateStatusLocked,
    Server.reap.
  cbn. destruct (decide (st <> StatusRunning)); [reflexivity|].
  cbn. destruct (decide _); reflexivity.
Qed.

Lemma Server_RegisterHandler_beside_address max timeout tls cert key handler s :
  Server.RegisterHandler handler
    (Trace.server_beside_address max timeout tls cert key s)
  = (fst (Server.RegisterHandler handler s),
     Trace.server_beside_address max timeout tls cert key
       (snd (Server.RegisterHandler handler s))).
Proof.
  destruct s as [[h p m t e cp ck] st ls hs cbs cx g].
  unfold Server.RegisterHandler. cbn.
  destruct (Server.register_methods _ _ _); reflexivity.
Qed.

(** X21: of its options the server reads the host and the port only.  A
    server built with a connection limit, a connection timeout and TLS
    with a certificate and a key is the server built without them, but
    for these option fields, and it does what that one does: [Start],
    [Stop] and [RegisterHandler] return the same value (the same error or
    nil) and leave the same world and the same server but for those
    fields; [Status] is the same; requests are answered alike; and so it
    goes on over any sequence of calls, accepted and lost connections and
    deliveries.  No limit, no timeout and no TLS is applied. *)
Theorem X21_server_reads_only_its_address :
  forall max timeout cert key,
    let beside := Trace.server_beside_address max timeout true cert key in
    (forall options w0,
        let plain := Server.New options w0 in
        let tuned :=
          Server.New (options ++ [Server.WithMaxConcurrentClients max;
                                  Server.WithConnectionTimeout timeout;
                                  Server.WithTLS cert key]) w0 in
        fst tuned = beside (fst plain) /\
        snd tuned = snd plain /\
        Server.EnableTLS (Server.opts (fst tuned)) = true /\
        Server.MaxConcurrentClients (Server.opts (fst tuned)) = max) /\
    (forall s w,
        Server.Start (beside s) w
        = (fst (fst (Server.Start s w)), beside (snd (fst (Server.Start s w))),
           snd (Server.Start s w))) /\
    (forall s w,
        Server.Stop (beside s) w
        = match Server.Stop s w with
          | Returns (e, s', w') => Returns (e, beside s', w')
          | Panics msg => Panics msg
          | Hangs => Hangs
          end) /\
    (forall handler s,
        Server.RegisterHandler handler (beside s)
        = (fst (Server.RegisterHandler handler s),
           beside (snd (Server.RegisterHandler handler s)))) /\
    (forall s, Server.Status_ (beside s) = Server.Status_ s) /\
    (forall s w conn req,
        Server.Handle (beside s) w conn req = Server.Handle s w conn req) /\
    (forall ops s w,
        Trace.server_run ops (beside s) w
        = option_map (prod_map beside id) (Trace.server_run ops s w)).
Proof.
  intros max timeout cert key beside. split_and!.
  - intros options w0. cbv zeta. unfold Server.New. rewrite fold_left_app.
    destruct (WithCancel w0) as [cx w1]. cbn [fst snd].
    split_and!; reflexivity.
  - intros s w. apply Server_Start_beside_address.
  - intros s w. apply Server_Stop_beside_address.
  - intros handler s. apply Server_RegisterHandler_beside_address.
  - intros s. reflexivity.
  - intros s w conn req. reflexivity.
  - intros ops s w. apply server_run_beside_address.
Qed.

(** No call and no event removes or replaces a registered handler. *)
Lemma server_run_keeps_handler ops : forall s w s' w' method h,
  Server.handlers s !! method = Some h ->
  Trace.server_run ops s w = Some (s', w') ->
  Server.handlers s' !! method = Some h.
Proof.
  induction ops as [|op ops IH]; intros s w s' w' method h Hh; simpl.
  - intros [= <- <-]. exact Hh.
  - destruct (Trace.server_step op s w) as [[s1 w1]|] eqn:Hstep;
      [|discriminate].
    apply IH. destruct op as [| |handler|cb|l|k|i]; simpl in Hstep.
    + unfold Server.Start, Server.updateStatus, Server.updateStatusLocked
        in Hstep.
      destruct (decide _); [injection Hstep as <- <-; exact Hh|].
      cbn in Hstep. destruct (listen_result _ _);
        injection Hstep as <- <-; exact Hh.
    + unfold Server.Stop, Server.updateStatus, Server.updateStatusLocked,
        Server.reap in Hstep.
      destruct (decide _); [injection Hstep as <- <-; exact Hh|].
      cbn in Hstep. destruct (decide _); [|discriminate].
      injection Hstep as <- <-. exact Hh.
    + injection Hstep as <- <-. unfold Server.RegisterHandler.
      pose proof (register_methods_keeps handler (Server.Methods handler)
                    (Server.handlers s) method h Hh) as Hk.
      destruct (Server.register_methods _ _ _) as [err hs]. exact Hk.
    + injection Hstep as <- <-. exact Hh.
    + unfold Server.accept in Hstep.
      destruct (_ && _); injection Hstep as <- <-; exact Hh.
    + injection Hstep as <- <-. exact Hh.
    + injection Hstep as <- <-. exact Hh.
Qed.

(** X23: the registry only grows.  Once a name has a handler, after any
    sequence of calls and events the name still has that handler: nothing
    removes or replaces it, and every later registration of a handler
    that declares the name fails. *)
Theorem X23_registered_method_stays :
  forall ops s w s' w' method h,
    Server.handlers s !! method = Some h ->
    Trace.server_run ops s w = Some (s', w') ->
    Server.handlers s' !! method = Some h /\
    forall handler,
      method ∈ Server.Methods handler ->
      exists taken,
        fst (Server.RegisterHandler handler s') = Some (AlreadyRegistered taken).
Proof.
  intros ops s w s' w' method h Hh Hrun.
  pose proof (server_run_keeps_handler ops s w s' w' method h Hh Hrun) as Hkeep.
  split; [exact Hkeep|]. intros handler Hin.
  destruct (register_methods_conflict handler (Server.Methods handler)
              (Server.handlers s') method Hin) as [m Hm].
  { rewrite Hkeep. eauto. }
  exists m. unfold Server.RegisterHandler.
  destruct (Server.register_methods _ _ _) as [err hs]. exact Hm.
Qed.

(** The default handler stays through a session in which another handler
    for the same method is offered. *)
Lemma X23_registered_method_stays_witness :
  let s := fst Scenario.new_server in
  let w := snd Scenario.new_server in
  let ops := [Trace.SStart; Trace.SRegister Scenario.two_method_handler;
              Trace.SAccept 0; Trace.SLost 0; Trace.SStop] in
  let r := default (s, w) (Trace.server_run ops s w) in
  Trace.server_run ops s w = Some (fst r, snd r) /\
  Server.handlers (fst r) !! "mcp.processModel"
  = Some Server.NewDefaultModelHandler.
Proof.
  cbv zeta.
  set (s := fst Scenario.new_server). set (w := snd Scenario.new_server).
  set (ops := [Trace.SStart; Trace.SRegister Scenario.two_method_handler;
               Trace.SAccept 0; Trace.SLost 0; Trace.SStop]).
  set (r := default (s, w) (Trace.server_run ops s w)).
  assert (H : Trace.server_run ops s w = Some (fst r, snd r))
    by (vm_compute; reflexivity).
  split; [exact H|].
  exact (proj1 (X23_registered_method_stays ops s w (fst r) (snd r)
                  "mcp.processModel" Server.NewDefaultModelHandler
                  ltac:(vm_compute; reflexivity) H)).
Defined.

(* ===================================================================== *)
(** ** A failed server *)
(* ===================================================================== *)

(** One step on a Failed server: it returns, the server stays Failed, no
    event is started, no listener is asked for and none is opened. *)
Lemma server_failed_step op s w :
  Server.status s = StatusFailed ->
  exists s' w',
    Trace.server_step op s w = Some (s', w') /\
    Server.status s' = StatusFailed /\
    notifications w' ++ delivered w' ≡ₚ notifications w ++ delivered w /\
    listens w' = listens w /\
    listeners w' = listeners w.
Proof.
  intros Hf. destruct op as [| |handler|cb|l|k|i]; simpl.
  - rewrite Server_Start_refused by (rewrite Hf; discriminate).
    exists s, w. split_and!; auto.
  - rewrite Server_Stop_refused by (rewrite Hf; discriminate).
    exists s, w. split_and!; auto.
  - do 2 eexists. split; [reflexivity|]. unfold Server.RegisterHandler.
    destruct (Server.register_methods _ _ _) as [err hs].
    split_and!; auto.
  - do 2 eexists. split; [reflexivity|]. split_and!; auto.
  - unfold Server.accept.
    destruct (_ && _); do 2 eexists; (split; [reflexivity|]);
      split_and!; auto.
  - unfold Server.disconnect, Server.reap.
    destruct (close_conn_at_set k w) as (cs & Hclose & _). rewrite Hclose.
    do 2 eexists. split; [reflexivity|]. split_and!; auto.
  - do 2 eexists. split; [reflexivity|]. split; [exact Hf|].
    unfold deliver. destruct (notifications w !! i) as [task|] eqn:E;
      [|split_and!; reflexivity].
    simpl. split_and!; try reflexivity.
    rewrite (delete_Permutation (notifications w) i task E) at 2.
    rewrite app_assoc. rewrite <- Permutation_cons_append. reflexivity.
Qed.

(** X20: Failed is final for the server.  After a [Start] that could not
    listen, whatever is called ([Start], [Stop], [RegisterHandler],
    [OnStatusChange]) and whatever happens, every call returns, the server
    stays Failed, no status-change event is started, and the address is
    never tried again: a new server has to be built. *)
Theorem X20_server_failed_is_final :
  forall ops s w,
    Server.status s = StatusFailed ->
    exists s' w',
      Trace.server_run ops s w = Some (s', w') /\
      Server.status s' = StatusFailed /\
      notifications w' ++ delivered w' ≡ₚ notifications w ++ delivered w /\
      listens w' = listens w /\
      listeners w' = listeners w.
Proof.
  induction ops as [|op ops IH]; intros s w Hf; simpl.
  - exists s, w. split_and!; auto.
  - destruct (server_failed_step op s w Hf)
      as (s1 & w1 & Hstep & Hf1 & Hp1 & Hl1 & Hli1).
    rewrite Hstep.
    destruct (IH s1 w1 Hf1) as (s' & w' & Hrun & Hf' & Hp' & Hl' & Hli').
    exists s', w'. split; [exact Hrun|]. split; [exact Hf'|].
    split; [rewrite Hp'; exact Hp1|]. split; congruence.
Qed.

(** The address was in use; the caller retries and then stops. *)
Lemma X20_server_failed_is_final_witness :
  let s0 := fst (Server.New [] (genesis 0 Scenario.reachable
                                  Scenario.unreachable)) in
  let w0 := snd (Server.New [] (genesis 0 Scenario.reachable
                                  Scenario.unreachable)) in
  let s := snd (fst (Server.Start s0 w0)) in
  let w := snd (Server.Start s0 w0) in
  exists s' w',
    Trace.server_run [Trace.SStart; Trace.SStop; Trace.SAccept 0; Trace.SStart]
      s w = Some (s', w') /\
    Server.status s' = StatusFailed /\
    listens w' = 1%nat.
Proof.
  cbv zeta.
  destruct (X20_server_failed_is_final
              [Trace.SStart; Trace.SStop; Trace.SAccept 0; Trace.SStart]
              (snd (fst (Server.Start
                 (fst (Server.New [] (genesis 0 Scenario.reachable
                                        Scenario.unreachable)))
                 (snd (Server.New [] (genesis 0 Scenario.reachable
                                        Scenario.unreachable))))))
              (snd (Server.Start
                 (fst (Server.New [] (genesis 0 Scenario.reachable
                                        Scenario.unreachable)))
                 (snd (Server.New [] (genesis 0 Scenario.reachable
                                        Scenario.unreachable)))))
              eq_refl)
    as (s' & w' & H & Hf & _ & Hl & _).
  exists s', w'. split; [exact H|]. split; [exact Hf|]. rewrite Hl. reflexivity.
Defined.

(* ===================================================================== *)
(** ** The client and its TLS option *)
(* ===================================================================== *)

Lemma attemptReconnect_loop_tls b fuel : forall c w,
  Client.attemptReconnect_loop fuel (Trace.client_tls b c) w
  = option_map (prod_map (Trace.client_tls b) id)
      (Client.attemptReconnect_loop fuel c w).
Proof.
  induction fuel as [|fuel IH]; intros [[h p t a m d e] st cn cbs r ic cx g] w.
  - cbn. destruct (bool_decide (r < m)); reflexivity.
  - cbn [Client.attemptReconnect_loop]. unfold Client.connect.
    cbn [Trace.client_tls Trace.client_with_opts Client.opts Client.status
           Client.conn Client.callbacks Client.reconnectAttempt
           Client.isConnected Client.ctx Client.wg Client.set_reconnectAttempt
           Client.MaxReconnectAttempts Client.ReconnectDelay
           Client.ServerHost Client.ServerPort Client.AutoReconnect
           Client.ConnectionTimeout Client.EnableTLS].
    destruct (bool_decide (r < m)); [|reflexivity].
    destruct (ctx_done _ cx); [reflexivity|].
    destruct (dial_result _ _); [|reflexivity].
    match goal with
    | |- _ = option_map _ (Client.attemptReconnect_loop _ ?c ?w) =>
        exact (IH c w)
    end.
Qed.

Lemma monitorConnection_tls b c w :
  Client.monitorConnection (Trace.client_tls b c) w
  = option_map (prod_map (Trace.client_tls b) id) (Client.monitorConnection c w).
Proof.
  destruct c as [[h p t a m d e] st cn cbs r ic cx g].
  unfold Client.monitorConnection, Client.attemptReconnect.
  cbn [Trace.client_tls Trace.client_with_opts Client.opts Client.status
         Client.conn Client.callbacks Client.reconnectAttempt
         Client.isConnected Client.ctx Client.wg Client.set_isConnected
         Client.MaxReconnectAttempts Client.ReconnectDelay
         Client.ServerHost Client.ServerPort Client.AutoReconnect
         Client.ConnectionTimeout Client.EnableTLS].
  destruct (a && bool_decide (st = StatusRunning)); [|reflexivity].
  match goal with
  | |- context [option_map _ (match Client.attemptReconnect_loop ?f ?c ?w with
                              | Some _ => _ | None => _ end)] =>
      pose proof (attemptReconnect_loop_tls b f c w) as H;
      destruct (Client.attemptReconnect_loop f c w) as [[c2 w2]|]
  end.
  - cbn in H. cbn [Trace.client_tls Trace.client_with_opts Client.opts] in H.
    etransitivity; [|reflexivity].
    match type of H with ?l = _ => change (match l with
                                           | Some (c2, w2) => Some (Client.set_wg (pred (Client.wg c2)) c2, w2)
                                           | None => None end = Some (Trace.client_tls b (Client.set_wg (pred (Client.wg c2)) c2), w2)) end.
    rewrite H. reflexivity.
  - match type of H with ?l = _ => change (match l with
                                           | Some (c2, w2) => Some (Client.set_wg (pred (Client.wg c2)) c2, w2)
                                           | None => None end = None) end.
    rewrite H. reflexivity.
Qed.

Lemma run_monitors_tls b n : forall c w,
  Client.run_monitors n (Trace.client_tls b c) w
  = option_map (prod_map (Trace.client_tls b) id) (Client.run_monitors n c w).
Proof.
  induction n as [|n IH]; intros c w; cbn [Client.run_monitors].
  - reflexivity.
  - rewrite monitorConnection_tls.
    destruct (Client.monitorConnection c w) as [[c1 w1]|]; [|reflexivity].
    cbn. apply IH.
Qed.

Lemma wake_monitors_tls b c w :
  Client.wake_monitors (Trace.client_tls b c) w
  = option_map (prod_map (Trace.client_tls b) id) (Client.wake_monitors c w).
Proof. unfold Client.wake_monitors. apply run_monitors_tls. Qed.

Lemma Client_Stop_tls b c w :
  Client.Stop (Trace.client_tls b c) w
  = match Client.Stop c w with
    | Returns (e, c', w') => Returns (e, Trace.client_tls b c', w')
    | Panics msg => Panics msg
    | Hangs => Hangs
    end.
Proof.
  unfold Client.Stop, Client.updateStatus, Client.updateStatusLocked.
  cbn [Client.status Client.callbacks Client.ctx Client.conn
         Client.set_status Trace.client_tls Trace.client_with_opts].
  destruct (decide (Client.status c <> StatusRunning)); [reflexivity|].
  destruct (Client.conn c) as [k|].
  - change (Client.set_isConnected false
              (Client.set_conn None
                 (Client.set_status StatusStopping (Trace.client_tls b c))))
      with (Trace.client_tls b
              (Client.set_isConnected false
                 (Client.set_conn None (Client.set_status StatusStopping c)))).
    rewrite wake_monitors_tls.
    destruct (Client.wake_monitors _ _) as [[c4 w4]|]; [|reflexivity].
    cbn [option_map prod_map fst snd id].
    change (Client.wg (Trace.client_tls b c4)) with (Client.wg c4).
    destruct (decide (Client.wg c4 = 0%nat)); reflexivity.
  - change (Client.set_isConnected false
              (Client.set_status StatusStopping (Trace.client_tls b c)))
      with (Trace.client_tls b
              (Client.set_isConnected false
                 (Client.set_status StatusStopping c))).
    rewrite wake_monitors_tls.
    destruct (Client.wake_monitors _ _) as [[c4 w4]|]; [|reflexivity].
    cbn [option_map prod_map fst snd id].
    change (Client.wg (Trace.client_tls b c4)) with (Client.wg c4).
    destruct (decide (Client.wg c4 = 0%nat)); reflexivity.
Qed.

Lemma Client_Start_tls b c w :
  Client.Start (Trace.client_tls b c) w
  = (fst (fst (Client.Start c w)),
     Trace.client_tls b (snd (fst (Client.Start c w))),
     snd (Client.Start c w)).
Proof.
  destruct c as [[h p t a m d e] st cn cbs r ic cx g].
  unfold Client.Start, Client.updateStatus, Client.updateStatusLocked,
    Client.connect.
  cbn. destruct (decide (st <> StatusStopped)); [reflexivity|].
  cbn. destruct (dial_result _ _); reflexivity.
Qed.

Lemma Client_ProcessModel_tls b answer req c w :
  Client.ProcessModel answer req (Trace.client_tls b c) w
  = (fst (fst (Client.ProcessModel answer req c w)),
     Trace.client_tls b (snd (fst (Client.ProcessModel answer req c w))),
     snd (Client.ProcessModel answer req c w)).
Proof.
  destruct c as [[h p t a m d e] st cn cbs r ic cx g].
  unfold Client.ProcessModel. cbn. destruct cn as [k|]; [|reflexivity].
  destruct (conn_is_closed w k); [reflexivity|].
  destruct answer; reflexivity.
Qed.

Lemma client_step_tls b op c w :
  Trace.client_step op (Trace.client_tls b c) w
  = option_map (prod_map (Trace.client_tls b) id) (Trace.client_step op c w).
Proof.
  destruct op as [| |cb|answer req|k|i]; cbn [Trace.client_step].
  - rewrite Client_Start_tls.
    destruct (Client.Start c w) as [[e c1] w1]. reflexivity.
  - rewrite Client_Stop_tls.
    destruct (Client.Stop c w) as [[[e c1] w1]| |]; reflexivity.
  - reflexivity.
  - rewrite Client_ProcessModel_tls.
    destruct (Client.ProcessModel answer req c w) as [[r c1] w1]. reflexivity.
  - unfold Client.disconnect. apply wake_monitors_tls.
  - reflexivity.
Qed.

Lemma client_run_tls b ops : forall c w,
  Trace.client_run ops (Trace.client_tls b c) w
  = option_map (prod_map (Trace.client_tls b) id) (Trace.client_run ops c w).
Proof.
  induction ops as [|op ops IH]; intros c w; cbn [Trace.client_run].
  - reflexivity.
  - rewrite client_step_tls.
    destruct (Trace.client_step op c w) as [[c1 w1]|]; [|reflexivity].
    cbn. apply IH.
Qed.

(** X22: the client never reads its option EnableTLS.  A client built
    with [WithTLS] is the client built without it, but for that option
    field, and it does what that one does: [Start], [Stop] and
    [ProcessModel] return the same value (the same error or nil, the same
    response) and leave the same world and the same client but for that
    field; [Status] and [IsConnected] are the same; the loss of a
    connection is handled alike, with the same dials; and so it goes on
    over any sequence of calls and events.  The connection is dialled over
    plain TCP either way. *)
Theorem X22_client_ignores_tls :
  forall b,
    let tls := Trace.client_tls b in
    (forall options w0,
        fst (Client.New (options ++ [Client.WithTLS]) w0)
        = Trace.client_tls true (fst (Client.New options w0)) /\
        snd (Client.New (options ++ [Client.WithTLS]) w0)
        = snd (Client.New options w0) /\
        Client.EnableTLS
          (Client.opts (fst (Client.New (options ++ [Client.WithTLS]) w0)))
        = true) /\
    (forall c w,
        Client.Start (tls c) w
        = (fst (fst (Client.Start c w)), tls (snd (fst (Client.Start c w))),
           snd (Client.Start c w))) /\
    (forall c w,
        Client.Stop (tls c) w
        = match Client.Stop c w with
          | Returns (e, c', w') => Returns (e, tls c', w')
          | Panics msg => Panics msg
          | Hangs => Hangs
          end) /\
    (forall answer req c w,
        Client.ProcessModel answer req (tls c) w
        = (fst (fst (Client.ProcessModel answer req c w)),
           tls (snd (fst (Client.ProcessModel answer req c w))),
           snd (Client.ProcessModel answer req c w))) /\
    (forall c,
        Client.Status_ (tls c) = Client.Status_ c /\
        Client.IsConnected (tls c) = Client.IsConnected c) /\
    (forall k c w,
        Client.disconnect k (tls c) w
        = option_map (prod_map tls id) (Client.disconnect k c w)) /\
    (forall ops c w,
        Trace.client_run ops (tls c) w
        = option_map (prod_map tls id) (Trace.client_run ops c w)).
Proof.
  intros b tls. split_and!.
  - intros options w0. unfold Client.New. rewrite fold_left_app.
    destruct (WithCancel w0) as [cx w1]. cbn [fst snd].
    split_and!; reflexivity.
  - intros c w. apply Client_Start_tls.
  - intros c w. apply Client_Stop_tls.
  - intros answer req c w. apply Client_ProcessModel_tls.
  - intros c. split; reflexivity.
  - intros k c w. unfold Client.disconnect. apply wake_monitors_tls.
  - intros ops c w. apply client_run_tls.
Qed.

(* ===================================================================== *)
(** ** After the context is cancelled *)
(* ===================================================================== *)

Lemma ctx_done_later w w' k :
  ctxs w' = ctxs w -> now w <= now w' ->
  ctx_done w k = true -> ctx_done w' k = true.
Proof.
  intros Hc Hn. unfold ctx_done. rewrite Hc.
  destruct (ctxs w !! k) as [[t|]|]; try discriminate.
  intros H. apply bool_decide_eq_true in H. apply bool_decide_eq_true_2. lia.
Qed.

(** Under a cancelled context [attemptReconnect] never dials: it takes one
    turn and returns after the delay, or gives up at once when the budget
    is already spent. *)
Lemma attemptReconnect_cancelled c w :
  ctx_done w (Client.ctx c) = true ->
  0 <= Client.reconnectAttempt c ->
  Client.MaxReconnectAttempts (Client.opts c) <= int_max ->
  exists c' w',
    Client.attemptReconnect c w = Some (c', w') /\
    dials w' = dials w /\ conns w' = conns w /\ monitors w' = monitors w /\
    ctxs w' = ctxs w /\ now w <= now w' /\
    Client.conn c' = Client.conn c /\ Client.ctx c' = Client.ctx c /\
    Client.opts c' = Client.opts c /\ Client.wg c' = Client.wg c /\
    Client.isConnected c' = Client.isConnected c /\
    0 <= Client.reconnectAttempt c' /\
    (Client.status c' = Client.status c \/ Client.status c' = StatusFailed).
Proof.
  intros Hdone Hr Hmax. unfold Client.attemptReconnect.
  destruct (decide (Client.reconnectAttempt c
                    < Client.MaxReconnectAttempts (Client.opts c))) as [Hlt|Hge].
  - destruct (Z.to_nat _) as [|fuel] eqn:Hfuel; [lia|].
    cbn [Client.attemptReconnect_loop].
    rewrite bool_decide_eq_true_2 by exact Hlt.
    rewrite (next_attempt_no_wrap _ _ Hr Hlt Hmax).
    cbn [Client.ctx Client.set_reconnectAttempt Client.opts].
    rewrite (ctx_done_later w (Sleep _ w) _);
      [|reflexivity|unfold Sleep; simpl; lia|exact Hdone].
    do 2 eexists. split; [reflexivity|]. simpl.
    split_and!; try reflexivity; try lia. left. reflexivity.
  - assert (Hloop : forall fuel,
               Client.attemptReconnect_loop fuel c w
               = Some (Client.updateStatus StatusFailed
                         (Some ReconnectExhausted) c w)).
    { intros [|fuel]; simpl; rewrite bool_decide_eq_false_2 by exact Hge;
        reflexivity. }
    rewrite Hloop. unfold Client.updateStatus.
    rewrite Client_updateStatusLocked_spec.
    do 2 eexists. split; [reflexivity|]. simpl.
    split_and!; try reflexivity; try lia. right. reflexivity.
Qed.

Lemma run_monitors_cancelled n : forall c w,
  ctx_done w (Client.ctx c) = true ->
  0 <= Client.reconnectAttempt c ->
  Client.MaxReconnectAttempts (Client.opts c) <= int_max ->
  exists c' w',
    Client.run_monitors n c w = Some (c', w') /\
    dials w' = dials w /\ conns w' = conns w /\ monitors w' = monitors w /\
    ctxs w' = ctxs w /\ now w <= now w' /\
    Client.conn c' = Client.conn c /\ Client.ctx c' = Client.ctx c /\
    Client.opts c' = Client.opts c /\
    0 <= Client.reconnectAttempt c' /\
    (Client.status c' = Client.status c \/ Client.status c' = StatusFailed).
Proof.
  induction n as [|n IH]; intros c w Hdone Hr Hmax; cbn [Client.run_monitors].
  - exists c, w. split_and!; try reflexivity; try lia. left. reflexivity.
  - assert (Hm : exists c1 w1,
               Client.monitorConnection c w = Some (c1, w1) /\
               dials w1 = dials w /\ conns w1 = conns w /\
               monitors w1 = monitors w /\
               ctxs w1 = ctxs w /\ now w <= now w1 /\
               Client.conn c1 = Client.conn c /\ Client.ctx c1 = Client.ctx c /\
               Client.opts c1 = Client.opts c /\
               0 <= Client.reconnectAttempt c1 /\
               (Client.status c1 = Client.status c \/
                Client.status c1 = StatusFailed)).
    { unfold Client.monitorConnection.
      destruct (_ && _).
      - destruct (attemptReconnect_cancelled
                    (Client.set_isConnected false c) w Hdone Hr Hmax)
          as (c1 & w1 & Ha & H1 & H2 & H3 & H4 & H5 & H6 & H7 & H8 & _ & _
              & H11 & H12).
        rewrite Ha. do 2 eexists. split; [reflexivity|].
        cbn [Client.conn Client.ctx Client.opts Client.reconnectAttempt
               Client.status Client.set_wg].
        split_and!; assumption.
      - do 2 eexists. split; [reflexivity|]. simpl.
        split_and!; try reflexivity; try lia. left. reflexivity. }
    destruct Hm as (c1 & w1 & Hm & H1 & H2 & H3 & H4 & H5 & H6 & H7 & H8
                    & H9 & H10).
    rewrite Hm.
    destruct (IH c1 w1) as (c2 & w2 & Hrun & G1 & G2 & G3 & G4 & G5 & G6 & G7
                            & G8 & G9 & G10).
    { rewrite H7. eapply ctx_done_later; eassumption. }
    { exact H9. }
    { rewrite H8. exact Hmax. }
    exists c2, w2. split; [exact Hrun|].
    split_and!; try congruence; try lia.
    destruct G10 as [G|G]; [|right; exact G].
    rewrite G. exact H10.
Qed.

(** Under a cancelled context the loss of a connection makes no dial. *)
Lemma disconnect_cancelled k c w :
  ctx_done w (Client.ctx c) = true ->
  0 <= Client.reconnectAttempt c ->
  Client.MaxReconnectAttempts (Client.opts c) <= int_max ->
  exists c' w',
    Client.disconnect k c w = Some (c', w') /\
    dials w' = dials w /\
    ctxs w' = ctxs w /\ now w <= now w' /\
    Client.conn c' = Client.conn c /\ Client.ctx c' = Client.ctx c /\
    Client.opts c' = Client.opts c /\
    0 <= Client.reconnectAttempt c' /\
    (Client.status c' = Client.status c \/ Client.status c' = StatusFailed).
Proof.
  intros Hdone Hr Hmax. unfold Client.disconnect, Client.wake_monitors.
  destruct (close_conn_at_set k w) as (cs & Hclose & _). rewrite Hclose.
  match goal with
  | |- context [Client.run_monitors ?n c ?w1] =>
      destruct (run_monitors_cancelled n c w1 Hdone Hr Hmax)
        as (c' & w' & Hrun & H1 & _ & _ & H4 & H5 & H6 & H7 & H8 & H9 & H10)
  end.
  exists c', w'. split; [exact Hrun|]. split_and!; assumption.
Qed.

(** Under a cancelled context a monitor that wakes returns after one
    delay at most, without a dial. *)
Lemma monitorConnection_cancelled c w :
  ctx_done w (Client.ctx c) = true ->
  0 <= Client.reconnectAttempt c ->
  Client.MaxReconnectAttempts (Client.opts c) <= int_max ->
  exists c' w',
    Client.monitorConnection c w = Some (c', w') /\
    dials w' = dials w /\
    now w <= now w' <= now w + Z.max 0 (Client.ReconnectDelay (Client.opts c)) /\
    Client.isConnected c' = false /\
    Client.conn c' = Client.conn c.
Proof.
  intros Hdone Hr Hmax. unfold Client.monitorConnection.
  destruct (_ && _).
  - unfold Client.attemptReconnect.
    cbn [Client.opts Client.reconnectAttempt Client.set_isConnected].
    destruct (decide (Client.reconnectAttempt c
                      < Client.MaxReconnectAttempts (Client.opts c)))
      as [Hlt|Hge].
    + destruct (Z.to_nat _) as [|fuel] eqn:Hfuel; [lia|].
      cbn [Client.attemptReconnect_loop].
      cbn [Client.opts Client.reconnectAttempt Client.set_isConnected
             Client.set_reconnectAttempt Client.ctx].
      rewrite bool_decide_eq_true_2 by exact Hlt.
      rewrite (ctx_done_later w (Sleep _ w) _);
        [|reflexivity|unfold Sleep; simpl; lia|exact Hdone].
      do 2 eexists. split; [reflexivity|]. unfold Sleep. simpl.
      split_and!; try reflexivity; lia.
    + assert (Hloop : forall fuel,
                 Client.attemptReconnect_loop fuel
                   (Client.set_isConnected false c) w
                 = Some (Client.updateStatus StatusFailed
                           (Some ReconnectExhausted)
                           (Client.set_isConnected false c) w)).
      { intros [|fuel]; simpl; rewrite bool_decide_eq_false_2 by exact Hge;
          reflexivity. }
      rewrite Hloop. unfold Client.updateStatus.
      rewrite Client_updateStatusLocked_spec.
      do 2 eexists. split; [reflexivity|]. simpl.
      split_and!; try reflexivity; lia.
  - do 2 eexists. split; [reflexivity|]. simpl.
    split_and!; try reflexivity; lia.
Qed.

(** Nothing brings a cancelled context back. *)
Lemma client_step_cancelled op c w c' w' :
  ctx_done w (Client.ctx c) = true ->
  0 <= Client.reconnectAttempt c ->
  Client.MaxReconnectAttempts (Client.opts c) <= int_max ->
  Trace.client_step op c w = Some (c', w') ->
  ctx_done w' (Client.ctx c') = true /\
  0 <= Client.reconnectAttempt c' /\
  Client.MaxReconnectAttempts (Client.opts c') <= int_max.
Proof.
  intros Hdone Hr Hmax. destruct op as [| |cb|answer req|k|i]; simpl.
  - destruct (decide (Client.status c = StatusStopped)) as [Hst|Hst].
    + destruct (dial_result w (dials w)) as [msg|] eqn:Hd.
      * destruct (Client_Start_dial_refused c w msg Hst Hd)
          as (c1 & w1 & HS & -> & _ & _ & _ & _ & Hx & Hn & _).
        rewrite HS. intros [= <- <-]. split; [|split; assumption].
        rewrite <- Hdone. apply ctx_done_ext; assumption.
      * destruct (Client_Start_accepted c w Hst Hd)
          as (c1 & w1 & HS & _ & _ & _ & _ & H5 & _ & H7 & H8 & _ & _ & _ & _
              & Hx & Hn & _).
        rewrite HS. intros [= <- <-]. rewrite H5, H7, H8.
        split; [|split; assumption].
        rewrite <- Hdone. apply ctx_done_ext; assumption.
    + rewrite Client_Start_refused by exact Hst. intros [= <- <-].
      split_and!; assumption.
  - unfold Client.Stop. destruct (decide _) as [|_].
    { intros [= <- <-]. split_and!; assumption. }
    rewrite Client_updateStatusLocked_spec.
    set (c1 := Client.set_status StatusStopping c).
    set (w1 := set_notifications _ w).
    assert (Hdone1 : ctx_done w1 (Client.ctx c1) = true) by exact Hdone.
    unfold cancel. rewrite Hdone1. unfold Client.wake_monitors.
    assert (Hgo : forall c3 w3,
               Client.ctx c3 = Client.ctx c -> Client.opts c3 = Client.opts c ->
               Client.reconnectAttempt c3 = Client.reconnectAttempt c ->
               ctxs w3 = ctxs w -> now w3 = now w ->
               match
                 match Client.wake_monitors c3 w3 with
                 | Some (c4, w4) =>
                     if decide (Client.wg c4 = 0%nat)
                     then
                       let '(c5, w5) :=
                         Client.updateStatus StatusStopped None c4 w4 in
                       Returns (@None error, c5, w5)
                     else Hangs
                 | None => Hangs
                 end
               with
               | Returns (_, c6, w6) => Some (c6, w6)
               | _ => None
               end = Some (c', w') ->
               ctx_done w' (Client.ctx c') = true /\
               0 <= Client.reconnectAttempt c' /\
               Client.MaxReconnectAttempts (Client.opts c') <= int_max).
    { intros c3 w3 E1 E2 E3 E4 E5. unfold Client.wake_monitors.
      match goal with
      | |- context [Client.run_monitors ?n c3 ?w4] =>
          destruct (run_monitors_cancelled n c3 w4)
            as (c4 & w5 & Hrun & _ & _ & _ & H4 & H5 & _ & H7 & H8 & H9 & _)
      end.
      { rewrite E1, <- Hdone. apply ctx_done_ext; simpl; assumption. }
      { rewrite E3. exact Hr. }
      { rewrite E2. exact Hmax. }
      rewrite Hrun. destruct (decide _); [|discriminate].
      unfold Client.updateStatus. rewrite Client_updateStatusLocked_spec.
      intros [= <- <-]. simpl. rewrite H7, H8, E1, E2.
      split; [|split; assumption].
      eapply (ctx_done_later w); [| |exact Hdone].
      - simpl. simpl in H4. rewrite H4. exact E4.
      - simpl. simpl in H5. rewrite <- E5. exact H5. }
    destruct (Client.conn c1) as [k|].
    + destruct (close_conn_at_ctxs k w1) as [Hx Hn].
      apply Hgo; try reflexivity; assumption.
    + apply Hgo; reflexivity.
  - intros [= <- <-]. split_and!; assumption.
  - destruct (Client_ProcessModel_frame answer req c w) as [H1 H2].
    destruct (Client.ProcessModel answer req c w) as [[r c1] w1].
    simpl in H1, H2. subst. intros [= <- <-]. split_and!; assumption.
  - destruct (disconnect_cancelled k c w Hdone Hr Hmax)
      as (c1 & w1 & Hd & _ & H2 & H3 & _ & H5 & H6 & H7 & _).
    rewrite Hd. intros [= <- <-]. rewrite H5, H6.
    split; [|split; assumption].
    eapply ctx_done_later; eassumption.
  - intros [= <- <-]. split; [|split; assumption].
    rewrite <- Hdone. apply ctx_done_ext.
    + unfold deliver. destruct (notifications w !! i); reflexivity.
    + unfold deliver. destruct (notifications w !! i); reflexivity.
Qed.

Lemma client_run_cancelled ops : forall c w c' w',
  ctx_done w (Client.ctx c) = true ->
  0 <= Client.reconnectAttempt c ->
  Client.MaxReconnectAttempts (Client.opts c) <= int_max ->
  Trace.client_run ops c w = Some (c', w') ->
  ctx_done w' (Client.ctx c') = true /\
  0 <= Client.reconnectAttempt c' /\
  Client.MaxReconnectAttempts (Client.opts c') <= int_max.
Proof.
  induction ops as [|op ops IH]; intros c w c' w' Hdone Hr Hmax; simpl.
  - intros [= <- <-]. split_and!; assumption.
  - destruct (Trace.client_step op c w) as [[c1 w1]|] eqn:Hstep; [|discriminate].
    destruct (client_step_cancelled op c w c1 w1 Hdone Hr Hmax Hstep)
      as (H1 & H2 & H3).
    apply IH; assumption.
Qed.

(** X24: a cancelled context stays cancelled, so automatic reconnection
    does not survive a [Stop].  Once the client's context is done, which
    a successful [Stop] brings about, then after any further calls and
    events (a new [Start] among them) a monitor that wakes never dials: it
    returns after one reconnect delay at most, with the connected flag
    cleared and the connection field as it was.  So the loss of a
    connection, handled to its end, makes no dial; the context is still
    done afterwards. *)
Theorem X24_no_reconnect_after_stop :
  forall c w ops c1 w1 k,
    ctx_done w (Client.ctx c) = true ->
    0 <= Client.reconnectAttempt c ->
    Client.MaxReconnectAttempts (Client.opts c) <= int_max ->
    Trace.client_run ops c w = Some (c1, w1) ->
    (exists c2 w2,
        Client.monitorConnection c1 w1 = Some (c2, w2) /\
        dials w2 = dials w1 /\
        now w1 <= now w2
          <= now w1 + Z.max 0 (Client.ReconnectDelay (Client.opts c1)) /\
        Client.isConnected c2 = false /\
        Client.conn c2 = Client.conn c1) /\
    (exists c2 w2,
        Client.disconnect k c1 w1 = Some (c2, w2) /\
        dials w2 = dials w1 /\
        ctx_done w2 (Client.ctx c2) = true /\
        Client.conn c2 = Client.conn c1 /\
        (Client.status c2 = Client.status c1 \/
         Client.status c2 = StatusFailed)).
Proof.
  intros c w ops c1 w1 k Hdone Hr Hmax Hrun.
  destruct (client_run_cancelled ops c w c1 w1 Hdone Hr Hmax Hrun)
    as (Hdone1 & Hr1 & Hmax1).
  split; [exact (monitorConnection_cancelled c1 w1 Hdone1 Hr1 Hmax1)|].
  destruct (disconnect_cancelled k c1 w1 Hdone1 Hr1 Hmax1)
    as (c2 & w2 & Hd & H1 & H2 & H3 & H4 & H5 & _ & _ & H8).
  exists c2, w2. split; [exact Hd|]. split; [exact H1|].
  split; [|split; assumption].
  rewrite H5. eapply ctx_done_later; eassumption.
Qed.

(** The stopped client is started again and loses its new connection. *)
Lemma X24_no_reconnect_after_stop_witness :
  let c := fst Scenario.stopped_client in
  let w := snd Scenario.stopped_client in
  let r := default (c, w) (Trace.client_run [Trace.CStart] c w) in
  Trace.client_run [Trace.CStart] c w = Some (fst r, snd r) /\
  Client.status (fst r) = StatusRunning /\
  Client.conn (fst r) = Some 1%nat /\
  (exists c2 w2,
      Client.monitorConnection (fst r) (snd r) = Some (c2, w2) /\
      dials w2 = 2%nat /\
      now w2 <= now (snd r) + 10 * Scenario.ms) /\
  exists c2 w2,
    Client.disconnect 1 (fst r) (snd r) = Some (c2, w2) /\
    dials w2 = 2%nat /\
    Client.status c2 = StatusRunning.
Proof.
  cbv zeta.
  set (c := fst Scenario.stopped_client).
  set (w := snd Scenario.stopped_client).
  set (r := default (c, w) (Trace.client_run [Trace.CStart] c w)).
  assert (H : Trace.client_run [Trace.CStart] c w = Some (fst r, snd r))
    by (vm_compute; reflexivity).
  split; [exact H|]. split; [vm_compute; reflexivity|].
  split; [vm_compute; reflexivity|].
  destruct (X24_no_reconnect_after_stop c w [Trace.CStart] (fst r) (snd r) 1%nat
              ltac:(vm_compute; reflexivity) ltac:(vm_compute; discriminate)
              ltac:(vm_compute; discriminate) H)
    as [(cm & wm & Hm & Hmd & Hclock & _)
          (c2 & w2 & Hd & Hdials & _ & _ & Hst)].
  split.
  { exists cm, wm. split; [exact Hm|]. split.
    - rewrite Hmd. vm_compute. reflexivity.
    - destruct Hclock as [_ Hup].
      change (Z.max 0 (Client.ReconnectDelay (Client.opts (fst r))))
        with (10 * Scenario.ms) in Hup.
      exact Hup. }
  exists c2, w2. split; [exact Hd|]. split.
  - rewrite Hdials. vm_compute. reflexivity.
  - assert (Hd' : exists c3 w3,
               Client.disconnect 1 (fst r) (snd r) = Some (c3, w3) /\
               Client.status c3 = StatusRunning).
    { vm_compute. do 2 eexists. split; reflexivity. }
    destruct Hd' as (c3 & w3 & Hd3 & Hst3).
    rewrite Hd in Hd3. injection Hd3 as <- <-. exact Hst3.
Defined.

(* ===================================================================== *)
(** ** The default handler, end to end *)
(* ===================================================================== *)

(** X25: what a server with the default handler answers.  Once the
    default handler is registered for "mcp.processModel", then after any
    sequence of calls and events, whatever the status of the server, a
    request for that method whose payload decodes is answered on an open
    connection with a result under the request's id: a response with the
    identifier of the model request, marked successful, with no error
    message, stamped with the current time, whose results are exactly
    "status" = "processed" and "message" = "Model processed
    successfully".  The model data and parameters are not looked at. *)
Theorem X25_default_handler_end_to_end :
  forall ops s w s' w' conn id modelReq,
    Server.handlers s !! "mcp.processModel"
    = Some Server.NewDefaultModelHandler ->
    Trace.server_run ops s w = Some (s', w') ->
    conn_closed conn = false ->
    exists resp,
      Server.Handle s' w' conn
        {| Method := "mcp.processModel"; Params := Some (Decodes modelReq);
           ReqID := id |}
      = Returns (push (ReplyResult id (Some resp)) conn) /\
      RespID resp = ID modelReq /\
      Success resp = true /\
      ErrorMessage resp = "" /\
      RespTimestamp resp = now w' /\
      Results resp
      = <["message" := VString "Model processed successfully"]>
          (<["status" := VString "processed"]> ∅).
Proof.
  intros ops s w s' w' conn id modelReq Hh Hrun Hopen.
  pose proof (server_run_keeps_handler ops s w s' w' _ _ Hh Hrun) as Hkeep.
  unfold Server.Handle. cbn [Method]. rewrite Hkeep.
  rewrite decide_True by reflexivity.
  unfold Server.handleProcessModel.
  cbn [Server.ProcessModel Server.NewDefaultModelHandler Params Unmarshal
         Server.DefaultModelHandler_ProcessModel ReqID].
  unfold send. rewrite Hopen. cbn [snd].
  eexists. split; [reflexivity|]. split_and!; reflexivity.
Qed.

(** The test server after a session, asked by a client that is still
    connected. *)
Lemma X25_default_handler_end_to_end_witness :
  let s := fst Scenario.new_server in
  let w := snd Scenario.new_server in
  let ops := [Trace.SStart; Trace.SAccept 0] in
  let r := default (s, w) (Trace.server_run ops s w) in
  Trace.server_run ops s w = Some (fst r, snd r) /\
  exists resp,
    Server.Handle (fst r) (snd r) Scenario.open_conn Scenario.process_call
    = Returns (push (ReplyResult (IDNum 2) (Some resp)) Scenario.open_conn) /\
    RespID resp = "abc" /\
    Success resp = true.
Proof.
  cbv zeta.
  set (s := fst Scenario.new_server). set (w := snd Scenario.new_server).
  set (ops := [Trace.SStart; Trace.SAccept 0]).
  set (r := default (s, w) (Trace.server_run ops s w)).
  assert (H : Trace.server_run ops s w = Some (fst r, snd r))
    by (vm_compute; reflexivity).
  split; [exact H|].
  destruct (X25_default_handler_end_to_end ops s w (fst r) (snd r)
              Scenario.open_conn (IDNum 2) Scenario.sample_request
              ltac:(vm_compute; reflexivity) H eq_refl)
    as (resp & HH & H1 & H2 & _).
  exists resp. split; [exact HH|]. split; [exact H1|exact H2].
Defined.

(* ===================================================================== *)
(** ** A call inside a reconnection *)
(* ===================================================================== *)

(** [Stop] is its first part, the monitors its close wakes, and its
    second part. *)
Lemma Client_Stop_pieces c w :
  Client.Stop c w
  = match Interleave.Stop_enter c w with
    | (Some e, c1, w1) => Returns (Some e, c1, w1)
    | (None, c1, w1) =>
        match Client.wake_monitors c1 w1 with
        | Some (c2, w2) => Interleave.Stop_leave c2 w2
        | None => Hangs
        end
    end.
Proof.
  unfold Client.Stop, Interleave.Stop_enter, Interleave.Stop_leave.
  destruct (decide _); [reflexivity|].
  destruct (Client.updateStatusLocked _ _ c w) as [c1 w1].
  destruct (Client.conn c1); reflexivity.
Qed.

(** A turn of the loop of [attemptReconnect] is its beginning and its
    end. *)
Lemma attemptReconnect_loop_pieces fuel c w :
  Client.attemptReconnect_loop (S fuel) c w
  = match Interleave.turn_begins c w with
    | Interleave.Exhausted => Some (Interleave.gives_up c w)
    | Interleave.Cancelled c1 w1 => Some (c1, w1)
    | Interleave.Dialing c1 w1 =>
        match Interleave.turn_ends c1 w1 with
        | inl (c2, w2) => Client.attemptReconnect_loop fuel c2 w2
        | inr (c2, w2) => Some (c2, w2)
        end
    end.
Proof.
  cbn [Client.attemptReconnect_loop]. unfold Interleave.turn_begins.
  destruct (bool_decide _); [|reflexivity].
  destruct (ctx_done _ _); [reflexivity|].
  unfold Interleave.turn_ends.
  destruct (Client.connect _ _) as [[[err|] c2] w2]; reflexivity.
Qed.

(** The monitor, once woken, is the flag, the loop if it is entered, and
    the [Done]. *)
Lemma monitorConnection_pieces c w :
  Client.monitorConnection c w
  = let '(c1, enters) := Interleave.monitor_wakes c in
    match (if enters then Client.attemptReconnect c1 w else Some (c1, w)) with
    | Some (c2, w2) => Some (Interleave.monitor_done c2, w2)
    | None => None
    end.
Proof. reflexivity. Qed.

(** A Running client with auto-reconnect, at rest on its open connection,
    whose context is not cancelled: the schedule up to the dial. *)
Lemma stop_enters_while_dialing c w k :
  Trace.client_settled c w ->
  Client.isConnected c = true ->
  Client.conn c = Some k ->
  Client.AutoReconnect (Client.opts c) = true ->
  Client.reconnectAttempt c < Client.MaxReconnectAttempts (Client.opts c) ->
  ctxs w !! Client.ctx c = Some None ->
  exists conn cs c3 w3,
    conns w !! k = Some conn /\
    cs = <[k := close_conn conn]> (conns w) /\
    Interleave.monitor_wakes c = (Client.set_isConnected false c, true) /\
    Interleave.turn_begins (Client.set_isConnected false c)
      (Interleave.unblock (close_conn_at k w))
    = Interleave.Dialing
        (Client.set_reconnectAttempt (Client.reconnectAttempt c + 1)
           (Client.set_isConnected false c))
        (Sleep (Client.ReconnectDelay (Client.opts c))
           (set_monitors [] (set_conns cs w))) /\
    Interleave.Stop_enter
      (Client.set_reconnectAttempt (Client.reconnectAttempt c + 1)
         (Client.set_isConnected false c))
      (Sleep (Client.ReconnectDelay (Client.opts c))
         (set_monitors [] (set_conns cs w)))
    = (None, c3, w3) /\
    c3 = Client.set_isConnected false
           (Client.set_conn None
              (Client.set_status StatusStopping
                 (Client.set_reconnectAttempt (Client.reconnectAttempt c + 1)
                    (Client.set_isConnected false c)))) /\
    conns w3 = cs /\ monitors w3 = [] /\
    dials w3 = dials w /\ dial_result w3 = dial_result w /\
    delivered w3 = delivered w /\
    now w3 = now w + Z.max 0 (Client.ReconnectDelay (Client.opts c)) /\
    ctxs w3 = <[Client.ctx c := Some (now w3)]> (ctxs w) /\
    ctx_done w3 (Client.ctx c) = true /\
    notifications w3
    = notifications w
        ++ map (fun cb => (cb, {| OldStatus := StatusRunning;
                                  NewStatus := StatusStopping;
                                  Timestamp := now w3; Error := None |}))
             (Client.callbacks c).
Proof.
  intros (Hwg & Hmon & Hr & Hmax & Hctx & Hev) Hic Hconn Hauto Hlt Hnone.
  destruct Hmon as [[_ Hic']|(k0 & Hmon & Hck & Hopen & Hrun & _)];
    [congruence|].
  assert (k0 = k) as -> by congruence.
  unfold conn_is_closed in Hopen.
  destruct (conns w !! k) as [conn|] eqn:Hk; [|discriminate].
  exists conn, (<[k := close_conn conn]> (conns w)).
  assert (Hclose : close_conn_at k w
                   = set_conns (<[k := close_conn conn]> (conns w)) w).
  { unfold close_conn_at. rewrite Hk. reflexivity. }
  assert (Hunblock : Interleave.unblock (close_conn_at k w)
                     = set_monitors []
                         (set_conns (<[k := close_conn conn]> (conns w)) w)).
  { unfold Interleave.unblock. rewrite Hclose.
    cbn [monitors set_conns]. rewrite Hmon.
    rewrite filter_cons, filter_nil. rewrite decide_False; [reflexivity|].
    unfold conn_is_closed. cbn [conns set_conns].
    rewrite list_lookup_insert_eq by (eapply lookup_lt_Some; exact Hk).
    simpl. discriminate. }
  assert (Hwakes : Interleave.monitor_wakes c
                   = (Client.set_isConnected false c, true)).
  { unfold Interleave.monitor_wakes.
    cbn [Client.opts Client.status Client.set_isConnected].
    rewrite Hauto, Hrun, bool_decide_eq_true_2 by reflexivity. reflexivity. }
  assert (Hturn : Interleave.turn_begins (Client.set_isConnected false c)
                    (Interleave.unblock (close_conn_at k w))
                  = Interleave.Dialing
                      (Client.set_reconnectAttempt
                         (Client.reconnectAttempt c + 1)
                         (Client.set_isConnected false c))
                      (Sleep (Client.ReconnectDelay (Client.opts c))
                         (set_monitors []
                            (set_conns (<[k := close_conn conn]> (conns w))
                               w)))).
  { rewrite Hunblock. unfold Interleave.turn_begins.
    cbn [Client.opts Client.reconnectAttempt Client.set_isConnected
           Client.set_reconnectAttempt Client.ctx].
    rewrite bool_decide_eq_true_2 by exact Hlt.
    rewrite (next_attempt_no_wrap _ _ (proj1 Hr) Hlt Hmax).
    rewrite ctx_never_done by exact Hnone. reflexivity. }
  set (c2 := Client.set_reconnectAttempt (Client.reconnectAttempt c + 1)
               (Client.set_isConnected false c)) in *.
  set (w2 := Sleep (Client.ReconnectDelay (Client.opts c))
               (set_monitors []
                  (set_conns (<[k := close_conn conn]> (conns w)) w))) in *.
  assert (Hnd : ctx_done w2 (Client.ctx c) = false)
    by (apply ctx_never_done; exact Hnone).
  unfold Interleave.Stop_enter.
  destruct (decide _) as [Hne|_]; [exfalso; apply Hne; exact Hrun|].
  rewrite Client_updateStatusLocked_spec.
  cbn [Client.ctx Client.conn Client.set_status Client.callbacks
         Client.status c2 Client.set_reconnectAttempt Client.set_isConnected].
  rewrite Hconn, Hrun. unfold cancel.
  change (ctx_done (set_notifications _ w2) (Client.ctx c))
    with (ctx_done w2 (Client.ctx c)).
  rewrite Hnd. unfold close_conn_at. cbn [conns set_ctxs set_notifications w2
                                          Sleep set_now set_monitors set_conns].
  rewrite list_lookup_insert_eq by (eapply lookup_lt_Some; exact Hk).
  do 2 eexists. split; [reflexivity|]. split; [reflexivity|].
  split; [exact Hwakes|]. split; [exact Hturn|].
  split; [reflexivity|]. split; [reflexivity|].
  cbn. split_and!; try reflexivity.
  - rewrite list_insert_insert_eq. reflexivity.
  - unfold ctx_done. cbn.
    rewrite list_lookup_insert_eq by exact Hctx.
    apply bool_decide_eq_true_2. lia.
Qed.

(** The schedule with the dial accepted: what [Stop] waits on. *)
Lemma late_reconnect_state :
  forall c w k,
    Trace.client_settled c w ->
    Client.isConnected c = true ->
    Client.conn c = Some k ->
    Client.AutoReconnect (Client.opts c) = true ->
    Client.reconnectAttempt c < Client.MaxReconnectAttempts (Client.opts c) ->
    ctxs w !! Client.ctx c = Some None ->
    dial_result w (dials w) = None ->
    exists c' w',
      Interleave.stop_while_dialing k c w = Some (c', w') /\
      Interleave.Stop_leave c' w' = Hangs /\
      Client.status c' = StatusStopping /\
      Client.wg c' = 1%nat /\
      monitors w' = [length (conns w)] /\
      Client.conn c' = Some (length (conns w)) /\
      Client.isConnected c' = true /\
      conns w' !! length (conns w)
      = Some {| conn_ctx := Client.ctx c; conn_closed := false;
                conn_sent := [] |} /\
      conn_is_closed w' (length (conns w)) = false /\
      conn_is_closed w' k = true /\
      ctx_done w' (Client.ctx c') = true /\
      dials w' = S (dials w) /\
      Client.reconnectAttempt c' = 0 /\
      fst (fst (Interleave.Stop_enter c' w'))
      = Some (StateError "stop" "client" StatusStopping) /\
      fst (fst (Client.Start c' w'))
      = Some (StateError "start" "client" StatusStopping).
Proof.
  intros c w k Hs Hic Hconn Hauto Hlt Hnone Hdial.
  destruct (stop_enters_while_dialing c w k Hs Hic Hconn Hauto Hlt Hnone)
    as (conn & cs & c3 & w3 & Hk & Hcs & Hwakes & Hturn & Hstop & Hc3 & Hconns
        & Hmons & Hdials & Horacle & _ & _ & Hctxs & Hdone & _).
  destruct Hs as (Hwg & Hmon & _ & _ & Hctx & _).
  destruct Hmon as [[_ Hic']|(k0 & Hmon & Hck & _)]; [congruence|].
  rewrite Hmon in Hwg. cbn [length] in Hwg.
  assert (Hlen : length (conns w3) = length (conns w)).
  { rewrite Hconns, Hcs. apply length_insert. }
  unfold Interleave.stop_while_dialing.
  rewrite Hwakes, Hturn, Hstop.
  unfold Interleave.turn_ends, Client.connect.
  rewrite Horacle, Hdials, Hdial. cbn [set_dials set_conns conns monitors].
  rewrite Hmons, Hlen.
  do 2 eexists. split; [reflexivity|].
  unfold Interleave.monitor_done, Interleave.Stop_leave, Interleave.Stop_enter,
    Client.Start.
  subst c3. cbn. rewrite Hwg. cbn.
  split_and!; try reflexivity.
  - cbn. rewrite Hconns, Hcs.
    rewrite <- (length_insert (conns w) k (close_conn conn)).
    rewrite list_lookup_middle by reflexivity. reflexivity.
  - unfold conn_is_closed. cbn. rewrite Hconns, Hcs.
    rewrite <- (length_insert (conns w) k (close_conn conn)).
    rewrite list_lookup_middle by reflexivity. reflexivity.
  - unfold conn_is_closed. cbn. rewrite Hconns, Hcs.
    rewrite lookup_app_l
      by (rewrite length_insert; eapply lookup_lt_Some; exact Hk).
    rewrite list_lookup_insert_eq by (eapply lookup_lt_Some; exact Hk).
    reflexivity.
  - rewrite <- Hdone. apply ctx_done_ext; reflexivity.
Qed.

(** X7: [Stop] can wait for ever.  A Running client with auto-reconnect is
    at rest on its connection, with its context not cancelled; the peer
    closes the connection and the monitor is in the dial of a reconnection
    turn when [Stop] is called.  [Stop] cancels the context and drops the
    connection, but the turn has already looked at the context: if the
    dial is accepted, [connect] installs the new connection after [Stop]
    cleared the field and adds its monitor to the wait group.  [Stop] then
    blocks in its wait: the client is Stopping, reports itself connected,
    its context is cancelled, and the one goroutine it waits for is
    blocked on the new connection, which is open and which no call of the
    client closes, [Stop] and [Start] being refused. *)
Theorem X7_stop_blocks_on_late_reconnect :
  forall c w k,
    Trace.client_settled c w ->
    Client.isConnected c = true ->
    Client.conn c = Some k ->
    Client.AutoReconnect (Client.opts c) = true ->
    Client.reconnectAttempt c < Client.MaxReconnectAttempts (Client.opts c) ->
    ctxs w !! Client.ctx c = Some None ->
    dial_result w (dials w) = None ->
    exists c' w',
      Interleave.stop_while_dialing k c w = Some (c', w') /\
      Interleave.Stop_leave c' w' = Hangs /\
      Client.status c' = StatusStopping /\
      Client.wg c' = 1%nat /\
      monitors w' = [length (conns w)] /\
      Client.conn c' = Some (length (conns w)) /\
      Client.isConnected c' = true /\
      conn_is_closed w' (length (conns w)) = false /\
      conn_is_closed w' k = true /\
      ctx_done w' (Client.ctx c') = true /\
      dials w' = S (dials w) /\
      Client.reconnectAttempt c' = 0 /\
      fst (fst (Interleave.Stop_enter c' w'))
      = Some (StateError "stop" "client" StatusStopping) /\
      fst (fst (Client.Start c' w'))
      = Some (StateError "start" "client" StatusStopping).
Proof.
  intros c w k Hs Hic Hconn Hauto Hlt Hnone Hdial.
  destruct (late_reconnect_state c w k Hs Hic Hconn Hauto Hlt Hnone Hdial)
    as (c' & w' & H1 & H2 & H3 & H4 & H5 & H6 & H7 & _ & H8 & H9 & H10 & H11
        & H12 & H13 & H14).
  exists c', w'. split_and!; assumption.
Qed.

(** The running client of the tests is at rest. *)
Lemma running_client_settled :
  Trace.client_settled (fst (Scenario.running_client Scenario.reachable))
    (snd (Scenario.running_client Scenario.reachable)).
Proof.
  unfold Trace.client_settled. split_and!.
  - vm_compute. reflexivity.
  - right. exists 0%nat. split_and!; vm_compute; reflexivity.
  - vm_compute. discriminate.
  - vm_compute. discriminate.
  - vm_compute. discriminate.
  - vm_compute. lia.
  - vm_compute. repeat constructor.
Qed.

(** The running client of the tests loses its connection; [Stop] is
    called while the first reconnection dial, which will be accepted, is
    in flight. *)
Lemma X7_stop_blocks_on_late_reconnect_witness :
  let c := fst (Scenario.running_client Scenario.reachable) in
  let w := snd (Scenario.running_client Scenario.reachable) in
  exists c' w',
    Interleave.stop_while_dialing 0 c w = Some (c', w') /\
    Interleave.Stop_leave c' w' = Hangs /\
    Client.status c' = StatusStopping /\
    Client.wg c' = 1%nat /\
    Client.conn c' = Some 1%nat /\
    Client.isConnected c' = true /\
    conn_is_closed w' 1 = false.
Proof.
  cbv zeta.
  destruct (X7_stop_blocks_on_late_reconnect
              (fst (Scenario.running_client Scenario.reachable))
              (snd (Scenario.running_client Scenario.reachable)) 0%nat
              running_client_settled)
    as (c' & w' & H1 & H2 & H3 & H4 & _ & H6 & H7 & H8 & _);
    try (vm_compute; reflexivity).
  exists c', w'. split_and!; assumption.
Defined.

(** X10: the client's events leave its state machine when [Stop] falls
    inside the last reconnection attempt.  A Running client with
    auto-reconnect, at rest on its connection, with one attempt left and
    its context not cancelled; the peer closes the connection and [Stop]
    is called while the dial of that last attempt is in flight.  If the
    dial is refused, the loop ends and the monitor records Failed while
    the status is Stopping; the wait group is then empty and [Stop]
    records Stopped over Failed and returns nil.  Each callback gets
    Running to Stopping, then Stopping to Failed with the
    reconnect-exhausted error, then Failed to Stopped; the last two are no
    edges of the state machine. *)
Theorem X10_failed_while_stopping :
  forall c w k msg,
    Trace.client_settled c w ->
    Client.isConnected c = true ->
    Client.conn c = Some k ->
    Client.AutoReconnect (Client.opts c) = true ->
    Client.reconnectAttempt c + 1
    = Client.MaxReconnectAttempts (Client.opts c) ->
    ctxs w !! Client.ctx c = Some None ->
    dial_result w (dials w) = Some msg ->
    let t := now w + Z.max 0 (Client.ReconnectDelay (Client.opts c)) in
    exists c1 w1 c2 w2,
      Interleave.stop_while_dialing k c w = Some (c1, w1) /\
      Client.status c1 = StatusFailed /\
      Client.wg c1 = 0%nat /\
      Interleave.Stop_leave c1 w1 = Returns (None, c2, w2) /\
      Client.status c2 = StatusStopped /\
      Client.conn c2 = None /\
      Client.isConnected c2 = false /\
      dials w2 = S (dials w) /\
      notifications w2
      = notifications w
          ++ map (fun cb => (cb, {| OldStatus := StatusRunning;
                                    NewStatus := StatusStopping;
                                    Timestamp := t; Error := None |}))
               (Client.callbacks c)
          ++ map (fun cb => (cb, {| OldStatus := StatusStopping;
                                    NewStatus := StatusFailed;
                                    Timestamp := t;
                                    Error := Some ReconnectExhausted |}))
               (Client.callbacks c)
          ++ map (fun cb => (cb, {| OldStatus := StatusFailed;
                                    NewStatus := StatusStopped;
                                    Timestamp := t; Error := None |}))
               (Client.callbacks c) /\
      Trace.client_edge StatusStopping StatusFailed = false /\
      Trace.client_edge StatusFailed StatusStopped = false.
Proof.
  intros c w k msg Hs Hic Hconn Hauto Hlast Hnone Hdial t.
  assert (Hlt : Client.reconnectAttempt c
                < Client.MaxReconnectAttempts (Client.opts c)) by lia.
  destruct (stop_enters_while_dialing c w k Hs Hic Hconn Hauto Hlt Hnone)
    as (conn & cs & c3 & w3 & Hk & Hcs & Hwakes & Hturn & Hstop & Hc3 & Hconns
        & Hmons & Hdials & Horacle & _ & Hnow & Hctxs & Hdone & Hnot).
  destruct Hs as (Hwg & Hmon & _ & _ & Hctx & _).
  destruct Hmon as [[_ Hic']|(k0 & Hmon & Hck & _)]; [congruence|].
  rewrite Hmon in Hwg. cbn [length] in Hwg.
  unfold Interleave.stop_while_dialing.
  rewrite Hwakes, Hturn, Hstop.
  unfold Interleave.turn_ends, Client.connect.
  rewrite Horacle, Hdials, Hdial.
  unfold Interleave.turn_begins.
  rewrite bool_decide_eq_false_2 by (subst c3; cbn; lia).
  unfold Interleave.gives_up, Client.updateStatus.
  rewrite Client_updateStatusLocked_spec.
  do 2 eexists. eexists _, _. split; [reflexivity|].
  unfold Interleave.monitor_done, Interleave.Stop_leave, Client.updateStatus.
  subst c3. cbn [Client.wg Client.set_wg Client.set_status Client.status
                   Client.set_isConnected Client.set_conn
                   Client.set_reconnectAttempt Client.callbacks Client.conn
                   Client.isConnected].
  rewrite Hwg. cbn [pred]. rewrite decide_True by reflexivity.
  rewrite Client_updateStatusLocked_spec.
  split; [reflexivity|]. split; [reflexivity|]. split; [reflexivity|].
  cbn. rewrite Hnot, Hnow. fold t. rewrite <- !app_assoc.
  split_and!; reflexivity.
Qed.

(** A client with one reconnection attempt and one observer, Running on a
    server that is lost after the first dial. *)
Lemma X10_failed_while_stopping_witness :
  let built := Client.New [Client.WithMaxReconnectAttempts 1]
                 (genesis 0 Scenario.lost_after_first Scenario.reachable) in
  let started := Client.Start
                   (Client.OnStatusChange Scenario.observer (fst built))
                   (snd built) in
  let c := snd (fst started) in
  let w := snd started in
  exists c1 w1 c2 w2,
    Interleave.stop_while_dialing 0 c w = Some (c1, w1) /\
    Interleave.Stop_leave c1 w1 = Returns (None, c2, w2) /\
    Client.status c2 = StatusStopped /\
    map (fun task => (OldStatus (snd task), NewStatus (snd task)))
      (notifications w2)
    = [(StatusStopped, StatusStarting); (StatusStarting, StatusRunning);
       (StatusRunning, StatusStopping); (StatusStopping, StatusFailed);
       (StatusFailed, StatusStopped)].
Proof.
  cbv zeta.
  set (built := Client.New [Client.WithMaxReconnectAttempts 1]
                  (genesis 0 Scenario.lost_after_first Scenario.reachable)).
  set (started := Client.Start
                    (Client.OnStatusChange Scenario.observer (fst built))
                    (snd built)).
  assert (Hs : Trace.client_settled (snd (fst started)) (snd started)).
  { unfold Trace.client_settled. split_and!.
    - vm_compute. reflexivity.
    - right. exists 0%nat. split_and!; vm_compute; reflexivity.
    - vm_compute. discriminate.
    - vm_compute. discriminate.
    - vm_compute. discriminate.
    - vm_compute. lia.
    - vm_compute. repeat constructor. }
  destruct (X10_failed_while_stopping (snd (fst started)) (snd started) 0%nat
              "connection refused" Hs)
    as (c1 & w1 & c2 & w2 & H1 & _ & _ & H4 & H5 & _ & _ & _ & H9 & _);
    try (vm_compute; reflexivity).
  exists c1, w1, c2, w2. split; [exact H1|]. split; [exact H4|].
  split; [exact H5|]. rewrite H9. vm_compute. reflexivity.
Defined.

(** The schedule with the dial refused while attempts are left: the next
    turn of the loop finds the context cancelled. *)
Lemma refused_dial_then_cancelled c w k msg :
  Trace.client_settled c w ->
  Client.isConnected c = true ->
  Client.conn c = Some k ->
  Client.AutoReconnect (Client.opts c) = true ->
  Client.reconnectAttempt c + 1
  < Client.MaxReconnectAttempts (Client.opts c) ->
  ctxs w !! Client.ctx c = Some None ->
  dial_result w (dials w) = Some msg ->
  let d := Z.max 0 (Client.ReconnectDelay (Client.opts c)) in
  exists c1 w1 c2 w2,
    Interleave.stop_while_dialing k c w = Some (c1, w1) /\
    Client.status c1 = StatusStopping /\
    Client.wg c1 = 0%nat /\
    now w1 = now w + d + d /\
    Interleave.Stop_leave c1 w1 = Returns (None, c2, w2) /\
    Client.status c2 = StatusStopped /\
    Client.conn c2 = None /\
    Client.isConnected c2 = false /\
    Client.reconnectAttempt c2 = Client.reconnectAttempt c + 2 /\
    dials w2 = S (dials w) /\
    ctx_done w2 (Client.ctx c2) = true /\
    notifications w2
    = notifications w
        ++ map (fun cb => (cb, {| OldStatus := StatusRunning;
                                  NewStatus := StatusStopping;
                                  Timestamp := now w + d; Error := None |}))
             (Client.callbacks c)
        ++ map (fun cb => (cb, {| OldStatus := StatusStopping;
                                  NewStatus := StatusStopped;
                                  Timestamp := now w + d + d;
                                  Error := None |}))
             (Client.callbacks c).
Proof.
  intros Hs Hic Hconn Hauto Hleft Hnone Hdial d.
  assert (Hlt : Client.reconnectAttempt c
                < Client.MaxReconnectAttempts (Client.opts c)) by lia.
  destruct (stop_enters_while_dialing c w k Hs Hic Hconn Hauto Hlt Hnone)
    as (conn & cs & c3 & w3 & Hk & Hcs & Hwakes & Hturn & Hstop & Hc3 & Hconns
        & Hmons & Hdials & Horacle & _ & Hnow & Hctxs & Hdone & Hnot).
  destruct Hs as (Hwg & Hmon & Hr & Hmax & Hctx & _).
  destruct Hmon as [[_ Hic']|(k0 & Hmon & Hck & _)]; [congruence|].
  rewrite Hmon in Hwg. cbn [length] in Hwg.
  unfold Interleave.stop_while_dialing.
  rewrite Hwakes, Hturn, Hstop.
  unfold Interleave.turn_ends, Client.connect.
  rewrite Horacle, Hdials, Hdial.
  unfold Interleave.turn_begins.
  rewrite bool_decide_eq_true_2 by (subst c3; cbn; lia).
  assert (Hwrap : wrap_int (Client.reconnectAttempt c3 + 1)
                  = Client.reconnectAttempt c + 2).
  { subst c3. cbn.
    rewrite (next_attempt_no_wrap (Client.reconnectAttempt c + 1)
               (Client.MaxReconnectAttempts (Client.opts c)))
      by (try assumption; lia).
    lia. }
  rewrite Hwrap.
  assert (Hdone2 : ctx_done
                     (Sleep (Client.ReconnectDelay
                               (Client.opts
                                  (Client.set_reconnectAttempt
                                     (Client.reconnectAttempt c + 2) c3)))
                        (set_dials (S (dials w)) w3))
                     (Client.ctx
                        (Client.set_reconnectAttempt
                           (Client.reconnectAttempt c + 2) c3)) = true).
  { subst c3. cbn [Client.ctx Client.set_reconnectAttempt Client.set_status
                     Client.set_isConnected Client.set_conn Client.opts].
    eapply (ctx_done_later w3); [reflexivity| |exact Hdone].
    unfold Sleep. cbn. lia. }
  rewrite Hdone2.
  do 2 eexists. eexists _, _. split; [reflexivity|].
  unfold Interleave.monitor_done, Interleave.Stop_leave, Client.updateStatus.
  subst c3. cbn [Client.wg Client.set_wg Client.set_status Client.status
                   Client.set_isConnected Client.set_conn Client.opts
                   Client.set_reconnectAttempt Client.callbacks Client.conn
                   Client.isConnected Client.reconnectAttempt Client.ctx].
  rewrite Hwg. cbn [pred]. rewrite decide_True by reflexivity.
  rewrite Client_updateStatusLocked_spec.
  split; [reflexivity|]. split; [reflexivity|].
  split; [unfold Sleep; cbn; rewrite Hnow; fold d; lia|].
  split; [reflexivity|].
  cbn [Client.set_status Client.status Client.conn Client.isConnected
         Client.reconnectAttempt Client.callbacks Client.ctx].
  split; [reflexivity|]. split; [reflexivity|]. split; [reflexivity|].
  split; [reflexivity|]. split; [reflexivity|].
  split.
  - rewrite <- Hdone2. apply ctx_done_ext; reflexivity.
  - unfold Sleep. cbn. rewrite Hnot, Hnow. fold d. rewrite <- !app_assoc.
    reflexivity.
Qed.

(** X11: when [Stop] on a Running client returns nil, and what it leaves.
    Called on a client at rest (every goroutine of the wait group is a
    monitor blocked on the client's open connection, no reconnection is
    going on), [Stop] returns nil at once: the client is Stopped, not
    connected and without connection, its connection is closed, its
    context is cancelled, the wait group is empty, no dial is made, each
    callback gets Running to Stopping and Stopping to Stopped, and the
    client is at rest again.  Called while a reconnection dial is in
    flight, with attempts left, it returns nil too if that dial is
    refused, but only after the monitor has slept the next delay through
    and found the context cancelled; the dial in flight is the last
    one. *)
Theorem X11_client_stop_from_running :
  (forall c w,
      Trace.client_settled c w ->
      Client.status c = StatusRunning ->
      exists c' w',
        Client.Stop c w = Returns (None, c', w') /\
        Client.status c' = StatusStopped /\
        Client.conn c' = None /\
        Client.isConnected c' = false /\
        Client.wg c' = 0%nat /\
        ctx_done w' (Client.ctx c') = true /\
        (forall k, Client.conn c = Some k -> conn_is_closed w' k = true) /\
        dials w' = dials w /\
        notifications w'
        = notifications w
            ++ map (fun cb => (cb, {| OldStatus := StatusRunning;
                                      NewStatus := StatusStopping;
                                      Timestamp := now w; Error := None |}))
                 (Client.callbacks c)
            ++ map (fun cb => (cb, {| OldStatus := StatusStopping;
                                      NewStatus := StatusStopped;
                                      Timestamp := now w; Error := None |}))
                 (Client.callbacks c) /\
        Trace.client_settled c' w') /\
  (forall c w k msg,
      Trace.client_settled c w ->
      Client.isConnected c = true ->
      Client.conn c = Some k ->
      Client.AutoReconnect (Client.opts c) = true ->
      Client.reconnectAttempt c + 1
      < Client.MaxReconnectAttempts (Client.opts c) ->
      ctxs w !! Client.ctx c = Some None ->
      dial_result w (dials w) = Some msg ->
      let d := Z.max 0 (Client.ReconnectDelay (Client.opts c)) in
      exists c1 w1 c2 w2,
        Interleave.stop_while_dialing k c w = Some (c1, w1) /\
        now w1 = now w + d + d /\
        Interleave.Stop_leave c1 w1 = Returns (None, c2, w2) /\
        Client.status c2 = StatusStopped /\
        Client.conn c2 = None /\
        Client.isConnected c2 = false /\
        dials w2 = S (dials w) /\
        ctx_done w2 (Client.ctx c2) = true /\
        notifications w2
        = notifications w
            ++ map (fun cb => (cb, {| OldStatus := StatusRunning;
                                      NewStatus := StatusStopping;
                                      Timestamp := now w + d;
                                      Error := None |}))
                 (Client.callbacks c)
            ++ map (fun cb => (cb, {| OldStatus := StatusStopping;
                                      NewStatus := StatusStopped;
                                      Timestamp := now w + d + d;
                                      Error := None |}))
                 (Client.callbacks c)).
Proof.
  split.
  - intros c w Hs Hrun.
    destruct (settled_Stop_running c w Hs Hrun)
      as (c' & w' & HS & H1 & H2 & H3 & H4 & _ & H6 & _ & _ & _ & _ & H11 & _
          & H13 & H14 & H15).
    exists c', w'. split_and!; assumption.
  - intros c w k msg Hs Hic Hconn Hauto Hleft Hnone Hdial d.
    destruct (refused_dial_then_cancelled c w k msg Hs Hic Hconn Hauto Hleft
                Hnone Hdial)
      as (c1 & w1 & c2 & w2 & H1 & _ & _ & H4 & H5 & H6 & H7 & H8 & _ & H10
          & H11 & H12).
    exists c1, w1, c2, w2. split_and!; assumption.
Qed.

(** The running client of the tests is stopped at rest; and the client
    whose server is lost after the first dial is stopped while its first
    reconnection dial is in flight. *)
Lemma X11_client_stop_from_running_witness :
  (let c := fst (Scenario.running_client Scenario.reachable) in
   let w := snd (Scenario.running_client Scenario.reachable) in
   exists c' w',
     Client.Stop c w = Returns (None, c', w') /\
     Client.status c' = StatusStopped /\
     Client.conn c' = None /\
     ctx_done w' (Client.ctx c') = true) /\
  (let c := fst (Scenario.running_client Scenario.lost_after_first) in
   let w := snd (Scenario.running_client Scenario.lost_after_first) in
   exists c1 w1 c2 w2,
     Interleave.stop_while_dialing 0 c w = Some (c1, w1) /\
     now w1 = now w + 20 * Scenario.ms /\
     Interleave.Stop_leave c1 w1 = Returns (None, c2, w2) /\
     Client.status c2 = StatusStopped).
Proof.
  cbv zeta. split.
  - destruct (proj1 X11_client_stop_from_running
                (fst (Scenario.running_client Scenario.reachable))
                (snd (Scenario.running_client Scenario.reachable))
                running_client_settled eq_refl)
      as (c' & w' & HS & H1 & H2 & _ & _ & H5 & _).
    exists c', w'. split_and!; assumption.
  - assert (Hs : Trace.client_settled
                   (fst (Scenario.running_client Scenario.lost_after_first))
                   (snd (Scenario.running_client Scenario.lost_after_first))).
    { unfold Trace.client_settled. split_and!.
      - vm_compute. reflexivity.
      - right. exists 0%nat. split_and!; vm_compute; reflexivity.
      - vm_compute. discriminate.
      - vm_compute. discriminate.
      - vm_compute. discriminate.
      - vm_compute. lia.
      - vm_compute. repeat constructor. }
    destruct (proj2 X11_client_stop_from_running
                (fst (Scenario.running_client Scenario.lost_after_first))
                (snd (Scenario.running_client Scenario.lost_after_first))
                0%nat "connection refused" Hs)
      as (c1 & w1 & c2 & w2 & H1 & H2 & H3 & H4 & _);
      try (vm_compute; reflexivity).
    exists c1, w1, c2, w2. split; [exact H1|]. split; [|split; assumption].
    rewrite H2. vm_compute. reflexivity.
Defined.

(** The schedule with the dial accepted, once the peer has closed the new
    connection: [Stop] returns with the connection field set. *)
Lemma late_reconnect_then_closed c w k :
  Trace.client_settled c w ->
  Client.isConnected c = true ->
  Client.conn c = Some k ->
  Client.AutoReconnect (Client.opts c) = true ->
  Client.reconnectAttempt c < Client.MaxReconnectAttempts (Client.opts c) ->
  ctxs w !! Client.ctx c = Some None ->
  dial_result w (dials w) = None ->
  exists c' w',
    Interleave.stop_then_peer_closes k c w = Some (Returns (None, c', w')) /\
    Client.status c' = StatusStopped /\
    Client.conn c' = Some (length (conns w)) /\
    Client.isConnected c' = false /\
    Client.wg c' = 0%nat /\
    conn_is_closed w' (length (conns w)) = true.
Proof.
  intros Hs Hic Hconn Hauto Hlt Hnone Hdial.
  destruct (late_reconnect_state c w k Hs Hic Hconn Hauto Hlt Hnone Hdial)
    as (c1 & w1 & H1 & _ & Hst & Hwg & Hmons & Hc & _ & Hlook & _).
  unfold Interleave.stop_then_peer_closes. rewrite H1, Hc.
  unfold Interleave.monitor_wakes.
  cbn [Client.opts Client.status Client.set_isConnected].
  rewrite Hst, bool_decide_eq_false_2 by discriminate.
  rewrite andb_false_r.
  unfold Interleave.monitor_done, Interleave.Stop_leave.
  cbn [Client.wg Client.set_wg Client.set_isConnected]. rewrite Hwg.
  cbn [pred]. rewrite decide_True by reflexivity.
  unfold Client.updateStatus. rewrite Client_updateStatusLocked_spec.
  do 2 eexists. split; [reflexivity|].
  cbn [Client.status Client.set_status Client.conn Client.set_wg
         Client.set_isConnected Client.isConnected Client.wg].
  split; [reflexivity|]. split; [exact Hc|]. split; [reflexivity|].
  split; [reflexivity|].
  unfold conn_is_closed, Interleave.unblock, close_conn_at. rewrite Hlook.
  cbn. rewrite list_lookup_insert_eq by (eapply lookup_lt_Some; exact Hlook).
  reflexivity.
Qed.

(** X14: when [ProcessModel] answers with the not-connected error.  It
    does on a client just built by [New], and after a [Stop] that returned
    nil having found every monitor blocked on its connection, and it
    leaves everything as it was.  It does not after a [Stop] that returned
    nil with a reconnection dial in flight that was accepted: the new
    connection was installed after [Stop] had cleared the field, [Stop]
    came back once the peer had closed it, and the call finds a
    connection, a closed one, and fails with an RPC error. *)
Theorem X14_no_connection_no_call :
  (forall options w answer req,
      let c := fst (Client.New options w) in
      let w1 := snd (Client.New options w) in
      Client.ProcessModel answer req c w1
      = ((None, Some NotConnected), c, w1)) /\
  (forall c w c' w' answer req,
      Client.wg c = length (monitors w) ->
      Client.Stop c w = Returns (None, c', w') ->
      Client.ProcessModel answer req c' w'
      = ((None, Some NotConnected), c', w')) /\
  (forall c w k answer req,
      Trace.client_settled c w ->
      Client.isConnected c = true ->
      Client.conn c = Some k ->
      Client.AutoReconnect (Client.opts c) = true ->
      Client.reconnectAttempt c < Client.MaxReconnectAttempts (Client.opts c) ->
      ctxs w !! Client.ctx c = Some None ->
      dial_result w (dials w) = None ->
      exists c' w',
        Interleave.stop_then_peer_closes k c w = Some (Returns (None, c', w')) /\
        Client.status c' = StatusStopped /\
        Client.conn c' = Some (length (conns w)) /\
        Client.ProcessModel answer req c' w'
        = ((None,
            Some (RPCError (NetError "jsonrpc2: connection is closed"))),
           c', w')).
Proof.
  split_and!.
  - intros options w answer req. unfold Client.New.
    destruct (WithCancel w) as [cx w1]. reflexivity.
  - intros c w c' w' answer req _ HS. apply Client_Stop_ok_conn in HS.
    unfold Client.ProcessModel. rewrite HS. reflexivity.
  - intros c w k answer req Hs Hic Hconn Hauto Hlt Hnone Hdial.
    destruct (late_reconnect_then_closed c w k Hs Hic Hconn Hauto Hlt Hnone
                Hdial) as (c' & w' & H1 & H2 & H3 & _ & _ & H6).
    exists c', w'. split; [exact H1|]. split; [exact H2|].
    split; [exact H3|].
    unfold Client.ProcessModel. rewrite H3, H6. reflexivity.
Qed.

(** TestClientContextCancellation, a call after [Start] and [Stop]; and
    the running client of the tests stopped while its reconnection dial,
    accepted, is in flight. *)
Lemma X14_no_connection_no_call_witness :
  Client.ProcessModel (inr (NetError "context canceled"))
    Scenario.sample_request
    (fst Scenario.stopped_client) (snd Scenario.stopped_client)
  = ((None, Some NotConnected),
     fst Scenario.stopped_client, snd Scenario.stopped_client) /\
  exists c' w',
    Interleave.stop_then_peer_closes 0
      (fst (Scenario.running_client Scenario.reachable))
      (snd (Scenario.running_client Scenario.reachable))
    = Some (Returns (None, c', w')) /\
    Client.conn c' = Some 1%nat /\
    Client.ProcessModel
      (inl (NewModelResponse Scenario.sample_request 0))
      Scenario.sample_request c' w'
    = ((None, Some (RPCError (NetError "jsonrpc2: connection is closed"))),
       c', w').
Proof.
  split.
  - apply (proj1 (proj2 X14_no_connection_no_call)
             (fst (Scenario.running_client Scenario.reachable))
             (snd (Scenario.running_client Scenario.reachable))).
    + vm_compute. reflexivity.
    + vm_compute. reflexivity.
  - destruct (proj2 (proj2 X14_no_connection_no_call)
                (fst (Scenario.running_client Scenario.reachable))
                (snd (Scenario.running_client Scenario.reachable)) 0%nat
                (inl (NewModelResponse Scenario.sample_request 0))
                Scenario.sample_request running_client_settled)
      as (c' & w' & H1 & _ & H3 & H4); try (vm_compute; reflexivity).
    exists c', w'. split_and!; assumption.
Defined.
